(** * ProjectHub: the authentication layer and the route handlers it guards

    A shallow embedding of [lib/auth.ts] (password hashing, token issue and
    verification, request authentication, the authorization gate) and of the
    HTTP handlers that call it ([api/projects], [api/projects/[id]],
    [api/auth/me], [api/auth/login], [api/auth/register], [api/auth/logout]).

    Conventions.
    - A JavaScript string is a [string]: the sequence of its UTF-8 bytes.
    - An [async] function that can [throw] is a program of the free monad
      [prog] below; running it against a datastore yields its outcome and the
      ordered list of the external effects it performed.
    - The libraries the code calls ([jsonwebtoken], [bcryptjs], [zod],
      Supabase) are not part of the repository.  HMAC, the Blowfish key
      schedule and zod's email pattern are taken as parameters in the class
      [Primitives]; the rest (compact serialisation, base64, JSON text,
      expiry check, salt handling, schema checks) is written out so that it
      can be run.  The datastore is the environment a program runs in. *)

From Stdlib Require Import ZArith NArith List String Ascii Bool Lia.
From Stdlib Require Import DecimalString DecimalN DecimalFacts.
From stdpp Require Import base gmap strings.
Import ListNotations.
Open Scope string_scope.
Open Scope list_scope.
Open Scope Z_scope.

(** ** Characters *)

Module Chars.

Definition dquote : ascii := "034"%char.
Definition backslash : ascii := "092"%char.

Definition code (c : ascii) : N := N_of_ascii c.

Definition in_range (lo hi c : ascii) : bool :=
  (code lo <=? code c)%N && (code c <=? code hi)%N.

Definition is_digit (c : ascii) : bool := in_range "0" "9" c.

Definition digit_value (c : ascii) : N := (code c - code "0")%N.

Definition is_hex_digit (c : ascii) : bool :=
  is_digit c || in_range "a" "f" c || in_range "A" "F" c.

Definition hex_value (c : ascii) : N :=
  if is_digit c then (code c - code "0")%N
  else if in_range "a" "f" c then (code c - code "a" + 10)%N
  else (code c - code "A" + 10)%N.

Definition hex_char (n : N) : ascii :=
  if (n <? 10)%N then ascii_of_N (code "0" + n) else ascii_of_N (code "a" + (n - 10)).

(** [s.split(sep)] for a one-character separator. *)
Fixpoint split (sep : ascii) (s : string) : list string :=
  match s with
  | EmptyString => [EmptyString]
  | String c r =>
      if Ascii.eqb c sep then EmptyString :: split sep r
      else match split sep r with
           | [] => [String c EmptyString]
           | p :: ps => String c p :: ps
           end
  end.

Fixpoint count (x : ascii) (s : string) : nat :=
  match s with
  | EmptyString => O
  | String c r => ((if Ascii.eqb c x then 1 else 0) + count x r)%nat
  end.

Fixpoint all (p : ascii -> bool) (s : string) : bool :=
  match s with
  | EmptyString => true
  | String c r => p c && all p r
  end.

Fixpoint rev_onto (s acc : string) : string :=
  match s with
  | EmptyString => acc
  | String c r => rev_onto r (String c acc)
  end.

Definition rev (s : string) : string := rev_onto s EmptyString.

Definition is_empty (s : string) : bool :=
  match s with EmptyString => true | _ => false end.

(** The [length] of a JavaScript string, in UTF-16 code units, for a
    string held as UTF-8 bytes: a code point below 0x10000 (a sequence of
    one to three bytes) is one unit, a code point above (four bytes) is
    two, and continuation bytes count nothing. *)
Fixpoint code_units (s : string) : nat :=
  match s with
  | EmptyString => O
  | String c r =>
      ((if in_range "128" "191" c then 0
        else if in_range "240" "255" c then 2
        else 1) + code_units r)%nat
  end.

(** The first [n] bytes of [s], with zero bytes after its end. *)
Fixpoint take_pad (n : nat) (s : string) : string :=
  match n with
  | O => EmptyString
  | S n' =>
      match s with
      | EmptyString => String Ascii.zero (take_pad n' EmptyString)
      | String c r => String c (take_pad n' r)
      end
  end.

(** A string in double quotes, as it appears in JSON text. *)
Definition quoted (s : string) : string :=
  String dquote (s +:+ String dquote EmptyString).

Definition differs (sep c : ascii) : bool := negb (Ascii.eqb c sep).

End Chars.

(** ** Base64 without padding, over a 64-character alphabet

    Used with the URL-safe alphabet by the token codec and with the
    bcrypt alphabet by the credential hasher. *)

Module Base64.

(** Six bits, most significant first. *)
Definition sextet : Type := (bool * bool * bool * bool * bool * bool)%type.

Definition index (x : sextet) : nat :=
  let '(b5, b4, b3, b2, b1, b0) := x in
  ((if b5 then 32 else 0) + (if b4 then 16 else 0) + (if b3 then 8 else 0)
   + (if b2 then 4 else 0) + (if b1 then 2 else 0) + (if b0 then 1 else 0))%nat.

Definition bits : list bool := [false; true].

(** All sextets in increasing [index] order. *)
Definition sextets : list sextet :=
  b5 ← bits; b4 ← bits; b3 ← bits; b2 ← bits; b1 ← bits; b0 ← bits;
  [(b5, b4, b3, b2, b1, b0)].

Definition url_alphabet : string :=
  "ABCDEFGHIJKLMNOPQRSTUVWXYZabcdefghijklmnopqrstuvwxyz0123456789-_".

Definition bcrypt_alphabet : string :=
  "./ABCDEFGHIJKLMNOPQRSTUVWXYZabcdefghijklmnopqrstuvwxyz0123456789".

Definition enc_char (alphabet : string) (x : sextet) : ascii :=
  match String.get (index x) alphabet with
  | Some c => c
  | None => "="%char
  end.

Fixpoint lookup_char (c : ascii) (alphabet : list ascii) (xs : list sextet)
  : option sextet :=
  match alphabet, xs with
  | a :: alphabet', x :: xs' =>
      if Ascii.eqb c a then Some x else lookup_char c alphabet' xs'
  | _, _ => None
  end.

Definition dec_char (alphabet : string) (c : ascii) : option sextet :=
  lookup_char c (list_ascii_of_string alphabet) sextets.

(** The four sextets of a 24-bit group [a b c]. *)
Definition s1 (a : ascii) : sextet :=
  let 'Ascii _ _ a2 a3 a4 a5 a6 a7 := a in (a7, a6, a5, a4, a3, a2).
Definition s2 (a b : ascii) : sextet :=
  let 'Ascii a0 a1 _ _ _ _ _ _ := a in
  let 'Ascii _ _ _ _ b4 b5 b6 b7 := b in (a1, a0, b7, b6, b5, b4).
Definition s3 (b c : ascii) : sextet :=
  let 'Ascii b0 b1 b2 b3 _ _ _ _ := b in
  let 'Ascii _ _ _ _ _ _ c6 c7 := c in (b3, b2, b1, b0, c7, c6).
Definition s4 (c : ascii) : sextet :=
  let 'Ascii c0 c1 c2 c3 c4 c5 _ _ := c in (c5, c4, c3, c2, c1, c0).

Definition zero : ascii := Ascii.zero.

Fixpoint encode (alphabet : string) (s : string) : string :=
  let e := enc_char alphabet in
  match s with
  | EmptyString => EmptyString
  | String a EmptyString =>
      String (e (s1 a)) (String (e (s2 a zero)) EmptyString)
  | String a (String b EmptyString) =>
      String (e (s1 a)) (String (e (s2 a b)) (String (e (s3 b zero)) EmptyString))
  | String a (String b (String c r)) =>
      String (e (s1 a)) (String (e (s2 a b)) (String (e (s3 b c))
        (String (e (s4 c)) (encode alphabet r))))
  end.

(** The three bytes of four sextets. *)
Definition b1 (x y : sextet) : ascii :=
  let '(x5, x4, x3, x2, x1, x0) := x in
  let '(y5, y4, _, _, _, _) := y in Ascii y4 y5 x0 x1 x2 x3 x4 x5.
Definition b2 (y z : sextet) : ascii :=
  let '(_, _, y3, y2, y1, y0) := y in
  let '(z5, z4, z3, z2, _, _) := z in Ascii z2 z3 z4 z5 y0 y1 y2 y3.
Definition b3 (z t : sextet) : ascii :=
  let '(_, _, _, _, z1, z0) := z in
  let '(t5, t4, t3, t2, t1, t0) := t in Ascii t0 t1 t2 t3 t4 t5 z0 z1.

(** Decoding fails on a character outside the alphabet; a dangling last
    character carries no full byte and is dropped. *)
Fixpoint decode (alphabet : string) (s : string) : option string :=
  let d := dec_char alphabet in
  match s with
  | EmptyString => Some EmptyString
  | String p EmptyString => _ ← d p; Some EmptyString
  | String p (String q EmptyString) =>
      x ← d p; y ← d q; Some (String (b1 x y) EmptyString)
  | String p (String q (String r EmptyString)) =>
      x ← d p; y ← d q; z ← d r;
      Some (String (b1 x y) (String (b2 y z) EmptyString))
  | String p (String q (String r (String t rest))) =>
      x ← d p; y ← d q; z ← d r; w ← d t; tail ← decode alphabet rest;
      Some (String (b1 x y) (String (b2 y z) (String (b3 z w) tail)))
  end.

Definition base64url (s : string) : string := encode url_alphabet s.
Definition base64url_decode (s : string) : option string := decode url_alphabet s.

End Base64.

(** ** JavaScript numbers and [Number(string)] *)

Module Js.

(** A number is kept by an exact decimal value,
    [(-1)^negative * digits * 10^exp10]; every double has one.
    [Number(string)] rounds the value of a literal to a double
    ([round64] below); [of_Z] and the JSON reader take an integer or a
    numeral as written.  [Finite true 0 _] is the negative zero. *)
Inductive number : Type :=
| NaN
| Infinity (negative : bool)
| Finite (negative : bool) (digits : N) (exp10 : Z).

Definition of_Z (z : Z) : number := Finite (z <? 0) (Z.abs_N z) 0.

Definition isNaN (n : number) : bool :=
  match n with NaN => true | _ => false end.

Definition signed (negative : bool) (digits : N) : Z :=
  if negative then - Z.of_N digits else Z.of_N digits.

(** [a < b]; false as soon as one side is [NaN]. *)
Definition lt (a b : number) : bool :=
  match a, b with
  | NaN, _ | _, NaN => false
  | Infinity na, Infinity nb => na && negb nb
  | Infinity na, Finite _ _ _ => na
  | Finite _ _ _, Infinity nb => negb nb
  | Finite na da ea, Finite nb db eb =>
      let e := Z.min ea eb in
      signed na da * 10 ^ (ea - e) <? signed nb db * 10 ^ (eb - e)
  end.

(** [a >= b]. *)
Definition ge (a b : number) : bool :=
  negb (isNaN a) && negb (isNaN b) && negb (lt a b).

(** [a > 0], as zod's [positive()] tests it. *)
Definition positive (a : number) : bool := lt (Finite false 0 0) a.

(** The longest prefix of decimal digits, and what follows it. *)
Fixpoint span_digits (s : string) : string * string :=
  match s with
  | EmptyString => (EmptyString, EmptyString)
  | String c r =>
      if Chars.is_digit c
      then let '(d, rest) := span_digits r in (String c d, rest)
      else (EmptyString, s)
  end.

(** The value of a string of decimal digits (0 for the empty string). *)
Definition digits_value (s : string) : N :=
  match NilEmpty.uint_of_string s with
  | Some d => N.of_uint d
  | None => 0%N
  end.

(** The decimal numeral of a natural number, without leading zeros. *)
Definition digits_text (n : N) : string := NilEmpty.string_of_uint (N.to_uint n).

(** The value of a string of digits in base [radix], or [None] when a
    character is not a digit of that base or the string is empty. *)
Fixpoint radix_digits (radix : N) (acc : N) (s : string) : option N :=
  match s with
  | EmptyString => Some acc
  | String c r =>
      if Chars.is_hex_digit c && (Chars.hex_value c <? radix)%N
      then radix_digits radix (acc * radix + Chars.hex_value c) r
      else None
  end.

Definition radix_literal (radix : N) (s : string) : option number :=
  if Chars.is_empty s then None
  else n ← radix_digits radix 0 s; Some (Finite false n 0).

(** One-byte, two-byte and three-byte UTF-8 encodings of the characters
    that [StrWhiteSpaceChar] covers: TAB LF VT FF CR SP; U+00A0; U+1680,
    U+2000..U+200A, U+2028, U+2029, U+202F, U+205F, U+3000, U+FEFF. *)
Definition ws1 (c : ascii) : bool :=
  Chars.in_range "009" "013" c || Ascii.eqb c " ".

Definition ws2 (c1 c2 : ascii) : bool :=
  Ascii.eqb c1 "194" && Ascii.eqb c2 "160".

Definition ws3 (c1 c2 c3 : ascii) : bool :=
  (Ascii.eqb c1 "225" && Ascii.eqb c2 "154" && Ascii.eqb c3 "128")
  || (Ascii.eqb c1 "226" && Ascii.eqb c2 "128"
      && (Chars.in_range "128" "138" c3 || Ascii.eqb c3 "168"
          || Ascii.eqb c3 "169" || Ascii.eqb c3 "175"))
  || (Ascii.eqb c1 "226" && Ascii.eqb c2 "129" && Ascii.eqb c3 "159")
  || (Ascii.eqb c1 "227" && Ascii.eqb c2 "128" && Ascii.eqb c3 "128")
  || (Ascii.eqb c1 "239" && Ascii.eqb c2 "187" && Ascii.eqb c3 "191").

(** Drops leading white space; [backwards] reads each encoding from its
    last byte, for use on a reversed string. *)
Fixpoint strip_leading (backwards : bool) (s : string) : string :=
  match s with
  | EmptyString => EmptyString
  | String c1 r1 =>
      if ws1 c1 then strip_leading backwards r1
      else
        match r1 with
        | EmptyString => s
        | String c2 r2 =>
            if (if backwards then ws2 c2 c1 else ws2 c1 c2)
            then strip_leading backwards r2
            else
              match r2 with
              | EmptyString => s
              | String c3 r3 =>
                  if (if backwards then ws3 c3 c2 c1 else ws3 c1 c2 c3)
                  then strip_leading backwards r3
                  else s
              end
        end
  end.

Definition trim (s : string) : string :=
  Chars.rev (strip_leading true (Chars.rev (strip_leading false s))).

Definition is_exponent_indicator (c : ascii) : bool :=
  Ascii.eqb c "e" || Ascii.eqb c "E".

(** An optional sign: whether it is a minus, and what follows it. *)
Definition take_sign (s : string) : bool * string :=
  match s with
  | String c r =>
      if Ascii.eqb c "-" then (true, r)
      else if Ascii.eqb c "+" then (false, r)
      else (false, s)
  | EmptyString => (false, s)
  end.

(** [ExponentPart_opt] followed by the end of the string: the exponent. *)
Definition exponent_to_end (s : string) : option Z :=
  match s with
  | EmptyString => Some 0
  | String c r =>
      if is_exponent_indicator c then
        let '(negative, r1) := take_sign r in
        let '(ds, r2) := span_digits r1 in
        if Chars.is_empty ds || negb (Chars.is_empty r2) then None
        else Some (signed negative (digits_value ds))
      else None
  end.

(** [StrUnsignedDecimalLiteral] up to the end of the string. *)
Definition unsigned_decimal (negative : bool) (s : string) : option number :=
  if String.eqb s "Infinity" then Some (Infinity negative)
  else
    let '(ip, r1) := span_digits s in
    let '(fp, r2) :=
      match r1 with
      | String c r => if Ascii.eqb c "." then span_digits r else (EmptyString, r1)
      | EmptyString => (EmptyString, r1)
      end in
    if Chars.is_empty ip && Chars.is_empty fp then None
    else
      e ← exponent_to_end r2;
      Some (Finite negative (digits_value (ip +:+ fp)) (e - Z.of_nat (String.length fp))).

(** [StrNumericLiteral]: a signed decimal literal, or an unsigned binary,
    octal or hexadecimal integer literal. *)
Definition numeric_literal (s : string) : option number :=
  match s with
  | String z (String x r) =>
      if Ascii.eqb z "0" && (Ascii.eqb x "x" || Ascii.eqb x "X") then radix_literal 16 r
      else if Ascii.eqb z "0" && (Ascii.eqb x "o" || Ascii.eqb x "O") then radix_literal 8 r
      else if Ascii.eqb z "0" && (Ascii.eqb x "b" || Ascii.eqb x "B") then radix_literal 2 r
      else let '(negative, r1) := take_sign s in unsigned_decimal negative r1
  | _ => let '(negative, r1) := take_sign s in unsigned_decimal negative r1
  end.

(** *** Rounding to a double

    A JavaScript number is an IEEE 754 binary64 value.  [Number(string)]
    takes the exact value of the literal and rounds it to the nearest
    double, ties to even; a value of magnitude [2^1024] or more after
    rounding is an infinity.  The double [m * 2^e] is kept by its exact
    decimal expansion [digits * 10^exp10], with [exp10 <= 0] and, when
    [exp10 < 0], no trailing zero in [digits]. *)

(** [floor (log2 (num / den))], for [num] and [den] above zero. *)
Definition floor_log2 (num den : N) : Z :=
  let k := Z.of_N (N.log2 num) - Z.of_N (N.log2 den) in
  if (N.shiftl num (Z.to_N (- k)) <? N.shiftl den (Z.to_N k))%N then k - 1 else k.

(** [a / b] rounded to the nearest natural number, ties to even. *)
Definition half_even (a b : N) : N :=
  let q := (a / b)%N in
  match (2 * (a mod b) ?= b)%N with
  | Lt => q
  | Gt => (q + 1)%N
  | Eq => if N.even q then q else (q + 1)%N
  end.

(** Drops up to [fuel] trailing zeros of [digits] while [exp10] is below
    zero. *)
Fixpoint strip_zeros (fuel : nat) (digits : N) (exp10 : Z) : N * Z :=
  match fuel with
  | O => (digits, exp10)
  | S fuel' =>
      if (exp10 <? 0) && (digits mod 10 =? 0)%N
      then strip_zeros fuel' (digits / 10) (exp10 + 1)
      else (digits, exp10)
  end.

(** The number [m * 2^e]. *)
Definition double (negative : bool) (m : N) (e : Z) : number :=
  if (m =? 0)%N then Finite negative 0 0
  else if 0 <=? e then Finite negative (N.shiftl m (Z.to_N e)) 0
  else
    let '(digits, exp10) :=
      strip_zeros (Z.to_nat (- e)) (m * 5 ^ Z.to_N (- e)) e in
    Finite negative digits exp10.

(** The double nearest to [num / den], for [num] and [den] above zero and
    without a common factor: a significand of 53 bits at most, with the
    exponent of its last bit not below [-1074]. *)
Definition nearest (negative : bool) (num den : N) : number :=
  let e := Z.max (floor_log2 num den - 52) (-1074) in
  let m := half_even (N.shiftl num (Z.to_N (- e))) (N.shiftl den (Z.to_N e)) in
  if 1024 <=? Z.of_N (N.log2 m) + e then Infinity negative
  else double negative m e.

Definition round_ratio (negative : bool) (num den : N) : number :=
  if (num =? 0)%N then Finite negative 0 0
  else let g := N.gcd num den in nearest negative (num / g) (den / g).

(** [2^53]: every natural number up to it is a double, and the next one
    is not. *)
Definition exact_bound : N := 9007199254740992.

(** The double nearest to the exact value of a literal. *)
Definition round64 (n : number) : number :=
  match n with
  | Finite negative digits exp10 =>
      if 0 <=? exp10 then round_ratio negative (digits * 10 ^ Z.to_N exp10) 1
      else round_ratio negative digits (10 ^ Z.to_N (- exp10))
  | _ => n
  end.

(** [Number(s)] for a string [s]: white space is trimmed, the empty
    string is [+0], anything that is not a numeric literal is [NaN], and
    the value of a literal is rounded to a double. *)
Definition Number (s : string) : number :=
  let t := trim s in
  if Chars.is_empty t then Finite false 0 0
  else match numeric_literal t with
       | Some n => round64 n
       | None => NaN
       end.

(** The 8-4-4-4-12 hexadecimal form of a UUID. *)
Definition is_uuid (s : string) : bool :=
  match Chars.split "-" s with
  | [a; b; c; d; e] =>
      forallb (Chars.all Chars.is_hex_digit) [a; b; c; d; e]
      && forallb (fun '(p, n) => Nat.eqb (String.length p) n)
           [(a, 8%nat); (b, 4%nat); (c, 4%nat); (d, 4%nat); (e, 12%nat)]
  | _ => false
  end.

(** What follows a numeral: nothing, or a character that is not a digit. *)
Definition ends_digits (rest : string) : Prop :=
  match rest with
  | EmptyString => True
  | String c _ => Chars.is_digit c = false
  end.

(** The number of minus signs in a string. *)
Definition dashes (s : string) : nat := Chars.count "-" s.

End Js.

(** ** JSON values and JSON text *)

Module Json.

#[local] Set Warnings "-register-all".

Inductive json : Type :=
| JNull
| JBool (b : bool)
| JNumber (n : Js.number)
| JString (s : string)
| JArray (items : list json)
| JObject (members : list (string * json)).

(** Property read on an object; with repeated keys the last one counts,
    as after [JSON.parse]. *)
Definition lookup_last (key : string) (members : list (string * json)) : option json :=
  fold_left (fun acc '(k, v) => if String.eqb k key then Some v else acc) members None.

Definition get (key : string) (v : json) : option json :=
  match v with
  | JObject members => lookup_last key members
  | _ => None
  end.

(** *** Printing ([JSON.stringify]) *)

Definition two (a b : ascii) : string := String a (String b EmptyString).

Definition escape_char (c : ascii) : string :=
  if Ascii.eqb c Chars.dquote then two Chars.backslash Chars.dquote
  else if Ascii.eqb c Chars.backslash then two Chars.backslash Chars.backslash
  else if Ascii.eqb c "008" then two Chars.backslash "b"
  else if Ascii.eqb c "012" then two Chars.backslash "f"
  else if Ascii.eqb c "010" then two Chars.backslash "n"
  else if Ascii.eqb c "013" then two Chars.backslash "r"
  else if Ascii.eqb c "009" then two Chars.backslash "t"
  else if (Chars.code c <? 32)%N then
    two Chars.backslash "u" +:+ two "0" "0"
    +:+ two (Chars.hex_char (Chars.code c / 16)) (Chars.hex_char (Chars.code c mod 16))
  else String c EmptyString.

Fixpoint escape (s : string) : string :=
  match s with
  | EmptyString => EmptyString
  | String c r => escape_char c +:+ escape r
  end.

Definition string_text (s : string) : string := Chars.quoted (escape s).

(** Integers print as decimal numerals.  Other finite numbers print in
    the form [digits e exponent], which is a JSON numeral of the same
    value; [NaN] and the infinities print as [null]. *)
Definition number_text (n : Js.number) : string :=
  match n with
  | Js.NaN | Js.Infinity _ => "null"
  | Js.Finite negative digits exp10 =>
      (if negative && negb (digits =? 0)%N then "-" else EmptyString)
      +:+ Js.digits_text digits
      +:+ (if exp10 =? 0 then EmptyString
           else "e" +:+ (if exp10 <? 0 then "-" else EmptyString)
                +:+ Js.digits_text (Z.abs_N exp10))
  end.

Fixpoint stringify (v : json) : string :=
  match v with
  | JNull => "null"
  | JBool true => "true"
  | JBool false => "false"
  | JNumber n => number_text n
  | JString s => string_text s
  | JArray items => "[" +:+ String.concat "," (List.map stringify items) +:+ "]"
  | JObject members =>
      "{" +:+ String.concat ","
                (List.map (fun kv => string_text (fst kv) +:+ ":" +:+ stringify (snd kv)) members)
      +:+ "}"
  end.

(** *** Parsing ([JSON.parse]) *)

Definition is_ws (c : ascii) : bool :=
  Ascii.eqb c " " || Ascii.eqb c "009" || Ascii.eqb c "010" || Ascii.eqb c "013".

Fixpoint skip_ws (s : string) : string :=
  match s with
  | String c r => if is_ws c then skip_ws r else s
  | EmptyString => s
  end.

Definition simple_escape (e : ascii) : option ascii :=
  if Ascii.eqb e Chars.dquote then Some Chars.dquote
  else if Ascii.eqb e Chars.backslash then Some Chars.backslash
  else if Ascii.eqb e "/" then Some "/"%char
  else if Ascii.eqb e "b" then Some "008"%char
  else if Ascii.eqb e "f" then Some "012"%char
  else if Ascii.eqb e "n" then Some "010"%char
  else if Ascii.eqb e "r" then Some "013"%char
  else if Ascii.eqb e "t" then Some "009"%char
  else None.

(** UTF-8 bytes of a code point below 0x10000 (a [\uXXXX] escape). *)
Definition utf8 (cp : N) : string :=
  if (cp <? 128)%N then String (ascii_of_N cp) EmptyString
  else if (cp <? 2048)%N then
    two (ascii_of_N (192 + cp / 64)) (ascii_of_N (128 + cp mod 64))
  else
    String (ascii_of_N (224 + cp / 4096))
      (two (ascii_of_N (128 + (cp / 64) mod 64)) (ascii_of_N (128 + cp mod 64))).

Definition hex4 (h1 h2 h3 h4 : ascii) : option N :=
  if Chars.is_hex_digit h1 && Chars.is_hex_digit h2
     && Chars.is_hex_digit h3 && Chars.is_hex_digit h4
  then Some (((Chars.hex_value h1 * 16 + Chars.hex_value h2) * 16
              + Chars.hex_value h3) * 16 + Chars.hex_value h4)%N
  else None.

(** The characters of a string literal after its opening quote, up to
    and including the closing quote; returns the string and what follows. *)
Fixpoint string_body (s : string) : option (string * string) :=
  match s with
  | EmptyString => None
  | String c r =>
      if Ascii.eqb c Chars.dquote then Some (EmptyString, r)
      else if Ascii.eqb c Chars.backslash then
        match r with
        | EmptyString => None
        | String e r1 =>
            if Ascii.eqb e "u" then
              match r1 with
              | String h1 (String h2 (String h3 (String h4 r2))) =>
                  cp ← hex4 h1 h2 h3 h4;
                  '(t, rest) ← string_body r2;
                  Some (utf8 cp +:+ t, rest)
              | _ => None
              end
            else
              d ← simple_escape e;
              '(t, rest) ← string_body r1;
              Some (String d t, rest)
        end
      else if (Chars.code c <? 32)%N then None
      else '(t, rest) ← string_body r; Some (String c t, rest)
  end.

Definition has_leading_zero (ds : string) : bool :=
  match ds with
  | String c (String _ _) => Ascii.eqb c "0"
  | _ => false
  end.

(** A JSON numeral at the head of [s], and what follows it.  The value is
    taken as the numeral writes it: it is not rounded to a double. *)
Definition number_prefix (s : string) : option (Js.number * string) :=
  let '(negative, r0) :=
    match s with
    | String c r => if Ascii.eqb c "-" then (true, r) else (false, s)
    | EmptyString => (false, s)
    end in
  let '(ip, r1) := Js.span_digits r0 in
  if Chars.is_empty ip || has_leading_zero ip then None
  else
    '(fp, r2) ←
      match r1 with
      | String c r =>
          if Ascii.eqb c "." then
            let '(fp, r2) := Js.span_digits r in
            if Chars.is_empty fp then None else Some (fp, r2)
          else Some (EmptyString, r1)
      | EmptyString => Some (EmptyString, r1)
      end;
    '(e, r3) ←
      match r2 with
      | String c r =>
          if Js.is_exponent_indicator c then
            let '(eneg, r') := Js.take_sign r in
            let '(ds, r3) := Js.span_digits r' in
            if Chars.is_empty ds then None
            else Some (Js.signed eneg (Js.digits_value ds), r3)
          else Some (0, r2)
      | EmptyString => Some (0, r2)
      end;
    Some (Js.Finite negative (Js.digits_value (ip +:+ fp))
            (e - Z.of_nat (String.length fp)), r3).

(** [s] with the prefix [p] removed, when it starts with [p]. *)
Fixpoint strip_prefix (p s : string) : option string :=
  match p, s with
  | EmptyString, _ => Some s
  | String a p', String b s' => if Ascii.eqb a b then strip_prefix p' s' else None
  | String _ _, EmptyString => None
  end.

(** One JSON value at the head of [s] (after white space), and what
    follows it.  [fuel] bounds the number of nested or successive values;
    the length of the text is always enough. *)
Fixpoint value (fuel : nat) (s : string) {struct fuel} : option (json * string) :=
  match fuel with
  | O => None
  | S fuel' =>
      match skip_ws s with
      | EmptyString => None
      | String c r =>
          if Ascii.eqb c Chars.dquote then
            '(str, rest) ← string_body r; Some (JString str, rest)
          else if Ascii.eqb c "{" then
            match skip_ws r with
            | EmptyString => None
            | String c' r' =>
                if Ascii.eqb c' "}" then Some (JObject [], r')
                else '(ms, rest) ← members fuel' r; Some (JObject ms, rest)
            end
          else if Ascii.eqb c "[" then
            match skip_ws r with
            | EmptyString => None
            | String c' r' =>
                if Ascii.eqb c' "]" then Some (JArray [], r')
                else '(vs, rest) ← elements fuel' r; Some (JArray vs, rest)
            end
          else if Ascii.eqb c "t" then
            rest ← strip_prefix "true" (String c r); Some (JBool true, rest)
          else if Ascii.eqb c "f" then
            rest ← strip_prefix "false" (String c r); Some (JBool false, rest)
          else if Ascii.eqb c "n" then
            rest ← strip_prefix "null" (String c r); Some (JNull, rest)
          else
            '(n, rest) ← number_prefix (String c r); Some (JNumber n, rest)
      end
  end
with members (fuel : nat) (s : string) {struct fuel}
  : option (list (string * json) * string) :=
  match fuel with
  | O => None
  | S fuel' =>
      match skip_ws s with
      | EmptyString => None
      | String c r =>
          if Ascii.eqb c Chars.dquote then
            '(key, r1) ← string_body r;
            match skip_ws r1 with
            | EmptyString => None
            | String c1 r2 =>
                if Ascii.eqb c1 ":" then
                  '(v, r3) ← value fuel' r2;
                  match skip_ws r3 with
                  | EmptyString => None
                  | String c3 r4 =>
                      if Ascii.eqb c3 "," then
                        '(ms, rest) ← members fuel' r4; Some ((key, v) :: ms, rest)
                      else if Ascii.eqb c3 "}" then Some ([(key, v)], r4)
                      else None
                  end
                else None
            end
          else None
      end
  end
with elements (fuel : nat) (s : string) {struct fuel} : option (list json * string) :=
  match fuel with
  | O => None
  | S fuel' =>
      '(v, r1) ← value fuel' s;
      match skip_ws r1 with
      | EmptyString => None
      | String c r2 =>
          if Ascii.eqb c "," then
            '(vs, rest) ← elements fuel' r2; Some (v :: vs, rest)
          else if Ascii.eqb c "]" then Some ([v], r2)
          else None
      end
  end.

(** [JSON.parse]: one value, then only white space. *)
Definition parse (text : string) : option json :=
  '(v, rest) ← value (S (String.length text)) text;
  if Chars.is_empty (skip_ws rest) then Some v else None.

(** A character that ends a value inside an object. *)
Definition closes (c : ascii) : Prop := c = ","%char \/ c = "}"%char.

(** The values of a flat claim set: strings and integers. *)
Inductive scalar : json -> Prop :=
| scalar_string (s : string) : scalar (JString s)
| scalar_integer (z : Z) : scalar (JNumber (Js.of_Z z)).

Definition member_text (kv : string * json) : string :=
  string_text (fst kv) +:+ ":" +:+ stringify (snd kv).

End Json.

(** ** Exceptions and outcomes *)

(** One entry of [ZodError.errors]: the field and the kind of failure. *)
Record ZodIssue : Type := { issue_path : string; issue_code : string }.

(** A thrown value: an [Error] with its [name] and [message], or a
    [ZodError] with its issues. *)
Inductive exn : Type :=
| JsError (name message : string)
| ZodError (issues : list ZodIssue).

(** [error?.message].  The message of a [ZodError] is the JSON text of its
    issues, an array. *)
Definition message (e : exn) : string :=
  match e with
  | JsError _ m => m
  | ZodError issues =>
      "[" +:+ String.concat ","
                (List.map (fun i => Json.string_text (issue_code i)) issues) +:+ "]"
  end.

Inductive outcome (A : Type) : Type :=
| Returns (a : A)
| Throws (e : exn).
Arguments Returns {A} a.
Arguments Throws {A} e.

#[global] Instance outcome_ret : MRet outcome := fun _ a => Returns a.

#[global] Instance outcome_bind : MBind outcome := fun _ _ k m =>
  match m with
  | Returns a => k a
  | Throws e => Throws e
  end.

(** Throws [e] unless [b] holds. *)
Definition ensure (b : bool) (e : exn) : outcome unit :=
  if b then Returns tt else Throws e.

(** The value of [o], or [e] thrown when there is none. *)
Definition or_throw {A : Type} (e : exn) (o : option A) : outcome A :=
  match o with
  | Some a => Returns a
  | None => Throws e
  end.

(** The error that the authorization gate throws. *)
Definition Unauthorized : exn := JsError "Error" "Unauthorized".

(** ** What is taken from the libraries as given *)

Inductive hmac_alg : Type := HS256 | HS384 | HS512.

Class Primitives : Type := {
  (** [hmac alg key message]: HMAC with SHA-256, SHA-384 or SHA-512. *)
  hmac : hmac_alg -> string -> string -> string;
  (** [eks_blowfish rounds salt password]: the bcrypt core on a 16-byte
      salt, giving the 24-byte raw hash. *)
  eks_blowfish : nat -> string -> string -> string;
  (** The pattern that zod's [email()] accepts. *)
  is_email : string -> bool
}.

(** ** jsonwebtoken: [sign] and [verify] for a shared secret *)

Module Jsonwebtoken.
Section WithPrimitives.
Context `{Primitives}.

Definition error (m : string) : exn := JsError "JsonWebTokenError" m.

Definition alg_of_name (s : string) : option hmac_alg :=
  if String.eqb s "HS256" then Some HS256
  else if String.eqb s "HS384" then Some HS384
  else if String.eqb s "HS512" then Some HS512
  else None.

Definition header : Json.json :=
  Json.JObject [("alg", Json.JString "HS256"); ("typ", Json.JString "JWT")].

(** [payload.key = v]: replaces the value in place or adds the key last. *)
Fixpoint set_prop (key : string) (v : Json.json) (members : list (string * Json.json))
  : list (string * Json.json) :=
  match members with
  | [] => [(key, v)]
  | (k, w) :: rest =>
      if String.eqb k key then (k, v) :: rest else (k, w) :: set_prop key v rest
  end.

(** The time spans of the [ms] package that a number followed by one of
    [s m h d w] denotes, in seconds. *)
Definition timespan_seconds (span : string) : option Z :=
  let '(ds, unit) := Js.span_digits span in
  if Chars.is_empty ds then None
  else
    let n := Z.of_N (Js.digits_value ds) in
    if String.eqb unit "s" then Some n
    else if String.eqb unit "m" then Some (n * 60)
    else if String.eqb unit "h" then Some (n * 3600)
    else if String.eqb unit "d" then Some (n * 86400)
    else if String.eqb unit "w" then Some (n * 604800)
    else None.

(** The length in bytes of the MAC of each algorithm. *)
Definition mac_length (a : hmac_alg) : nat :=
  match a with HS256 => 32 | HS384 => 48 | HS512 => 64 end%nat.

Definition signature (alg : hmac_alg) (secret signing_input : string) : string :=
  Base64.base64url (Chars.take_pad (mac_length alg) (hmac alg secret signing_input)).

(** The JWS compact serialisation of [header] and [payload]. *)
Definition compact (payload : Json.json) (secret : string) : string :=
  let signing_input :=
    Base64.base64url (Json.stringify header) +:+ "."
    +:+ Base64.base64url (Json.stringify payload) in
  signing_input +:+ "." +:+ signature HS256 secret signing_input.

(** Modelled from the spec: [jwt.sign(payload, secret, { expiresIn })] of
    the jsonwebtoken package, which the repository imports and does not
    contain.  It serialises the claims, attaches an issued-at timestamp and
    an expiration timestamp, and signs with the symmetric secret.  [now] is
    the clock in milliseconds: [iat] is the clock in whole seconds unless
    the payload brings one, [exp] is [iat] plus the span. *)
Definition sign (payload : list (string * Json.json)) (secret : string)
  (expiresIn : string) (now : Z) : outcome string :=
  if Chars.is_empty secret then
    Throws (JsError "Error" "secretOrPrivateKey must have a value")
  else
    match timespan_seconds expiresIn with
    | None =>
        Throws (JsError "Error"
          "expiresIn should be a number of seconds or string representing a timespan")
    | Some span =>
        match Json.lookup_last "exp" payload with
        | Some _ =>
            Throws (JsError "Error"
              "Bad options.expiresIn option the payload already has an exp property.")
        | None =>
            let timestamp :=
              match Json.lookup_last "iat" payload with
              | Some (Json.JNumber n) => n
              | _ => Js.of_Z (now / 1000)
              end in
            let expiry :=
              match timestamp with
              | Js.Finite negative digits 0 => Js.of_Z (Js.signed negative digits + span)
              | _ => Js.NaN
              end in
            let claims :=
              set_prop "exp" (Json.JNumber expiry)
                (set_prop "iat" (Json.JNumber timestamp) payload) in
            Returns (compact (Json.JObject claims) secret)
        end
    end.

(** The decoded payload: the JSON value when the header says [typ: JWT]
    (text that is not JSON is then an error); otherwise the object the
    text parses to, or else the text itself. *)
Definition decode_payload (hdr : Json.json) (text : string) : outcome Json.json :=
  match Json.get "typ" hdr with
  | Some (Json.JString "JWT") =>
      match Json.parse text with
      | Some v => Returns v
      | None => Throws (JsError "SyntaxError" "Unexpected token in JSON")
      end
  | _ =>
      match Json.parse text with
      | Some (Json.JObject ms) => Returns (Json.JObject ms)
      | _ => Returns (Json.JString text)
      end
  end.

(** A time claim ([nbf], [exp]) of the payload: absent, a number, or
    something else. *)
Inductive time_claim : Type := Absent | At (n : Js.number) | NotANumber.

Definition time_claim_of (key : string) (payload : Json.json) : time_claim :=
  match Json.get key payload with
  | None => Absent
  | Some (Json.JNumber n) => At n
  | Some _ => NotANumber
  end.

Definition check_not_before (clockTimestamp : Js.number) (payload : Json.json)
  : outcome unit :=
  match time_claim_of "nbf" payload with
  | Absent => Returns tt
  | NotANumber => Throws (error "invalid nbf value")
  | At nbf => ensure (negb (Js.lt clockTimestamp nbf))
                (JsError "NotBeforeError" "jwt not active")
  end.

Definition check_expiry (clockTimestamp : Js.number) (payload : Json.json)
  : outcome unit :=
  match time_claim_of "exp" payload with
  | Absent => Returns tt
  | NotANumber => Throws (error "invalid exp value")
  | At e => ensure (negb (Js.ge clockTimestamp e))
              (JsError "TokenExpiredError" "jwt expired")
  end.

Definition in_url_alphabet (c : ascii) : bool :=
  match Base64.dec_char Base64.url_alphabet c with
  | Some _ => true
  | None => false
  end.

(** The header and the payload text of a token in three segments, when
    the segments are well formed. *)
Definition decode_segments (h p s : string) : option (Json.json * string) :=
  if Chars.is_empty h || Chars.is_empty p || negb (Chars.all in_url_alphabet s)
  then None
  else
    hdr ← Base64.base64url_decode h ≫= Json.parse;
    text ← Base64.base64url_decode p;
    Some (hdr, text).

Definition header_alg (hdr : Json.json) : option hmac_alg :=
  match Json.get "alg" hdr with
  | Some (Json.JString name) => alg_of_name name
  | _ => None
  end.

Definition is_null (v : Json.json) : bool :=
  match v with Json.JNull => true | _ => false end.

(** Modelled from the spec: [jwt.verify(token, secret)] of the jsonwebtoken
    package, at clock [now] (in milliseconds).  It verifies the signature
    against the secret, checks the expiration and returns the embedded
    payload; every failure is a thrown error. *)
Definition verify (token secret : string) (now : Z) : outcome Json.json :=
  let clockTimestamp := Js.of_Z (now / 1000) in
  match Chars.split "." token with
  | [h; p; s] =>
      '(hdr, text) ← or_throw (error "invalid token") (decode_segments h p s);
      payload ← decode_payload hdr text;
      _ ← ensure (negb (Chars.is_empty secret))
            (error "secret or public key must be provided");
      _ ← ensure (negb (Chars.is_empty s)) (error "jwt signature is required");
      alg ← or_throw (error "invalid algorithm") (header_alg hdr);
      _ ← ensure (String.eqb s (signature alg secret (h +:+ "." +:+ p)))
            (error "invalid signature");
      _ ← ensure (negb (is_null payload))
            (JsError "TypeError" "Cannot read properties of null");
      _ ← check_not_before clockTimestamp payload;
      _ ← check_expiry clockTimestamp payload;
      Returns payload
  | _ => Throws (error "jwt malformed")
  end.

End WithPrimitives.
End Jsonwebtoken.

(** ** bcryptjs: [hash] and [compare] *)

Module Bcryptjs.
Section WithPrimitives.
Context `{Primitives}.

Definition dollar : ascii := "$"%char.

(** The bytes that [random] gives at positions [0 .. n-1]. *)
Definition random_bytes (random : nat -> ascii) (n : nat) : string :=
  string_of_list_ascii (List.map random (seq 0 n)).

Definition two_digits (n : nat) : string :=
  String (Chars.hex_char (N.of_nat (n / 10)))
    (String (Chars.hex_char (N.of_nat (n mod 10))) EmptyString).

(** Modelled from the spec: [genSalt(rounds)] of the bcryptjs package:
    version, cost and sixteen fresh random bytes. *)
Definition genSalt (rounds : nat) (random : nat -> ascii) : string :=
  "$2b$" +:+ two_digits rounds +:+ "$"
  +:+ Base64.encode Base64.bcrypt_alphabet (random_bytes random 16).

(** The fields of a salt string [$2$..] or [$2x$..] with [x] one of
    [a b y]: the minor version, the cost, the sixteen salt bytes. *)
Definition parse_salt (salt : string) : outcome (string * nat * string) :=
  match salt with
  | String d (String v r) =>
      if negb (Ascii.eqb d dollar && Ascii.eqb v "2") then
        Throws (JsError "Error" "Invalid salt version")
      else
        '(minor, r1) ←
          match r with
          | String m (String d' r1) =>
              if Ascii.eqb m dollar then Returns (EmptyString, String d' r1)
              else if (Ascii.eqb m "a" || Ascii.eqb m "b" || Ascii.eqb m "y")
                      && Ascii.eqb d' dollar
              then Returns (String m EmptyString, r1)
              else Throws (JsError "Error" "Invalid salt revision")
          | _ => Throws (JsError "Error" "Invalid salt revision")
          end;
        match r1 with
        | String t (String u (String d'' r2)) =>
            if negb (Chars.is_digit t && Chars.is_digit u && Ascii.eqb d'' dollar) then
              Throws (JsError "Error" "Missing salt rounds")
            else
              let rounds := N.to_nat (Chars.digit_value t * 10 + Chars.digit_value u) in
              let real_salt := String.substring 0 22 r2 in
              match Base64.decode Base64.bcrypt_alphabet real_salt with
              | Some saltb =>
                  if negb (Nat.eqb (String.length saltb) 16) then
                    Throws (JsError "Error" "Illegal salt length")
                  else if (rounds <? 4)%nat || (31 <? rounds)%nat then
                    Throws (JsError "Error" "Illegal number of rounds (4-31)")
                  else Returns (minor, rounds, saltb)
              | None => Throws (JsError "Error" "Illegal salt")
              end
        | _ => Throws (JsError "Error" "Missing salt rounds")
        end
  | _ => Throws (JsError "Error" "Invalid salt version")
  end.

(** Modelled from the spec: [hash(password, salt)] of the bcryptjs package
    for a salt string: the 60-character hash string holding the algorithm
    identifier, the cost, the salt and the first 23 bytes of the raw
    hash. *)
Definition hash_with_salt (password salt : string) : outcome string :=
  '(minor, rounds, saltb) ← parse_salt salt;
  Returns ("$2" +:+ minor +:+ "$" +:+ two_digits rounds +:+ "$"
           +:+ Base64.encode Base64.bcrypt_alphabet saltb
           +:+ Base64.encode Base64.bcrypt_alphabet
                 (Chars.take_pad 23 (eks_blowfish rounds saltb password))).

(** Modelled from the spec: [bcrypt.hash(password, rounds)], a salted hash
    with the given cost; each call draws a fresh salt. *)
Definition hash (password : string) (rounds : nat) (random : nat -> ascii)
  : outcome string :=
  hash_with_salt password (genSalt rounds random).

(** Modelled from the spec: [bcrypt.compare(password, hash)].  A hash that
    is not 60 characters long never matches; otherwise the password is
    hashed again with the salt and cost embedded in [hash] (its first 29
    characters) and the two strings are compared. *)
Definition compare (password hashValue : string) : outcome bool :=
  if negb (Nat.eqb (String.length hashValue) 60) then Returns false
  else
    comp ← hash_with_salt password (String.substring 0 29 hashValue);
    Returns (String.eqb comp hashValue).

(** The hash string: the salt string followed by 31 characters of digest. *)
Definition digest_text (password : string) (random : nat -> ascii) : string :=
  Base64.encode Base64.bcrypt_alphabet
    (Chars.take_pad 23 (eks_blowfish 10 (random_bytes random 16) password)).

End WithPrimitives.
End Bcryptjs.

(** ** The datastore (Supabase) and the effects of a handler *)

(** A row identifier: a number, as [JWTPayload.userId] and [Number(params.id)]
    have it, or a text identifier such as a UUID. *)
Inductive Id : Type :=
| NumericId (n : Z)
| TextId (s : string).

Definition id_json (i : Id) : Json.json :=
  match i with
  | NumericId n => Json.JNumber (Js.of_Z n)
  | TextId s => Json.JString s
  end.

Module Supabase.

Record PostgrestError : Type := { code : string; details : string }.

Record PostgrestResponse (A : Type) : Type := {
  data : option A;
  error : option PostgrestError
}.
Arguments data {A} _.
Arguments error {A} _.

Record ProjectRow : Type := {
  project_id : Id;
  title : string;
  status : string;
  deadline : option string;
  assigned_to : option string;
  budget : option string;          (* a DECIMAL column arrives as text *)
  description : option string;
  created_at : string;
  updated_at : string
}.

Record UserRow : Type := {
  user_id : Id;
  user_email : string;
  user_name : string;
  password_hash : string
}.

(** The filters of [from('projects').select('*')...order(...)]. *)
Record ProjectsQuery : Type := {
  match_status : option string;
  or_filter : option string;
  order_column : string;
  ascending : bool
}.

(** The values of [insert([...])] into [projects]. *)
Record ProjectValues : Type := {
  new_title : option string;
  new_status : option string;
  new_deadline : option string;
  new_assigned_to : option string;
  new_budget : option Js.number;
  new_description : option string
}.

End Supabase.

(** What a handler can do to the outside world, with the type of the
    answer it gets back. *)
Inductive effect : Type -> Type :=
| SelectProjects (q : Supabase.ProjectsQuery)
  : effect (Supabase.PostgrestResponse (list Supabase.ProjectRow))
| InsertProject (values : Supabase.ProjectValues)
  : effect (Supabase.PostgrestResponse Supabase.ProjectRow)
| SelectProject (id : Js.number)
  : effect (Supabase.PostgrestResponse Supabase.ProjectRow)
| UpdateProject (id : Js.number) (updateData : list (string * Json.json))
  : effect (Supabase.PostgrestResponse Supabase.ProjectRow)
| DeleteProject (id : Js.number)
  : effect (Supabase.PostgrestResponse Id)
| SelectUserByEmail (email : string)
  : effect (Supabase.PostgrestResponse Supabase.UserRow)
| FindUserByEmail (email : string)
  : effect (Supabase.PostgrestResponse Id)
| InsertUser (email password_hash name : string)
  : effect (Supabase.PostgrestResponse Supabase.UserRow)
| ConsoleError (label : string) (detail : string)
  : effect unit.

(** An effect that was performed. *)
Inductive entry : Type :=
| Entry {X : Type} (eff : effect X).

Definition is_datastore_access (e : entry) : bool :=
  match e with
  | @Entry _ (ConsoleError _ _) => false
  | _ => true
  end.

(** An [async] function body: it returns, throws, or performs an effect
    and goes on with the answer. *)
Inductive prog (A : Type) : Type :=
| Done (a : A)
| Raise (e : exn)
| Perform {X : Type} (eff : effect X) (k : X -> prog A).
Arguments Done {A} a.
Arguments Raise {A} e.
Arguments Perform {A X} eff k.

Fixpoint prog_bind {A B : Type} (k : A -> prog B) (p : prog A) : prog B :=
  match p with
  | Done a => k a
  | Raise e => Raise e
  | Perform eff c => Perform eff (fun x => prog_bind k (c x))
  end.

#[global] Instance prog_ret : MRet prog := fun _ a => Done a.
#[global] Instance prog_mbind : MBind prog := fun _ _ k p => prog_bind k p.

(** [try { p } catch (error) { handler error }]. *)
Fixpoint try_catch {A : Type} (p : prog A) (handler : exn -> prog A) : prog A :=
  match p with
  | Done a => Done a
  | Raise e => handler e
  | Perform eff c => Perform eff (fun x => try_catch (c x) handler)
  end.

Definition perform {X : Type} (eff : effect X) : prog X := Perform eff Done.

(** A synchronous call inside an [async] body. *)
Definition lift {A : Type} (o : outcome A) : prog A :=
  match o with
  | Returns a => Done a
  | Throws e => Raise e
  end.

(** The outside world: the answer to each effect, given what was done
    before it. *)
Definition environment : Type := forall X : Type, list entry -> effect X -> X.

(** Runs [p]: its outcome, and [history] extended by the effects it
    performed, in order. *)
Fixpoint run {A : Type} (env : environment) (history : list entry) (p : prog A)
  : outcome A * list entry :=
  match p with
  | Done a => (Returns a, history)
  | Raise e => (Throws e, history)
  | Perform eff k => run env (history ++ [Entry eff]) (k (env _ history eff))
  end.

Definition result_of {A : Type} (env : environment) (p : prog A) : outcome A :=
  fst (run env [] p).

Definition trace_of {A : Type} (env : environment) (p : prog A) : list entry :=
  snd (run env [] p).

(** ** Requests, responses and the process *)

Record NextRequest : Type := {
  cookies : gmap string string;
  searchParams : list (string * string);
  (** The body as [request.json()] reads it; [None] when it is not JSON. *)
  body : option Json.json
}.

Record Cookie : Type := {
  cookie_name : string;
  cookie_value : string;
  httpOnly : bool;
  secure : bool;
  sameSite : string;
  maxAge : Z
}.

Record NextResponse : Type := {
  status : Z;
  payload : Json.json;
  cookies_set : list Cookie;
  cookies_deleted : list string
}.

(** [NextResponse.json(body, { status })]. *)
Definition json_response (body : Json.json) (status : Z) : NextResponse :=
  {| status := status; payload := body; cookies_set := []; cookies_deleted := [] |}.

Definition error_response (msg : string) (status : Z) : NextResponse :=
  json_response (Json.JObject [("error", Json.JString msg)]) status.

(** [request.json()]. *)
Definition request_json (request : NextRequest) : prog Json.json :=
  match body request with
  | Some v => Done v
  | None => Raise (JsError "SyntaxError" "Unexpected end of JSON input")
  end.

(** [searchParams.get(name)]: the first value of that name. *)
Fixpoint searchParams_get (name : string) (params : list (string * string))
  : option string :=
  match params with
  | [] => None
  | (k, v) :: rest => if String.eqb k name then Some v else searchParams_get name rest
  end.

(** The ambient state of the server process: its environment variables,
    the clock ([Date.now()], milliseconds) and the random byte source. *)
Record Process : Type := {
  env : gmap string string;
  clock : Z;
  entropy : nat -> ascii
}.

(** The truth value of a JavaScript value in a condition. *)
Definition truthy (v : Json.json) : bool :=
  match v with
  | Json.JNull => false
  | Json.JBool b => b
  | Json.JNumber Js.NaN => false
  | Json.JNumber (Js.Finite _ digits _) => negb (digits =? 0)%N
  | Json.JNumber (Js.Infinity _) => true
  | Json.JString s => negb (Chars.is_empty s)
  | Json.JArray _ | Json.JObject _ => true
  end.

(** A non-empty string, as [if (s)] tests an optional string. *)
Definition present (s : option string) : option string :=
  match s with
  | Some t => if Chars.is_empty t then None else Some t
  | None => None
  end.

(** ** [lib/auth.ts] *)

Module Auth.
Section WithPrimitives.
Context `{Primitives}.

Definition fallback_secret : string :=
  "your-super-secret-jwt-key-change-in-production".

(** [process.env.JWT_SECRET || '...']. *)
Definition JWT_SECRET (p : Process) : string :=
  match present (env p !! "JWT_SECRET") with
  | Some s => s
  | None => fallback_secret
  end.

Record JWTPayload : Type := { userId : Id; email : string }.

Definition payload_members (c : JWTPayload) : list (string * Json.json) :=
  [("userId", id_json (userId c)); ("email", Json.JString (email c))].

Definition hashPassword (p : Process) (password : string) : prog string :=
  lift (Bcryptjs.hash password 10 (entropy p)).

Definition verifyPassword (password hash : string) : prog bool :=
  lift (Bcryptjs.compare password hash).

Definition generateToken (p : Process) (c : JWTPayload) : outcome string :=
  Jsonwebtoken.sign (payload_members c) (JWT_SECRET p) "7d" (clock p).

(** [try { return jwt.verify(token, JWT_SECRET) } catch { return null }]. *)
Definition verifyToken (p : Process) (token : string) : outcome (option Json.json) :=
  match Jsonwebtoken.verify token (JWT_SECRET p) (clock p) with
  | Returns v => Returns (Some v)
  | Throws _ => Returns None
  end.

Definition getCurrentUser (p : Process) (request : NextRequest)
  : prog (option Json.json) :=
  match present (cookies request !! "token") with
  | None => Done None
  | Some token => lift (verifyToken p token)
  end.

Definition requireAuth (p : Process) (request : NextRequest) : prog Json.json :=
  user ← getCurrentUser p request;
  match user with
  | Some u => if truthy u then Done u else Raise (JsError "Error" "Unauthorized")
  | None => Raise (JsError "Error" "Unauthorized")
  end.

(** The claim set that [generateToken] signs. *)
Definition issued_claims (c : JWTPayload) (now : Z) : list (string * Json.json) :=
  [("userId", id_json (userId c)); ("email", Json.JString (email c));
   ("iat", Json.JNumber (Js.of_Z (now / 1000)));
   ("exp", Json.JNumber (Js.of_Z (now / 1000 + 604800)))].

End WithPrimitives.
End Auth.

(** ** zod schemas

    The three schemas are the ones the route files declare; what [parse]
    does with them follows the zod package: the body must be an object,
    unknown keys are dropped, every failing field adds an issue, and any
    issue makes [parse] throw a [ZodError]. *)

Module Zod.
Section WithPrimitives.
Context `{Primitives}.

Definition issue (path code : string) : ZodIssue :=
  {| issue_path := path; issue_code := code |}.

(** The result of checking one optional field: its value if present, or
    the issue found. *)
Definition checked (A : Type) : Type := (option A + ZodIssue)%type.

(** [z.string()] with an extra test [ok] failing with [code]. *)
Definition string_where (ok : string -> bool) (code : string)
  (path : string) (v : option Json.json) : checked string :=
  match v with
  | None => inl None
  | Some (Json.JString s) => if ok s then inl (Some s) else inr (issue path code)
  | Some _ => inr (issue path "invalid_type")
  end.

Definition min1 (s : string) : bool := negb (Chars.is_empty s).

(** [.min(6)]: at least six UTF-16 code units. *)
Definition min6 (s : string) : bool := (6 <=? Chars.code_units s)%nat.

(** [^\d{4}-\d{2}-\d{2}$]. *)
Definition is_iso_date (s : string) : bool :=
  match Chars.split "-" s with
  | [y; m; d] =>
      Chars.all Chars.is_digit y && Nat.eqb (String.length y) 4
      && Chars.all Chars.is_digit m && Nat.eqb (String.length m) 2
      && Chars.all Chars.is_digit d && Nat.eqb (String.length d) 2
  | _ => false
  end.

Definition is_status (s : string) : bool :=
  String.eqb s "active" || String.eqb s "on hold" || String.eqb s "completed".

(** [z.number().positive()]. *)
Definition positive_number (path : string) (v : option Json.json) : checked Js.number :=
  match v with
  | None => inl None
  | Some (Json.JNumber n) =>
      if Js.isNaN n then inr (issue path "invalid_type")
      else if Js.positive n then inl (Some n)
      else inr (issue path "too_small")
  | Some _ => inr (issue path "invalid_type")
  end.

Definition value_of {A : Type} (c : checked A) : option A :=
  match c with inl v => v | inr _ => None end.

Definition issue_of {A : Type} (c : checked A) : list ZodIssue :=
  match c with inl _ => [] | inr i => [i] end.

Record ProjectData : Type := {
  title : option string;
  status : option string;
  deadline : option string;
  assigned_to : option string;
  budget : option Js.number;
  description : option string
}.

(** [projectSchema.parse(body)]: every field is optional. *)
Definition projectSchema_parse (body : Json.json) : outcome ProjectData :=
  match body with
  | Json.JObject ms =>
      let t := string_where min1 "too_small" "title" (Json.lookup_last "title" ms) in
      let s := string_where is_status "invalid_enum_value" "status"
                 (Json.lookup_last "status" ms) in
      let d := string_where is_iso_date "invalid_string" "deadline"
                 (Json.lookup_last "deadline" ms) in
      let a := string_where min1 "too_small" "assigned_to"
                 (Json.lookup_last "assigned_to" ms) in
      let b := positive_number "budget" (Json.lookup_last "budget" ms) in
      let e := string_where (fun _ => true) "invalid_type" "description"
                 (Json.lookup_last "description" ms) in
      match issue_of t ++ issue_of s ++ issue_of d ++ issue_of a
            ++ issue_of b ++ issue_of e with
      | [] => Returns {| title := value_of t; status := value_of s;
                         deadline := value_of d; assigned_to := value_of a;
                         budget := value_of b; description := value_of e |}
      | issues => Throws (ZodError issues)
      end
  | _ => Throws (ZodError [issue EmptyString "invalid_type"])
  end.

(** A required string field. *)
Definition required (path : string) (c : checked string) : string + ZodIssue :=
  match c with
  | inl (Some s) => inl s
  | inl None => inr (issue path "invalid_type")
  | inr i => inr i
  end.

Definition issues_of {A : Type} (c : A + ZodIssue) : list ZodIssue :=
  match c with inl _ => [] | inr i => [i] end.

(** [loginSchema.parse(body)]: the email and the password. *)
Definition loginSchema_parse (body : Json.json) : outcome (string * string) :=
  match body with
  | Json.JObject ms =>
      let e := required "email"
                 (string_where is_email "invalid_string" "email"
                    (Json.lookup_last "email" ms)) in
      let p := required "password"
                 (string_where min1 "too_small" "password"
                    (Json.lookup_last "password" ms)) in
      match e, p with
      | inl email, inl password => Returns (email, password)
      | _, _ => Throws (ZodError (issues_of e ++ issues_of p))
      end
  | _ => Throws (ZodError [issue EmptyString "invalid_type"])
  end.

(** [registerSchema.parse(body)]: the email, the password and the name. *)
Definition registerSchema_parse (body : Json.json)
  : outcome (string * string * string) :=
  match body with
  | Json.JObject ms =>
      let e := required "email"
                 (string_where is_email "invalid_string" "email"
                    (Json.lookup_last "email" ms)) in
      let p := required "password"
                 (string_where min6 "too_small" "password"
                    (Json.lookup_last "password" ms)) in
      let n := required "name"
                 (string_where min1 "too_small" "name"
                    (Json.lookup_last "name" ms)) in
      match e, p, n with
      | inl email, inl password, inl name => Returns (email, password, name)
      | _, _, _ => Throws (ZodError (issues_of e ++ issues_of p ++ issues_of n))
      end
  | _ => Throws (ZodError [issue EmptyString "invalid_type"])
  end.

(** [error.errors] as it goes into a response body. *)
Definition issues_json (issues : list ZodIssue) : Json.json :=
  Json.JArray
    (List.map (fun i => Json.JObject [("path", Json.JString (issue_path i));
                                      ("code", Json.JString (issue_code i))]) issues).

End WithPrimitives.
End Zod.

(** ** Route handlers *)

Definition opt_json (s : option string) : Json.json :=
  match s with
  | Some t => Json.JString t
  | None => Json.JNull
  end.

(** [Number(project.budget)]: [Number(null)] is 0. *)
Definition budget_number (b : option string) : Js.number :=
  match b with
  | Some t => Js.Number t
  | None => Js.Finite false 0 0
  end.

(** The response form of a project row ([formatProject] and its inlined
    copies). *)
Definition formatProject (project : Supabase.ProjectRow) : Json.json :=
  Json.JObject
    [("id", id_json (Supabase.project_id project));
     ("title", Json.JString (Supabase.title project));
     ("status", Json.JString (Supabase.status project));
     ("deadline", opt_json (Supabase.deadline project));
     ("assigned_to", opt_json (Supabase.assigned_to project));
     ("budget", Json.JNumber (budget_number (Supabase.budget project)));
     ("description", opt_json (Supabase.description project));
     ("created_at", Json.JString (Supabase.created_at project));
     ("updated_at", Json.JString (Supabase.updated_at project))].

(** Reading a property of [null]. *)
Definition null_dereference : exn :=
  JsError "TypeError" "Cannot read properties of null".

Definition console_error (label detail : string) : prog unit :=
  perform (ConsoleError label detail).

Definition unauthorized : NextResponse := error_response "Unauthorized" 401.
Definition internal_error : NextResponse := error_response "Internal server error" 500.

Definition invalid_input (issues : list ZodIssue) : NextResponse :=
  json_response
    (Json.JObject [("error", Json.JString "Invalid input");
                   ("details", Zod.issues_json issues)]) 400.

(** *** [app/api/projects/route.ts] *)

Module ProjectsRoute.
Section WithPrimitives.
Context `{Primitives}.

Definition search_filter (search : string) : string :=
  "title.ilike.%" +:+ search +:+ "%,assigned_to.ilike.%" +:+ search
  +:+ "%,description.ilike.%" +:+ search +:+ "%".

Definition GET (p : Process) (request : NextRequest) : prog NextResponse :=
  try_catch
    (_ ← Auth.requireAuth p request;
     let status := searchParams_get "status" (searchParams request) in
     let search := searchParams_get "search" (searchParams request) in
     r ← perform (SelectProjects
                    {| Supabase.match_status := present status;
                       Supabase.or_filter := search_filter <$> present search;
                       Supabase.order_column := "created_at";
                       Supabase.ascending := false |});
     match Supabase.error r with
     | Some err =>
         _ ← console_error "Supabase GET projects error:" (Supabase.code err);
         Done internal_error
     | None =>
         match Supabase.data r with
         | Some projects =>
             Done (json_response (Json.JArray (List.map formatProject projects)) 200)
         | None => Raise null_dereference
         end
     end)
    (fun error =>
       if String.eqb (message error) "Unauthorized" then Done unauthorized
       else
         _ ← console_error "Error fetching projects:" (message error);
         Done internal_error).

Definition POST (p : Process) (request : NextRequest) : prog NextResponse :=
  try_catch
    (_ ← Auth.requireAuth p request;
     body ← request_json request;
     data ← lift (Zod.projectSchema_parse body);
     r ← perform (InsertProject
                    {| Supabase.new_title := Zod.title data;
                       Supabase.new_status := Zod.status data;
                       Supabase.new_deadline := Zod.deadline data;
                       Supabase.new_assigned_to := Zod.assigned_to data;
                       Supabase.new_budget := Zod.budget data;
                       Supabase.new_description := present (Zod.description data) |});
     match Supabase.error r with
     | Some err =>
         _ ← console_error "Supabase CREATE project error:" (Supabase.code err);
         Done internal_error
     | None =>
         match Supabase.data r with
         | Some project => Done (json_response (formatProject project) 201)
         | None => Raise null_dereference
         end
     end)
    (fun error =>
       if String.eqb (message error) "Unauthorized" then Done unauthorized
       else
         match error with
         | ZodError issues => Done (invalid_input issues)
         | _ =>
             _ ← console_error "Error creating project:" (message error);
             Done internal_error
         end).

End WithPrimitives.
End ProjectsRoute.

(** *** [app/api/projects/[id]/route.ts] *)

Module ProjectByIdRoute.
Section WithPrimitives.
Context `{Primitives}.

Definition invalid_id : NextResponse := error_response "Invalid project id" 400.
Definition not_found : NextResponse := error_response "Project not found" 404.

Definition is_no_rows (err : Supabase.PostgrestError) : bool :=
  String.eqb (Supabase.code err) "PGRST116".

Definition GET (p : Process) (request : NextRequest) (params_id : string)
  : prog NextResponse :=
  try_catch
    (_ ← Auth.requireAuth p request;
     let id := Js.Number params_id in
     if Js.isNaN id then Done invalid_id
     else
       r ← perform (SelectProject id);
       match Supabase.error r with
       | Some err =>
           if is_no_rows err then Done not_found
           else
             _ ← console_error "Supabase GET project error:" (Supabase.code err);
             Done internal_error
       | None =>
           match Supabase.data r with
           | Some project => Done (json_response (formatProject project) 200)
           | None => Raise null_dereference
           end
       end)
    (fun error =>
       if String.eqb (message error) "Unauthorized" then Done unauthorized
       else
         _ ← console_error "Error fetching project:" (message error);
         Done internal_error).

Definition number_json (n : option Js.number) : option Json.json :=
  Json.JNumber <$> n.

(** The fields of [data] that are defined, in the order the handler
    copies them. *)
Definition build_updateData (data : Zod.ProjectData) : list (string * Json.json) :=
  omap (fun '(k, v) => pair k <$> v)
    [("title", Json.JString <$> Zod.title data);
     ("status", Json.JString <$> Zod.status data);
     ("deadline", Json.JString <$> Zod.deadline data);
     ("assigned_to", Json.JString <$> Zod.assigned_to data);
     ("budget", number_json (Zod.budget data));
     ("description", Json.JString <$> Zod.description data)].

Definition PUT (p : Process) (request : NextRequest) (params_id : string)
  : prog NextResponse :=
  try_catch
    (_ ← Auth.requireAuth p request;
     let id := Js.Number params_id in
     if Js.isNaN id then Done invalid_id
     else
       body ← request_json request;
       data ← lift (Zod.projectSchema_parse body);
       let updateData := build_updateData data in
       match updateData with
       | [] => Done (error_response "No fields to update" 400)
       | _ =>
           r ← perform (UpdateProject id updateData);
           match Supabase.error r with
           | Some err =>
               if is_no_rows err then Done not_found
               else
                 _ ← console_error "Supabase UPDATE project error:" (Supabase.code err);
                 Done internal_error
           | None =>
               match Supabase.data r with
               | Some project => Done (json_response (formatProject project) 200)
               | None => Raise null_dereference
               end
           end
       end)
    (fun error =>
       if String.eqb (message error) "Unauthorized" then Done unauthorized
       else
         match error with
         | ZodError issues => Done (invalid_input issues)
         | _ =>
             _ ← console_error "Error updating project:" (message error);
             Done internal_error
         end).

Definition DELETE (p : Process) (request : NextRequest) (params_id : string)
  : prog NextResponse :=
  try_catch
    (_ ← Auth.requireAuth p request;
     let id := Js.Number params_id in
     if Js.isNaN id then Done invalid_id
     else
       r ← perform (DeleteProject id);
       match Supabase.error r with
       | Some err =>
           _ ← console_error "Supabase DELETE project error:" (Supabase.code err);
           Done internal_error
       | None =>
           match Supabase.data r with
           | None => Done not_found
           | Some _ =>
               Done (json_response
                       (Json.JObject [("message", Json.JString "Project deleted successfully")])
                       200)
           end
       end)
    (fun error =>
       if String.eqb (message error) "Unauthorized" then Done unauthorized
       else
         _ ← console_error "Error deleting project:" (message error);
         Done internal_error).

End WithPrimitives.
End ProjectByIdRoute.

(** *** [app/api/auth/me/route.ts] *)

Module MeRoute.
Section WithPrimitives.
Context `{Primitives}.

Definition GET (p : Process) (request : NextRequest) : prog NextResponse :=
  try_catch
    (user ← Auth.getCurrentUser p request;
     match user with
     | Some u =>
         if truthy u then Done (json_response (Json.JObject [("user", u)]) 200)
         else Done unauthorized
     | None => Done unauthorized
     end)
    (fun _ => Done unauthorized).

End WithPrimitives.
End MeRoute.

(** *** The login, registration and logout routes *)

Definition invalid_credentials : NextResponse := error_response "Invalid credentials" 401.

(** [process.env.NODE_ENV === 'production']. *)
Definition in_production (p : Process) : bool :=
  match env p !! "NODE_ENV" with
  | Some v => String.eqb v "production"
  | None => false
  end.

(** The response of a successful login or registration: the user, the
    token, and the token again as the [token] cookie. *)
Definition session_response (p : Process) (user : Supabase.UserRow) (token : string)
  : NextResponse :=
  {| status := 200;
     payload :=
       Json.JObject
         [("user", Json.JObject [("id", id_json (Supabase.user_id user));
                                 ("email", Json.JString (Supabase.user_email user));
                                 ("name", Json.JString (Supabase.user_name user))]);
          ("token", Json.JString token)];
     cookies_set :=
       [{| cookie_name := "token"; cookie_value := token; httpOnly := true;
           secure := in_production p; sameSite := "lax";
           maxAge := 60 * 60 * 24 * 7 |}];
     cookies_deleted := [] |}.

Module LoginRoute.
Section WithPrimitives.
Context `{Primitives}.

Definition POST (p : Process) (request : NextRequest) : prog NextResponse :=
  try_catch
    (body ← request_json request;
     '(email, password) ← lift (Zod.loginSchema_parse body);
     r ← perform (SelectUserByEmail email);
     match Supabase.error r, Supabase.data r with
     | Some dbError, _ =>
         _ ← console_error "Supabase error:" (Supabase.code dbError);
         Done invalid_credentials
     | None, None => Done invalid_credentials
     | None, Some user =>
         isValid ← Auth.verifyPassword password (Supabase.password_hash user);
         if negb isValid then Done invalid_credentials
         else
           token ← lift (Auth.generateToken p
                           {| Auth.userId := Supabase.user_id user;
                              Auth.email := Supabase.user_email user |});
           Done (session_response p user token)
     end)
    (fun error =>
       match error with
       | ZodError issues => Done (invalid_input issues)
       | _ =>
           _ ← console_error "Login error:" (message error);
           Done internal_error
       end).

End WithPrimitives.
End LoginRoute.

Module RegisterRoute.
Section WithPrimitives.
Context `{Primitives}.

Definition is_real_error (e : option Supabase.PostgrestError) : option Supabase.PostgrestError :=
  match e with
  | Some err => if String.eqb (Supabase.code err) "PGRST116" then None else Some err
  | None => None
  end.

Definition POST (p : Process) (request : NextRequest) : prog NextResponse :=
  try_catch
    (body ← request_json request;
     '(email, password, name) ← lift (Zod.registerSchema_parse body);
     existing ← perform (FindUserByEmail email);
     match is_real_error (Supabase.error existing) with
     | Some existingError =>
         _ ← console_error "Supabase existingUser error:" (Supabase.code existingError);
         Done internal_error
     | None =>
         match Supabase.data existing with
         | Some _ => Done (error_response "User already exists" 400)
         | None =>
             passwordHash ← Auth.hashPassword p password;
             r ← perform (InsertUser email passwordHash name);
             match Supabase.error r, Supabase.data r with
             | None, Some user =>
                 token ← lift (Auth.generateToken p
                                 {| Auth.userId := Supabase.user_id user;
                                    Auth.email := Supabase.user_email user |});
                 Done (session_response p user token)
             | insertError, _ =>
                 _ ← console_error "Supabase insert user error:"
                       (match insertError with
                        | Some err => Supabase.code err
                        | None => "null"
                        end);
                 Done internal_error
             end
         end
     end)
    (fun error =>
       match error with
       | ZodError issues => Done (invalid_input issues)
       | _ =>
           _ ← console_error "Registration error:" (message error);
           Done internal_error
       end).

End WithPrimitives.
End RegisterRoute.

Module LogoutRoute.

Definition POST : prog NextResponse :=
  Done {| status := 200;
          payload := Json.JObject [("message", Json.JString "Logged out successfully")];
          cookies_set := [];
          cookies_deleted := ["token"] |}.

End LogoutRoute.

(** ** Vocabulary of the statements, and sample data

    The sample primitives stand in for the library primitives when a
    definition is evaluated on a concrete input; they have no
    cryptographic strength. *)

(** The operations that require authentication: list, create, get by id,
    update and delete a project, and fetch the current user. *)
Definition protected_handlers `{Primitives} (p : Process) (request : NextRequest)
  (params_id : string) : list (prog NextResponse) :=
  [ProjectsRoute.GET p request;
   ProjectsRoute.POST p request;
   ProjectByIdRoute.GET p request params_id;
   ProjectByIdRoute.PUT p request params_id;
   ProjectByIdRoute.DELETE p request params_id;
   MeRoute.GET p request].

(** Two processes with the same secret and the same clock. *)
Definition same_configuration (p1 p2 : Process) : Prop :=
  Auth.JWT_SECRET p1 = Auth.JWT_SECRET p2 /\ clock p1 = clock p2.

(** A stand-in for the library primitives, for evaluating the definitions
    on concrete inputs.  It has no cryptographic strength. *)
Definition sample_primitives : Primitives :=
  {| hmac := fun _ key text => key +:+ text;
     eks_blowfish := fun _ salt password => password +:+ salt;
     is_email := fun s => match Chars.split "@" s with [_; _] => true | _ => false end |}.

Definition sample_process : Process :=
  {| env := ∅; clock := 1700000000123; entropy := fun i => ascii_of_nat (7 * i + 200) |}.

Definition other_process : Process :=
  {| env := ∅; clock := 1700000000123; entropy := fun i => ascii_of_nat (5 * i + 17) |}.

Definition configured_process : Process :=
  {| env := {[ "JWT_SECRET" := "configured-secret" ]}; clock := 1700000000123;
     entropy := fun _ => Ascii.zero |}.

Definition alice : Auth.JWTPayload :=
  {| Auth.userId := NumericId 42; Auth.email := "alice@example.com" |}.

Definition sample_token : string :=
  Jsonwebtoken.compact (H := sample_primitives)
    (Json.JObject (Auth.issued_claims alice 1700000000123)) Auth.fallback_secret.

(** Three tokens that must not decode: one that is not in three segments,
    one whose signature was made with another secret, one that expired. *)
Definition malformed_token : string := "not-a-token".

Definition forged_token : string :=
  Jsonwebtoken.compact (H := sample_primitives)
    (Json.JObject (Auth.issued_claims alice 1700000000123)) "another-secret".

Definition stale_token : string :=
  Jsonwebtoken.compact (H := sample_primitives)
    (Json.JObject (Auth.issued_claims alice 0)) Auth.fallback_secret.

(** A token signed with the secret in use whose payload is the number 0
    instead of a claim set. *)
Definition zero_token : string :=
  Jsonwebtoken.compact (H := sample_primitives)
    (Json.JNumber (Js.of_Z 0)) Auth.fallback_secret.

Definition anonymous_request : NextRequest :=
  {| cookies := ∅; searchParams := []; body := None |}.

Definition request_with (token : string) : NextRequest :=
  {| cookies := {[ "token" := token ]}; searchParams := []; body := None |}.

Definition wrong_password_request : NextRequest :=
  {| cookies := ∅; searchParams := [];
     body := Some (Json.JObject [("email", Json.JString "alice@example.com");
                                 ("password", Json.JString "wrongpass")]) |}.

Definition uuid_example : string := "3f2504e0-4f89-11d3-9a0c-0305e82c3301".

(** A datastore that holds nothing and reports no error. *)
Definition no_rows {A : Type} : Supabase.PostgrestResponse A :=
  {| Supabase.data := None; Supabase.error := None |}.

Definition empty_store : environment :=
  fun X _ eff =>
    match eff in effect X return X with
    | SelectProjects _ => no_rows
    | InsertProject _ => no_rows
    | SelectProject _ => no_rows
    | UpdateProject _ _ => no_rows
    | DeleteProject _ => no_rows
    | SelectUserByEmail _ => no_rows
    | FindUserByEmail _ => no_rows
    | InsertUser _ _ _ => no_rows
    | ConsoleError _ _ => tt
    end.

(** The hash of [secret123] under the sample primitives. *)
Definition alice_hash : string :=
  Eval vm_compute in
    match Bcryptjs.hash (H := sample_primitives) "secret123" 10 (entropy sample_process) with
    | Returns h => h
    | Throws _ => EmptyString
    end.

Definition alice_row : Supabase.UserRow :=
  {| Supabase.user_id := NumericId 42;
     Supabase.user_email := "alice@example.com";
     Supabase.user_name := "Alice";
     Supabase.password_hash := alice_hash |}.

(** A store that holds the one user [alice_row]. *)
Definition store_with_alice : environment :=
  fun X history eff =>
    match eff in effect X return X with
    | SelectUserByEmail _ => {| Supabase.data := Some alice_row; Supabase.error := None |}
    | other => empty_store _ history other
    end.

(** A store without users: a lookup by email finds no row. *)
Definition store_without_users : environment :=
  fun X history eff =>
    match eff in effect X return X with
    | SelectUserByEmail _ =>
        {| Supabase.data := None;
           Supabase.error := Some {| Supabase.code := "PGRST116";
                                     Supabase.details := "0 rows" |} |}
    | other => empty_store _ history other
    end.

(** ** The dashboard page ([app/page.tsx])

    The query string that [fetchProjects] builds from the status filter
    and the search box, as the list of its [URLSearchParams] entries. *)
Definition fetchProjects_params (statusFilter searchQuery : string)
  : list (string * string) :=
  (if negb (String.eqb statusFilter "all") then [("status", statusFilter)] else [])
  ++ (if negb (Chars.is_empty searchQuery) then [("search", searchQuery)] else []).

(** The datastore accesses of a trace, in order. *)
Definition datastore_accesses (trace : list entry) : list entry :=
  List.filter is_datastore_access trace.

(** The columns that [projectSchema] knows. *)
Definition project_fields : list string :=
  ["title"; "status"; "deadline"; "assigned_to"; "budget"; "description"].

(** Sample requests for the login and registration routes. *)
Definition login_request : NextRequest :=
  {| cookies := ∅; searchParams := [];
     body := Some (Json.JObject [("email", Json.JString "alice@example.com");
                                 ("password", Json.JString "secret123")]) |}.

Definition register_request : NextRequest :=
  {| cookies := ∅; searchParams := [];
     body := Some (Json.JObject [("email", Json.JString "alice@example.com");
                                 ("password", Json.JString "secret123");
                                 ("name", Json.JString "Alice")]) |}.

(** A store without users that accepts an insert and returns the new row. *)
Definition store_accepting_users : environment :=
  fun X history eff =>
    match eff in effect X return X with
    | InsertUser email hash name =>
        {| Supabase.data := Some {| Supabase.user_id := NumericId 42;
                                    Supabase.user_email := email;
                                    Supabase.user_name := name;
                                    Supabase.password_hash := hash |};
           Supabase.error := None |}
    | other => empty_store _ history other
    end.

(** The routes that need no session: login, registration and logout. *)
Definition public_handlers `{Primitives} (p : Process) (request : NextRequest)
  : list (prog NextResponse) :=
  [LoginRoute.POST p request; RegisterRoute.POST p request; LogoutRoute.POST].

(** The statuses that the handlers answer with. *)
Definition known_statuses : list Z := [200; 201; 400; 401; 404; 500].

(** The users that a trace inserts: email, password hash and name. *)
Definition inserted_users (trace : list entry) : list (string * string * string) :=
  omap (fun e => match e with
                 | @Entry _ (InsertUser email hash name) => Some (email, hash, name)
                 | _ => None
                 end) trace.

(** The project rows that a trace inserts. *)
Definition inserted_projects (trace : list entry) : list Supabase.ProjectValues :=
  omap (fun e => match e with
                 | @Entry _ (InsertProject values) => Some values
                 | _ => None
                 end) trace.

(** The updates of a trace: the row id and the columns written. *)
Definition updated_projects (trace : list entry)
  : list (Js.number * list (string * Json.json)) :=
  omap (fun e => match e with
                 | @Entry _ (UpdateProject id updateData) => Some (id, updateData)
                 | _ => None
                 end) trace.

(** A request from a signed-in caller that renames a project, and sends
    along a column that the schema does not know. *)
Definition update_request : NextRequest :=
  {| cookies := {[ "token" := sample_token ]}; searchParams := [];
     body := Some (Json.JObject [("title", Json.JString "Renamed");
                                 ("owner", Json.JString "mallory");
                                 ("budget", Json.JNumber (Js.of_Z 1200))]) |}.

(** A request from a signed-in caller that creates a project with an empty
    description and a deadline that is no calendar date. *)
Definition create_request : NextRequest :=
  {| cookies := {[ "token" := sample_token ]}; searchParams := [];
     body := Some (Json.JObject [("title", Json.JString "Site");
                                 ("status", Json.JString "active");
                                 ("deadline", Json.JString "2024-02-31");
                                 ("budget", Json.JNumber (Js.of_Z 1200));
                                 ("description", Json.JString EmptyString)]) |}.

Definition create_values : Supabase.ProjectValues :=
  {| Supabase.new_title := Some "Site";
     Supabase.new_status := Some "active";
     Supabase.new_deadline := Some "2024-02-31";
     Supabase.new_assigned_to := None;
     Supabase.new_budget := Some (Js.of_Z 1200);
     Supabase.new_description := None |}.

(** The row of a create request that names no column of the schema. *)
Definition blank_values : Supabase.ProjectValues :=
  {| Supabase.new_title := None;
     Supabase.new_status := None;
     Supabase.new_deadline := None;
     Supabase.new_assigned_to := None;
     Supabase.new_budget := None;
     Supabase.new_description := None |}.

(** A request from a signed-in caller whose body names no column of the
    schema. *)
Definition fieldless_request : NextRequest :=
  {| cookies := {[ "token" := sample_token ]}; searchParams := [];
     body := Some (Json.JObject [("owner", Json.JString "mallory")]) |}.

(** A request from a signed-in caller with a budget of zero. *)
Definition zero_budget_request : NextRequest :=
  {| cookies := {[ "token" := sample_token ]}; searchParams := [];
     body := Some (Json.JObject [("title", Json.JString "Site");
                                 ("budget", Json.JNumber (Js.of_Z 0))]) |}.

(** ** The edit form ([components/ProjectModal.tsx], [app/page.tsx])

    [ProjectModal] fills its form from the project being edited, which is
    an element of the list that the list handler returned, and
    [handleSave] sends the form as the body of a PUT. *)

(** [project.description || '']. *)
Definition or_empty (v : option Json.json) : Json.json :=
  match v with
  | Some d => if truthy d then d else Json.JString EmptyString
  | None => Json.JString EmptyString
  end.

(** The form data for [project].  A property that [project] does not
    have is [undefined], which [JSON.stringify] leaves out. *)
Definition formData_of (project : Json.json) : Json.json :=
  Json.JObject
    (omap (fun '(k, v) => pair k <$> v)
       [("title", Json.get "title" project);
        ("status", Json.get "status" project);
        ("deadline", Json.get "deadline" project);
        ("assigned_to", Json.get "assigned_to" project);
        ("budget", Json.get "budget" project);
        ("description", Some (or_empty (Json.get "description" project)))]).

(** A stored project without a deadline, and a request from a signed-in
    caller that saves its edit form unchanged. *)
Definition undated_row : Supabase.ProjectRow :=
  {| Supabase.project_id := NumericId 12;
     Supabase.title := "Site";
     Supabase.status := "active";
     Supabase.deadline := None;
     Supabase.assigned_to := Some "Bob";
     Supabase.budget := Some "1200";
     Supabase.description := None;
     Supabase.created_at := "2024-01-01T00:00:00Z";
     Supabase.updated_at := "2024-01-01T00:00:00Z" |}.

Definition dated_row : Supabase.ProjectRow :=
  {| Supabase.project_id := NumericId 12;
     Supabase.title := "Site";
     Supabase.status := "active";
     Supabase.deadline := Some "2024-06-30";
     Supabase.assigned_to := Some "Bob";
     Supabase.budget := Some "1200";
     Supabase.description := None;
     Supabase.created_at := "2024-01-01T00:00:00Z";
     Supabase.updated_at := "2024-01-01T00:00:00Z" |}.

(** A stored project whose id is a UUID. *)
Definition uuid_row : Supabase.ProjectRow :=
  {| Supabase.project_id := TextId uuid_example;
     Supabase.title := "Site";
     Supabase.status := "active";
     Supabase.deadline := Some "2024-06-30";
     Supabase.assigned_to := Some "Bob";
     Supabase.budget := Some "1200.00";
     Supabase.description := None;
     Supabase.created_at := "2024-01-01T00:00:00Z";
     Supabase.updated_at := "2024-01-01T00:00:00Z" |}.

Definition edit_request (row : Supabase.ProjectRow) : NextRequest :=
  {| cookies := {[ "token" := sample_token ]}; searchParams := [];
     body := Some (formData_of (formatProject row)) |}.

(** A process whose [JWT_SECRET] is set to the empty string. *)
Definition blank_secret_process : Process :=
  {| env := {[ "JWT_SECRET" := EmptyString ]}; clock := 1700000000123;
     entropy := fun _ => Ascii.zero |}.

(** A datastore that fails every access with the same error. *)
Definition failing_store (err : Supabase.PostgrestError) : environment :=
  fun X _ eff =>
    match eff in effect X return X with
    | SelectProjects _ => {| Supabase.data := None; Supabase.error := Some err |}
    | InsertProject _ => {| Supabase.data := None; Supabase.error := Some err |}
    | SelectProject _ => {| Supabase.data := None; Supabase.error := Some err |}
    | UpdateProject _ _ => {| Supabase.data := None; Supabase.error := Some err |}
    | DeleteProject _ => {| Supabase.data := None; Supabase.error := Some err |}
    | SelectUserByEmail _ => {| Supabase.data := None; Supabase.error := Some err |}
    | FindUserByEmail _ => {| Supabase.data := None; Supabase.error := Some err |}
    | InsertUser _ _ _ => {| Supabase.data := None; Supabase.error := Some err |}
    | ConsoleError _ _ => tt
    end.

Definition connection_error : Supabase.PostgrestError :=
  {| Supabase.code := "08006"; Supabase.details := "connection failure" |}.

(** The text of a [DECIMAL] column with [scale] fraction digits that holds
    the natural number [n], as PostgreSQL sends it: [1200.00] for 1200 at
    scale 2. *)
Fixpoint zeros (k : nat) : string :=
  match k with
  | O => EmptyString
  | S k' => String "0" (zeros k')
  end.

Definition decimal_text (n : N) (scale : nat) : string :=
  match scale with
  | O => Js.digits_text n
  | S _ => Js.digits_text n +:+ "." +:+ zeros scale
  end.

(** * Properties *)

#[local] Arguments String.append !_ _ / : simpl nomatch.

(** ** The definitions on concrete inputs *)

Example base64url_Man :
  Base64.base64url "Man" = "TWFu" /\ Base64.base64url "Ma" = "TWE"
  /\ Base64.base64url_decode "TWFu" = Some "Man".
Proof. repeat split. Qed.

Example header_segment :
  Base64.base64url (Json.stringify Jsonwebtoken.header)
  = "eyJhbGciOiJIUzI1NiIsInR5cCI6IkpXVCJ9".
Proof. reflexivity. Qed.

Example Number_literals :
  Js.Number "12" = Js.Finite false 12 0
  /\ Js.Number " 12.50 " = Js.Finite false 125 (-1)
  /\ Js.Number "1200.00" = Js.Finite false 1200 0
  /\ Js.Number "0x1F" = Js.Finite false 31 0
  /\ Js.Number EmptyString = Js.Finite false 0 0
  /\ Js.Number "-Infinity" = Js.Infinity true
  /\ Js.Number "12px" = Js.NaN
  /\ Js.Number "1e" = Js.NaN
  /\ Js.Number uuid_example = Js.NaN.
Proof. vm_compute. repeat split. Qed.

(** [min(6)] counts UTF-16 code units: three two-byte letters are three
    units, three characters outside the basic plane are six. *)
Example min6_code_units :
  Zod.min6 "secret" = true
  /\ Zod.min6 "ééé" = false
  /\ Zod.min6 "éééééé" = true
  /\ Zod.min6 "😀😀😀" = true
  /\ Zod.registerSchema_parse (H := sample_primitives)
       (Json.JObject [("email", Json.JString "alice@example.com");
                      ("password", Json.JString "ééé");
                      ("name", Json.JString "Alice")])
     = Throws (ZodError [Zod.issue "password" "too_small"]).
Proof. vm_compute. repeat split. Qed.

(** Literals that no double holds exactly are rounded: to even on a tie,
    to zero below the smallest double, to infinity above the largest. *)
Example Number_rounds :
  Js.Number "9007199254740993" = Js.Finite false 9007199254740992 0
  /\ Js.Number "9007199254740995" = Js.Finite false 9007199254740996 0
  /\ Js.Number "0x20000000000001" = Js.Finite false 9007199254740992 0
  /\ Js.Number "0.5" = Js.Finite false 5 (-1)
  /\ Js.Number "0.1"
     = Js.Finite false 1000000000000000055511151231257827021181583404541015625 (-55)
  /\ Js.Number "1e-400" = Js.Finite false 0 0
  /\ Js.Number "1e1000" = Js.Infinity false
  /\ Js.Number "1.7976931348623159e308" = Js.Infinity false.
Proof. vm_compute. repeat split. Qed.

Example sample_token_claims :
  Jsonwebtoken.verify (H := sample_primitives) sample_token Auth.fallback_secret
    1700000000123
  = Returns (Json.JObject
               [("userId", Json.JNumber (Js.Finite false 42 0));
                ("email", Json.JString "alice@example.com");
                ("iat", Json.JNumber (Js.Finite false 1700000000 0));
                ("exp", Json.JNumber (Js.Finite false 1700604800 0))]).
Proof. vm_compute. reflexivity. Qed.

Example sample_token_expires :
  Jsonwebtoken.verify (H := sample_primitives) sample_token Auth.fallback_secret
    1700604799999
  = Jsonwebtoken.verify (H := sample_primitives) sample_token Auth.fallback_secret
      1700000000123
  /\ Jsonwebtoken.verify (H := sample_primitives) sample_token Auth.fallback_secret
       1700604800000
     = Throws (JsError "TokenExpiredError" "jwt expired").
Proof. vm_compute. split; reflexivity. Qed.

Example alice_hash_text :
  alice_hash = "$2b$10$wK9U1cRp6ti./u2TFAKoKOa0ThakTyKRGxwK9U1cRp6ti./u2TFAK"
  /\ Bcryptjs.compare (H := sample_primitives) "secret123" alice_hash = Returns true
  /\ Bcryptjs.compare (H := sample_primitives) "wrongpass" alice_hash = Returns false.
Proof. vm_compute. repeat split. Qed.

Example update_without_fields :
  result_of empty_store
    (ProjectByIdRoute.PUT (H := sample_primitives) sample_process
       {| cookies := {[ "token" := sample_token ]}; searchParams := [];
          body := Some (Json.JObject []) |} "12")
  = Returns (error_response "No fields to update" 400).
Proof. vm_compute. reflexivity. Qed.

(** ** Strings *)

Module CharsFacts.
Import Chars.

Lemma split_single (sep : ascii) (a : string) :
  all (differs sep) a = true -> split sep a = [a].
Proof.
  induction a as [|c a IH]; cbn [split all]; [reflexivity|].
  unfold differs at 1. intros [Hc Ha]%andb_prop.
  apply negb_true_iff in Hc. rewrite Hc, (IH Ha). reflexivity.
Qed.

Lemma split_app (sep : ascii) (a b : string) :
  all (differs sep) a = true ->
  split sep (a +:+ String sep b) = a :: split sep b.
Proof.
  induction a as [|c a IH]; cbn [split all String.append].
  - now rewrite Ascii.eqb_refl.
  - unfold differs at 1. intros [Hc Ha]%andb_prop.
    apply negb_true_iff in Hc. rewrite Hc, (IH Ha). reflexivity.
Qed.

Lemma split_length (sep : ascii) (s : string) :
  length (split sep s) = S (count sep s).
Proof.
  induction s as [|c s IH]; cbn [split count]; [reflexivity|].
  destruct (Ascii.eqb c sep); cbn; [now rewrite IH|].
  destruct (split sep s); cbn in *; lia.
Qed.

Lemma append_empty_r (s : string) : s +:+ EmptyString = s.
Proof. induction s as [|c s IH]; cbn; congruence. Qed.

Lemma append_assoc (a b c : string) : (a +:+ b) +:+ c = a +:+ (b +:+ c).
Proof. induction a as [|x a IH]; cbn; congruence. Qed.

Lemma take_pad_length (n : nat) (s : string) : String.length (take_pad n s) = n.
Proof.
  revert s; induction n as [|n IH]; intros s; cbn; [reflexivity|].
  destruct s; cbn; now rewrite IH.
Qed.

Lemma substring_prefix (a b : string) :
  String.substring 0 (String.length a) (a +:+ b) = a.
Proof.
  induction a as [|c a IH]; cbn.
  - now destruct b.
  - now rewrite IH.
Qed.

Lemma length_append (a b : string) :
  String.length (a +:+ b) = (String.length a + String.length b)%nat.
Proof. induction a as [|c a IH]; cbn; congruence. Qed.

End CharsFacts.

(** ** Base64 *)

Module Base64Facts.
Import Base64.

Lemma url_char_roundtrip (x : sextet) :
  dec_char url_alphabet (enc_char url_alphabet x) = Some x.
Proof. destruct x as [[[[[[] []] []] []] []] []]; reflexivity. Qed.

Lemma bcrypt_char_roundtrip (x : sextet) :
  dec_char bcrypt_alphabet (enc_char bcrypt_alphabet x) = Some x.
Proof. destruct x as [[[[[[] []] []] []] []] []]; reflexivity. Qed.

Lemma url_char_no_dot (x : sextet) :
  Chars.differs "." (enc_char url_alphabet x) = true.
Proof. destruct x as [[[[[[] []] []] []] []] []]; reflexivity. Qed.

Lemma group_first (a b : ascii) : b1 (s1 a) (s2 a b) = a.
Proof. destruct a, b; reflexivity. Qed.

Lemma group_second (a b c : ascii) : b2 (s2 a b) (s3 b c) = b.
Proof. destruct a, b, c; reflexivity. Qed.

Lemma group_third (b c : ascii) : b3 (s3 b c) (s4 c) = c.
Proof. destruct b, c; reflexivity. Qed.

(** Induction on strings, three characters at a time. *)
Lemma string_ind3 (P : string -> Prop) :
  P EmptyString ->
  (forall a, P (String a EmptyString)) ->
  (forall a b, P (String a (String b EmptyString))) ->
  (forall a b c r, P r -> P (String a (String b (String c r)))) ->
  forall s, P s.
Proof.
  intros H0 H1 H2 H3.
  fix IH 1. intros [|a [|b [|c r]]];
    [exact H0 | exact (H1 a) | exact (H2 a b) | exact (H3 a b c r (IH r))].
Qed.

Section Codec.
Variable alphabet : string.

Lemma encode_all (P : ascii -> bool) (s : string) :
  (forall x, P (enc_char alphabet x) = true) ->
  Chars.all P (encode alphabet s) = true.
Proof.
  intros HP.
  induction s as [|a|a b|a b c r IH] using string_ind3; cbn [encode Chars.all];
    rewrite ?HP, ?IH; reflexivity.
Qed.

Lemma encode_nonempty (c : ascii) (r : string) :
  Chars.is_empty (encode alphabet (String c r)) = false.
Proof. destruct r as [|b [|d r]]; reflexivity. Qed.

Hypothesis char_roundtrip :
  forall x, dec_char alphabet (enc_char alphabet x) = Some x.

Lemma decode_encode (s : string) : decode alphabet (encode alphabet s) = Some s.
Proof.
  induction s as [|a|a b|a b c r IH] using string_ind3; cbn [encode decode].
  - reflexivity.
  - rewrite !char_roundtrip. cbn. now rewrite group_first.
  - rewrite !char_roundtrip. cbn. now rewrite group_first, group_second.
  - rewrite !char_roundtrip, IH. cbn.
    now rewrite group_first, group_second, group_third.
Qed.
End Codec.

Lemma base64url_roundtrip (s : string) : base64url_decode (base64url s) = Some s.
Proof. apply decode_encode, url_char_roundtrip. Qed.

Lemma base64url_no_dot (s : string) :
  Chars.all (Chars.differs ".") (base64url s) = true.
Proof. apply encode_all, url_char_no_dot. Qed.

Lemma base64url_alphabet (s : string) :
  Chars.all Jsonwebtoken.in_url_alphabet (base64url s) = true.
Proof.
  apply encode_all. intros x. unfold Jsonwebtoken.in_url_alphabet.
  now rewrite url_char_roundtrip.
Qed.

End Base64Facts.

(** ** JavaScript numbers *)

Module JsFacts.
Import Js.

Lemma signed_of_Z (z : Z) : signed (z <? 0) (Z.abs_N z) = z.
Proof. unfold signed. destruct (Z.ltb_spec z 0); rewrite N2Z.inj_abs_N; lia. Qed.

Lemma lt_of_Z (a b : Z) : lt (of_Z a) (of_Z b) = (a <? b).
Proof.
  unfold lt, of_Z. rewrite !signed_of_Z. cbn. now rewrite !Z.mul_1_r.
Qed.

Lemma ge_of_Z (a b : Z) : ge (of_Z a) (of_Z b) = (b <=? a).
Proof.
  unfold ge. rewrite lt_of_Z. cbn. rewrite Z.leb_antisym. reflexivity.
Qed.

Lemma span_digits_app (ds rest : string) :
  Chars.all Chars.is_digit ds = true -> ends_digits rest ->
  span_digits (ds +:+ rest) = (ds, rest).
Proof.
  intros Hds Hrest. induction ds as [|c ds IH]; cbn [String.append span_digits].
  - destruct rest as [|c r]; cbn in *; [reflexivity | now rewrite Hrest].
  - cbn in Hds. apply andb_prop in Hds as [Hc Hds].
    rewrite Hc, (IH Hds). reflexivity.
Qed.

Lemma uint_text_digits (d : Decimal.uint) :
  Chars.all Chars.is_digit (NilEmpty.string_of_uint d) = true.
Proof. induction d; cbn [NilEmpty.string_of_uint Chars.all]; rewrite ?IHd; reflexivity. Qed.

Lemma digits_text_digits (n : N) : Chars.all Chars.is_digit (digits_text n) = true.
Proof. apply uint_text_digits. Qed.

Lemma digits_value_text (n : N) : digits_value (digits_text n) = n.
Proof.
  unfold digits_value, digits_text. rewrite NilEmpty.usu. apply Unsigned.of_to.
Qed.

Lemma to_uint_normal (n : N) : Decimal.unorm (N.to_uint n) = N.to_uint n.
Proof. rewrite <- (Unsigned.of_to n) at 2. now rewrite Unsigned.to_of. Qed.

(** The numeral of [n] is ["0"] or starts with a digit from 1 to 9. *)
Lemma digits_text_head (n : N) :
  exists c r, digits_text n = String c r /\ Chars.is_digit c = true
              /\ (Ascii.eqb c "0" = true -> r = EmptyString).
Proof.
  unfold digits_text. pose proof (to_uint_normal n) as Hn.
  destruct (N.to_uint n) as [|u|u|u|u|u|u|u|u|u|u] eqn:E;
    cbn [NilEmpty.string_of_uint];
    try (eexists _, _; split; [reflexivity | split; [reflexivity | discriminate]]).
  - now apply unorm_nonnil in Hn.
  - eexists _, _; split; [reflexivity | split; [reflexivity | intros _]].
    rewrite unorm_D0 in Hn. unfold Decimal.unorm in Hn.
    destruct (Decimal.nzhead u) eqn:Eu; try discriminate.
    + now inversion Hn.
    + now apply nzhead_nonzero in Eu.
Qed.

End JsFacts.

(** ** JSON text *)

Module JsonFacts.
Import Json.

Lemma string_body_escape_char (c : ascii) (t : string) :
  string_body (escape_char c +:+ t)
  = '(u, rest) ← string_body t; Some (String c u, rest).
Proof. destruct c as [[] [] [] [] [] [] [] []]; reflexivity. Qed.

Lemma string_body_escape (s rest : string) :
  string_body (escape s +:+ String Chars.dquote rest) = Some (s, rest).
Proof.
  induction s as [|c s IH]; cbn [escape].
  - reflexivity.
  - rewrite CharsFacts.append_assoc, string_body_escape_char, IH. reflexivity.
Qed.

Lemma string_text_app (s rest : string) :
  string_text s +:+ rest = String Chars.dquote (escape s +:+ String Chars.dquote rest).
Proof.
  unfold string_text, Chars.quoted. cbn [String.append].
  now rewrite CharsFacts.append_assoc.
Qed.

(** How the parser reads a first character that is a digit. *)
Lemma digit_dispatch (c : ascii) :
  Chars.is_digit c = true ->
  is_ws c = false /\ Ascii.eqb c Chars.dquote = false /\ Ascii.eqb c "{" = false
  /\ Ascii.eqb c "[" = false /\ Ascii.eqb c "t" = false /\ Ascii.eqb c "f" = false
  /\ Ascii.eqb c "n" = false /\ Ascii.eqb c "-" = false.
Proof.
  destruct c as [[] [] [] [] [] [] [] []]; cbv; intros Hd;
    solve [discriminate Hd | repeat split].
Qed.

Lemma closes_not_digit (c : ascii) (r : string) :
  closes c -> Js.ends_digits (String c r).
Proof. intros [-> | ->]; reflexivity. Qed.

Lemma no_minus (s : string) (c0 : ascii) (r0 : string) :
  s = String c0 r0 -> Ascii.eqb c0 "-" = false ->
  match s with
  | String c r => if Ascii.eqb c "-" then (true, r) else (false, s)
  | EmptyString => (false, s)
  end = (false, s).
Proof. intros -> Hm. now rewrite Hm. Qed.

Lemma number_prefix_digits (negative : bool) (n : N) (c : ascii) (r : string) :
  closes c ->
  number_prefix ((if negative then "-" else EmptyString)
                 +:+ Js.digits_text n +:+ String c r)
  = Some (Js.Finite negative n 0, String c r).
Proof.
  intros Hc.
  destruct (JsFacts.digits_text_head n) as (c0 & r0 & E & Hd & Hz).
  pose proof (JsFacts.span_digits_app (Js.digits_text n) (String c r)
                (JsFacts.digits_text_digits n) (closes_not_digit c r Hc)) as Hspan.
  assert (Hlead : Chars.is_empty (Js.digits_text n) || has_leading_zero (Js.digits_text n) = false).
  { rewrite E. cbn. destruct r0 as [|c1 r1]; [reflexivity|].
    destruct (Ascii.eqb c0 "0"); [now specialize (Hz eq_refl) | reflexivity]. }
  assert (Hval : Js.digits_value (Js.digits_text n +:+ EmptyString) = n).
  { now rewrite CharsFacts.append_empty_r, JsFacts.digits_value_text. }
  unfold number_prefix.
  destruct negative; cbn [String.append].
  - change (Ascii.eqb "-" "-") with true. cbv iota beta.
    rewrite Hspan, Hlead.
    destruct Hc as [-> | ->]; cbn; now rewrite Hval.
  - destruct (digit_dispatch c0 Hd) as (_ & _ & _ & _ & _ & _ & _ & Hm).
    rewrite (no_minus _ c0 (r0 +:+ String c r)); [|now rewrite E|exact Hm].
    rewrite Hspan, Hlead.
    destruct Hc as [-> | ->]; cbn; now rewrite Hval.
Qed.

Lemma number_text_of_Z (z : Z) :
  number_text (Js.of_Z z)
  = (if z <? 0 then "-" else EmptyString) +:+ Js.digits_text (Z.abs_N z).
Proof.
  unfold number_text, Js.of_Z. change (0 =? 0) with true. cbv iota.
  rewrite CharsFacts.append_empty_r.
  destruct (Z.ltb_spec z 0) as [Hz | Hz]; [|reflexivity].
  replace (Z.abs_N z =? 0)%N with false; [reflexivity|].
  symmetry. apply N.eqb_neq. lia.
Qed.

Lemma value_number_head (fuel : nat) (text : string) (c0 : ascii) (r0 : string) :
  text = String c0 r0 -> Chars.is_digit c0 = true \/ c0 = "-"%char ->
  value (S fuel) text = '(n, rest) ← number_prefix text; Some (JNumber n, rest).
Proof.
  intros -> [Hd | ->]; [|reflexivity].
  destruct (digit_dispatch c0 Hd) as (Hw & Hq & Ho & Ha & Ht & Hf & Hn & _).
  cbn [value skip_ws]. now rewrite Hw, Hq, Ho, Ha, Ht, Hf, Hn.
Qed.

Lemma value_int (fuel : nat) (z : Z) (c : ascii) (r : string) :
  closes c ->
  value (S fuel) (number_text (Js.of_Z z) +:+ String c r)
  = Some (JNumber (Js.of_Z z), String c r).
Proof.
  intros Hc. rewrite number_text_of_Z, CharsFacts.append_assoc.
  destruct (JsFacts.digits_text_head (Z.abs_N z)) as (c0 & r0 & E & Hd & _).
  unfold Js.of_Z. destruct (z <? 0).
  - rewrite (value_number_head _ _ "-" (Js.digits_text (Z.abs_N z) +:+ String c r));
      [|reflexivity|now right].
    now rewrite (number_prefix_digits true _ _ _ Hc).
  - rewrite (value_number_head _ _ c0 (r0 +:+ String c r));
      [|cbn [String.append]; now rewrite E|now left].
    now rewrite (number_prefix_digits false _ _ _ Hc).
Qed.

Lemma value_string (fuel : nat) (s rest : string) :
  value (S fuel) (string_text s +:+ rest) = Some (JString s, rest).
Proof.
  rewrite string_text_app. cbn [value skip_ws].
  change (is_ws Chars.dquote) with false. cbv iota.
  rewrite Ascii.eqb_refl, string_body_escape. reflexivity.
Qed.

Lemma value_scalar (fuel : nat) (v : json) (c : ascii) (r : string) :
  scalar v -> closes c ->
  value (S fuel) (stringify v +:+ String c r) = Some (v, String c r).
Proof.
  intros [s | z] Hc; cbn [stringify].
  - apply value_string.
  - now apply value_int.
Qed.

Lemma members_flat (ms : list (string * json)) :
  forall (kv : string * json) (fuel : nat) (rest : string),
    Forall (fun m => scalar (snd m)) (kv :: ms) ->
    (length (kv :: ms) <= fuel)%nat ->
    members (S fuel) (String.concat "," (List.map member_text (kv :: ms)) +:+ String "}" rest)
    = Some (kv :: ms, rest).
Proof.
  induction ms as [|kv' ms IH]; intros [k v] fuel rest Hs Hf.
  - cbn [List.map String.concat]. unfold member_text at 1. cbn [fst snd].
    rewrite !CharsFacts.append_assoc, string_text_app.
    cbn [members skip_ws]. change (is_ws Chars.dquote) with false. cbv iota.
    rewrite Ascii.eqb_refl, string_body_escape. cbn [mbind option_bind].
    cbn [String.append skip_ws]. change (is_ws ":") with false. cbv iota.
    change (Ascii.eqb ":" ":") with true. cbv iota.
    destruct fuel as [|fuel]; [cbn in Hf; lia|].
    rewrite value_scalar; [|now inversion Hs|now right].
    reflexivity.
  - cbn [List.map]. change (String.concat "," (?x :: ?y :: ?l))
      with (x +:+ "," +:+ String.concat "," (y :: l)).
    unfold member_text at 1. cbn [fst snd].
    rewrite !CharsFacts.append_assoc, string_text_app.
    cbn [members skip_ws]. change (is_ws Chars.dquote) with false. cbv iota.
    rewrite Ascii.eqb_refl, string_body_escape. cbn [mbind option_bind].
    cbn [String.append skip_ws]. change (is_ws ":") with false. cbv iota.
    change (Ascii.eqb ":" ":") with true. cbv iota.
    destruct fuel as [|fuel]; [cbn in Hf; lia|].
    rewrite value_scalar; [|now inversion Hs|now left].
    cbn [mbind option_bind skip_ws]. change (is_ws ",") with false. cbv iota.
    change (Ascii.eqb "," ",") with true. cbv iota.
    assert (IH' := IH kv' fuel rest). cbn [List.map] in IH'.
    rewrite IH'; [reflexivity | now inversion Hs | cbn in Hf |- *; lia].
Qed.

Lemma concat_length (sep : string) (parts : list string) :
  Forall (fun x => Chars.is_empty x = false) parts ->
  (length parts <= String.length (String.concat sep parts))%nat.
Proof.
  induction 1 as [|x l Hx Hl IH]; [cbn; lia|].
  destruct l as [|y l].
  - destruct x; [discriminate | cbn; lia].
  - change (String.concat sep (x :: y :: l))
      with (x +:+ sep +:+ String.concat sep (y :: l)).
    rewrite !CharsFacts.length_append.
    destruct x; [discriminate | cbn in *; lia].
Qed.

(** [JSON.parse] gives back a flat object that [JSON.stringify] printed. *)
Lemma parse_stringify_flat (kv : string * json) (ms : list (string * json)) :
  Forall (fun m => scalar (snd m)) (kv :: ms) ->
  parse (stringify (JObject (kv :: ms))) = Some (JObject (kv :: ms)).
Proof.
  intros Hs. unfold parse.
  assert (Hlen : (length (kv :: ms) < String.length (stringify (JObject (kv :: ms))))%nat).
  { cbn [stringify]. cbn [String.append String.length].
    rewrite CharsFacts.length_append.
    apply Nat.lt_succ_r, Nat.le_trans with (2 := Nat.le_add_r _ _).
    rewrite <- (length_map (fun kv => string_text (fst kv) +:+ ":" +:+ stringify (snd kv))).
    apply concat_length, Forall_map, Forall_forall. now intros [k v] _. }
  set (fuel := String.length (stringify (JObject (kv :: ms)))) in *.
  cbn [stringify String.append].
  cbn [value skip_ws]. change (is_ws "{") with false. cbv iota.
  change (Ascii.eqb "{" Chars.dquote) with false.
  change (Ascii.eqb "{" "{") with true. cbv iota.
  destruct kv as [k v]. cbn [List.map fst snd].
  assert (Hhead : forall tl, skip_ws
                    (String.concat "," ((string_text k +:+ ":" +:+ stringify v) :: tl) +:+ "}")
                  = String Chars.dquote
                      (escape k +:+ String Chars.dquote EmptyString +:+ ":" +:+ stringify v
                       +:+ match tl with
                           | [] => EmptyString
                           | _ => "," +:+ String.concat "," tl
                           end +:+ "}")).
  { intros tl. destruct tl as [|y tl].
    - cbn [String.concat]. unfold string_text, Chars.quoted.
      cbn [String.append skip_ws]. change (is_ws Chars.dquote) with false. cbv iota.
      now rewrite !CharsFacts.append_assoc.
    - change (String.concat "," (?x :: ?y :: ?l))
        with (x +:+ "," +:+ String.concat "," (y :: l)).
      unfold string_text, Chars.quoted.
      cbn [String.append skip_ws]. change (is_ws Chars.dquote) with false. cbv iota.
      now rewrite !CharsFacts.append_assoc. }
  rewrite Hhead. change (Ascii.eqb Chars.dquote "}") with false. cbv iota.
  destruct fuel as [|fuel]; [cbn in Hlen; lia|].
  pose proof (members_flat ms (k, v) fuel EmptyString Hs) as Hm.
  unfold member_text in Hm. cbn [List.map fst snd String.append] in Hm.
  rewrite Hm; [reflexivity | lia].
Qed.

End JsonFacts.

(** ** The token codec *)

Module JwtFacts.
Section WithPrimitives.
Context `{Primitives}.
Import Jsonwebtoken.

Lemma header_nonempty :
  Chars.is_empty (Base64.base64url (Json.stringify header)) = false.
Proof. vm_compute. reflexivity. Qed.

Lemma header_decoded :
  Base64.base64url_decode (Base64.base64url (Json.stringify header)) ≫= Json.parse
  = Some header.
Proof. vm_compute. reflexivity. Qed.

Lemma decode_segments_ok (h p s : string) (hdr : Json.json) (text : string) :
  Chars.is_empty h = false -> Chars.is_empty p = false ->
  Chars.all in_url_alphabet s = true ->
  Base64.base64url_decode h ≫= Json.parse = Some hdr ->
  Base64.base64url_decode p = Some text ->
  decode_segments h p s = Some (hdr, text).
Proof.
  intros Hh Hp Hs Hhdr Htext. unfold decode_segments.
  now rewrite Hh, Hp, Hs, Hhdr, Htext.
Qed.

Lemma signature_nonempty (alg : hmac_alg) (secret input : string) :
  Chars.is_empty (signature alg secret input) = false.
Proof.
  unfold signature.
  destruct alg; cbn [mac_length Chars.take_pad];
    destruct (hmac _ secret input); apply Base64Facts.encode_nonempty.
Qed.

(** A token made by [compact] splits into its three segments. *)
Lemma split_compact (payload : Json.json) (secret : string) :
  let h := Base64.base64url (Json.stringify header) in
  let p := Base64.base64url (Json.stringify payload) in
  Chars.split "." (compact payload secret)
  = [h; p; signature HS256 secret (h +:+ "." +:+ p)].
Proof.
  intros h p. unfold compact. fold h p.
  rewrite !CharsFacts.append_assoc. cbn [String.append].
  rewrite CharsFacts.split_app by apply Base64Facts.base64url_no_dot.
  rewrite CharsFacts.split_app by apply Base64Facts.base64url_no_dot.
  rewrite CharsFacts.split_single by apply Base64Facts.base64url_no_dot.
  reflexivity.
Qed.

(** Verification of a token made by [compact] for a flat claim set comes
    down to the two time checks. *)
Lemma verify_compact (kv : string * Json.json) (ms : list (string * Json.json))
  (secret : string) (now : Z) :
  Forall (fun m => Json.scalar (snd m)) (kv :: ms) ->
  Chars.is_empty secret = false ->
  verify (compact (Json.JObject (kv :: ms)) secret) secret now
  = (_ ← check_not_before (Js.of_Z (now / 1000)) (Json.JObject (kv :: ms));
     _ ← check_expiry (Js.of_Z (now / 1000)) (Json.JObject (kv :: ms));
     Returns (Json.JObject (kv :: ms))).
Proof.
  intros Hs Hsecret. unfold verify. rewrite split_compact.
  set (p := Base64.base64url (Json.stringify (Json.JObject (kv :: ms)))).
  rewrite (decode_segments_ok _ _ _ header (Json.stringify (Json.JObject (kv :: ms))));
    [ | apply header_nonempty
      | unfold p; cbn [Json.stringify String.append]; apply Base64Facts.encode_nonempty
      | apply Base64Facts.base64url_alphabet
      | apply header_decoded
      | apply Base64Facts.base64url_roundtrip ].
  cbn [or_throw mbind outcome_bind].
  unfold decode_payload.
  change (Json.get "typ" header) with (Some (Json.JString "JWT")). cbv iota beta.
  rewrite (JsonFacts.parse_stringify_flat kv ms Hs).
  cbn [mbind outcome_bind]. rewrite Hsecret. cbn [negb ensure mbind outcome_bind].
  rewrite signature_nonempty. cbn [negb ensure mbind outcome_bind].
  change (header_alg header) with (Some HS256). cbn [or_throw mbind outcome_bind].
  rewrite String.eqb_refl. cbn [ensure is_null negb mbind outcome_bind].
  reflexivity.
Qed.

End WithPrimitives.
End JwtFacts.

(** ** [lib/auth.ts]: the token codec *)

Module AuthFacts.
Section WithPrimitives.
Context `{Primitives}.
Import Auth.

Lemma present_nonempty (o : option string) (s : string) :
  present o = Some s -> Chars.is_empty s = false.
Proof.
  destruct o as [t|]; cbn; [|discriminate].
  destruct (Chars.is_empty t) eqn:E; [discriminate|]. now intros [= <-].
Qed.

Lemma JWT_SECRET_nonempty (p : Process) : Chars.is_empty (JWT_SECRET p) = false.
Proof.
  unfold JWT_SECRET. destruct (present _) as [s|] eqn:E.
  - now apply present_nonempty in E.
  - reflexivity.
Qed.

Lemma issued_claims_flat (c : JWTPayload) (now : Z) :
  Forall (fun m => Json.scalar (snd m)) (issued_claims c now).
Proof.
  unfold issued_claims. repeat constructor.
  cbn. destruct (userId c); constructor.
Qed.

Lemma generateToken_compact (p : Process) (c : JWTPayload) :
  generateToken p c
  = Returns (Jsonwebtoken.compact (Json.JObject (issued_claims c (clock p))) (JWT_SECRET p)).
Proof.
  unfold generateToken, Jsonwebtoken.sign.
  rewrite JWT_SECRET_nonempty.
  change (Jsonwebtoken.timespan_seconds "7d") with (Some 604800).
  change (Json.lookup_last "exp" (payload_members c)) with (@None Json.json).
  change (Json.lookup_last "iat" (payload_members c)) with (@None Json.json).
  cbv iota beta. unfold Js.of_Z at 1. rewrite JsFacts.signed_of_Z.
  reflexivity.
Qed.

Lemma verifyToken_issued (p : Process) (c : JWTPayload) (issued : Z) :
  clock p / 1000 < issued / 1000 + 604800 ->
  verifyToken p (Jsonwebtoken.compact (Json.JObject (issued_claims c issued)) (JWT_SECRET p))
  = Returns (Some (Json.JObject (issued_claims c issued))).
Proof.
  intros Hwindow. unfold verifyToken, issued_claims.
  rewrite JwtFacts.verify_compact
    by (apply (issued_claims_flat c issued) || apply JWT_SECRET_nonempty).
  fold (issued_claims c issued).
  unfold Jsonwebtoken.check_not_before, Jsonwebtoken.check_expiry.
  change (Jsonwebtoken.time_claim_of "nbf" (Json.JObject (issued_claims c issued)))
    with Jsonwebtoken.Absent.
  change (Jsonwebtoken.time_claim_of "exp" (Json.JObject (issued_claims c issued)))
    with (Jsonwebtoken.At (Js.of_Z (issued / 1000 + 604800))).
  cbn [mbind outcome_bind]. rewrite JsFacts.ge_of_Z.
  replace (issued / 1000 + 604800 <=? clock p / 1000) with false
    by (symmetry; apply Z.leb_gt; lia).
  reflexivity.
Qed.

End WithPrimitives.
End AuthFacts.

(** C1. A token issued for an identity claim [c] decodes, under the same
    secret and at any clock before the token's expiry (the issuing clock in
    whole seconds plus 604800 seconds), to a claim set whose [userId] and
    [email] are those of [c]. *)
Theorem token_roundtrip `{Primitives} (issuer verifier : Process) (c : Auth.JWTPayload) :
  Auth.JWT_SECRET verifier = Auth.JWT_SECRET issuer ->
  clock verifier / 1000 < clock issuer / 1000 + 60 * 60 * 24 * 7 ->
  exists token decoded,
    Auth.generateToken issuer c = Returns token
    /\ Auth.verifyToken verifier token = Returns (Some decoded)
    /\ Json.get "userId" decoded = Some (id_json (Auth.userId c))
    /\ Json.get "email" decoded = Some (Json.JString (Auth.email c)).
Proof.
  intros Hsecret Hwindow.
  exists (Jsonwebtoken.compact
            (Json.JObject (Auth.issued_claims c (clock issuer))) (Auth.JWT_SECRET issuer)),
         (Json.JObject (Auth.issued_claims c (clock issuer))).
  split; [apply AuthFacts.generateToken_compact|].
  split; [|split; reflexivity].
  rewrite <- Hsecret. apply AuthFacts.verifyToken_issued. lia.
Qed.

Lemma token_roundtrip_witness :
  exists token decoded,
    Auth.generateToken (H := sample_primitives) sample_process alice = Returns token
    /\ Auth.verifyToken (H := sample_primitives) sample_process token = Returns (Some decoded)
    /\ Json.get "userId" decoded = Some (id_json (Auth.userId alice))
    /\ Json.get "email" decoded = Some (Json.JString (Auth.email alice)).
Proof.
  apply (token_roundtrip (H := sample_primitives) sample_process sample_process alice).
  - reflexivity.
  - vm_compute. reflexivity.
Defined.

(** C2. [verifyToken] returns for every input string and never throws: its
    result is the payload embedded in the token, or null.  It is null when
    the string is not in three segments, when the segments do not decode,
    when the signature is not the one the configured secret gives, and
    when the expiry has passed. *)
Theorem verifyToken_total `{Primitives} (p : Process) (token : string) :
  let secret := Auth.JWT_SECRET p in
  let now := Js.of_Z (clock p / 1000) in
  (exists r, Auth.verifyToken p token = Returns r)
  /\ (forall v, Auth.verifyToken p token = Returns (Some v) ->
        exists h pl s hdr text,
          Chars.split "." token = [h; pl; s]
          /\ Jsonwebtoken.decode_segments h pl s = Some (hdr, text)
          /\ Jsonwebtoken.decode_payload hdr text = Returns v)
  /\ (length (Chars.split "." token) <> 3%nat -> Auth.verifyToken p token = Returns None)
  /\ (forall h pl s, Chars.split "." token = [h; pl; s] ->
        Jsonwebtoken.decode_segments h pl s = None ->
        Auth.verifyToken p token = Returns None)
  /\ (forall h pl s, Chars.split "." token = [h; pl; s] ->
        (forall alg, s <> Jsonwebtoken.signature alg secret (h +:+ "." +:+ pl)) ->
        Auth.verifyToken p token = Returns None)
  /\ (forall h pl s hdr text v e,
        Chars.split "." token = [h; pl; s] ->
        Jsonwebtoken.decode_segments h pl s = Some (hdr, text) ->
        Jsonwebtoken.decode_payload hdr text = Returns v ->
        Jsonwebtoken.time_claim_of "exp" v = Jsonwebtoken.At e ->
        Js.ge now e = true ->
        Auth.verifyToken p token = Returns None).
Proof.
  intros secret now. unfold Auth.verifyToken. fold secret.
  split; [|split; [|split; [|split; [|split]]]].
  - destruct (Jsonwebtoken.verify token secret (clock p)); eauto.
  - intros v Hv. unfold Jsonwebtoken.verify in Hv.
    destruct (Chars.split "." token) as [|h [|pl [|s [|]]]]; try discriminate.
    destruct (Jsonwebtoken.decode_segments h pl s) as [[hdr text]|] eqn:Hseg;
      [|discriminate].
    cbn [or_throw mbind outcome_bind] in Hv.
    destruct (Jsonwebtoken.decode_payload hdr text) as [payload|] eqn:Hpayload;
      [|discriminate].
    exists h, pl, s, hdr, text. split; [reflexivity|]. split; [exact Hseg|].
    cbn [mbind outcome_bind] in Hv.
    repeat match type of Hv with
           | context [ensure ?b ?e] => destruct b; cbn [ensure mbind outcome_bind] in Hv
           | context [or_throw ?e ?o] => destruct o; cbn [or_throw mbind outcome_bind] in Hv
           | context [Jsonwebtoken.check_not_before ?c ?v] =>
               destruct (Jsonwebtoken.check_not_before c v); cbn [mbind outcome_bind] in Hv
           | context [Jsonwebtoken.check_expiry ?c ?v] =>
               destruct (Jsonwebtoken.check_expiry c v); cbn [mbind outcome_bind] in Hv
           end; try discriminate.
    inversion Hv; subst. exact Hpayload.
  - intros Hlen. unfold Jsonwebtoken.verify.
    destruct (Chars.split "." token) as [|h [|pl [|s [|]]]]; try reflexivity.
    now contradiction Hlen.
  - intros h pl s Hsplit Hseg. unfold Jsonwebtoken.verify. now rewrite Hsplit, Hseg.
  - intros h pl s Hsplit Hsig. unfold Jsonwebtoken.verify. rewrite Hsplit.
    destruct (Jsonwebtoken.decode_segments h pl s) as [[hdr text]|]; [|reflexivity].
    cbn [or_throw mbind outcome_bind].
    destruct (Jsonwebtoken.decode_payload hdr text) as [payload|]; [|reflexivity].
    cbn [mbind outcome_bind].
    destruct (negb (Chars.is_empty secret)); [|reflexivity].
    cbn [ensure mbind outcome_bind].
    destruct (negb (Chars.is_empty s)); [|reflexivity].
    cbn [ensure mbind outcome_bind].
    destruct (Jsonwebtoken.header_alg hdr) as [alg|]; [|reflexivity].
    cbn [or_throw mbind outcome_bind].
    destruct (String.eqb_spec s (Jsonwebtoken.signature alg secret (h +:+ "." +:+ pl)))
      as [Heq | _]; [now apply Hsig in Heq | reflexivity].
  - intros h pl s hdr text v e Hsplit Hseg Hpayload Hexp Hge.
    unfold Jsonwebtoken.verify. rewrite Hsplit, Hseg.
    cbn [or_throw mbind outcome_bind]. rewrite Hpayload. cbn [mbind outcome_bind].
    destruct (negb (Chars.is_empty secret)); [|reflexivity].
    cbn [ensure mbind outcome_bind].
    destruct (negb (Chars.is_empty s)); [|reflexivity].
    cbn [ensure mbind outcome_bind].
    destruct (Jsonwebtoken.header_alg hdr) as [alg|]; [|reflexivity].
    cbn [or_throw mbind outcome_bind].
    destruct (String.eqb s _); [|reflexivity].
    cbn [ensure mbind outcome_bind].
    destruct (negb (Jsonwebtoken.is_null v)); [|reflexivity].
    cbn [ensure mbind outcome_bind].
    destruct (Jsonwebtoken.check_not_before _ v); [|reflexivity].
    cbn [mbind outcome_bind].
    unfold Jsonwebtoken.check_expiry. rewrite Hexp. fold now. rewrite Hge.
    reflexivity.
Qed.

Lemma verifyToken_total_witness :
  Auth.verifyToken (H := sample_primitives) sample_process malformed_token = Returns None
  /\ Auth.verifyToken (H := sample_primitives) sample_process forged_token = Returns None
  /\ Auth.verifyToken (H := sample_primitives) sample_process stale_token = Returns None.
Proof.
  split; [|split].
  - apply (verifyToken_total (H := sample_primitives) sample_process malformed_token).
    vm_compute. discriminate.
  - destruct (verifyToken_total (H := sample_primitives) sample_process forged_token)
      as (_ & _ & _ & _ & Hsig & _).
    eapply Hsig; [vm_compute; reflexivity|].
    intros []; vm_compute; discriminate.
  - destruct (verifyToken_total (H := sample_primitives) sample_process stale_token)
      as (_ & _ & _ & _ & _ & Hexp).
    eapply Hexp.
    + vm_compute. reflexivity.
    + vm_compute. reflexivity.
    + vm_compute. reflexivity.
    + vm_compute. reflexivity.
    + vm_compute. reflexivity.
Defined.

(** ** [lib/auth.ts]: the request authenticator and the gate *)

Module GateFacts.
Section WithPrimitives.
Context `{Primitives}.
Import Auth.

Lemma verify_empty (secret : string) (now : Z) :
  exists e, Jsonwebtoken.verify EmptyString secret now = Throws e.
Proof. eexists. reflexivity. Qed.

(** [getCurrentUser] returns at once, whatever the request. *)
Lemma getCurrentUser_returns (p : Process) (request : NextRequest) :
  exists r, getCurrentUser p request = Done r.
Proof.
  unfold getCurrentUser, verifyToken.
  destruct (present _) as [token|]; [|eauto].
  destruct (Jsonwebtoken.verify token _ _); cbn [lift]; eauto.
Qed.

(** [requireAuth] either returns a claim or throws [Unauthorized]. *)
Lemma requireAuth_cases (p : Process) (request : NextRequest) :
  (exists u, requireAuth p request = Done u)
  \/ requireAuth p request = Raise (JsError "Error" "Unauthorized").
Proof.
  unfold requireAuth.
  destruct (getCurrentUser_returns p request) as [[u|] ->];
    cbn [mbind prog_mbind prog_bind]; [|now right].
  destruct (truthy u); [left; eauto | now right].
Qed.

Lemma requireAuth_done (p : Process) (request : NextRequest) (u : Json.json) :
  requireAuth p request = Done u <->
  getCurrentUser p request = Done (Some u) /\ truthy u = true.
Proof.
  unfold requireAuth.
  destruct (getCurrentUser_returns p request) as [[v|] ->];
    cbn [mbind prog_mbind prog_bind].
  - destruct (truthy v) eqn:Hv; split.
    + now intros [= ->].
    + now intros [[= ->] _].
    + discriminate.
    + intros [[= ->] Hu]. congruence.
  - split; [discriminate | now intros [[=] _]].
Qed.

End WithPrimitives.
End GateFacts.

(** C4. [getCurrentUser] returns null for a request without a [token]
    cookie; for a cookie whose token verifies under the configured secret
    at the current clock it returns the payload embedded in the token, in
    particular the claims of a token that [generateToken] issued under that
    secret and that has not expired; and it performs no effect on the
    outside world in any case. *)
Theorem getCurrentUser_spec `{Primitives} (p : Process) (request : NextRequest) :
  (cookies request !! "token" = None -> Auth.getCurrentUser p request = Done None)
  /\ (forall token claim,
        cookies request !! "token" = Some token ->
        Jsonwebtoken.verify token (Auth.JWT_SECRET p) (clock p) = Returns claim ->
        Auth.getCurrentUser p request = Done (Some claim))
  /\ (forall issuer c token,
        Auth.JWT_SECRET issuer = Auth.JWT_SECRET p ->
        clock p / 1000 < clock issuer / 1000 + 60 * 60 * 24 * 7 ->
        Auth.generateToken issuer c = Returns token ->
        cookies request !! "token" = Some token ->
        exists claim,
          Auth.getCurrentUser p request = Done (Some claim)
          /\ Json.get "userId" claim = Some (id_json (Auth.userId c))
          /\ Json.get "email" claim = Some (Json.JString (Auth.email c)))
  /\ (forall env history,
        snd (run env history (Auth.getCurrentUser p request)) = history).
Proof.
  assert (Hvalid : forall token claim,
             cookies request !! "token" = Some token ->
             Jsonwebtoken.verify token (Auth.JWT_SECRET p) (clock p) = Returns claim ->
             Auth.getCurrentUser p request = Done (Some claim)).
  { intros token claim Hcookie Hverify. unfold Auth.getCurrentUser, Auth.verifyToken.
    rewrite Hcookie. destruct token as [|c token].
    - destruct (GateFacts.verify_empty (Auth.JWT_SECRET p) (clock p)) as [e He].
      congruence.
    - cbn [present Chars.is_empty]. now rewrite Hverify. }
  split; [|split; [exact Hvalid|split]].
  - intros Hnone. unfold Auth.getCurrentUser. now rewrite Hnone.
  - intros issuer c token Hsecret Hwindow Htoken Hcookie.
    rewrite AuthFacts.generateToken_compact in Htoken.
    apply (f_equal (fun o => match o with Returns t => t | Throws _ => token end))
      in Htoken.
    exists (Json.JObject (Auth.issued_claims c (clock issuer))).
    split; [|split; reflexivity].
    apply (Hvalid token); [exact Hcookie|].
    assert (Hverify := AuthFacts.verifyToken_issued p c (clock issuer) ltac:(lia)).
    rewrite <- Hsecret, Htoken in Hverify. unfold Auth.verifyToken in Hverify.
    destruct (Jsonwebtoken.verify token (Auth.JWT_SECRET p) (clock p)) as [v|e];
      congruence.
  - intros env history.
    destruct (GateFacts.getCurrentUser_returns p request) as [r ->]. reflexivity.
Qed.

Lemma getCurrentUser_spec_witness :
  Auth.getCurrentUser (H := sample_primitives) sample_process anonymous_request = Done None
  /\ Auth.getCurrentUser (H := sample_primitives) sample_process (request_with sample_token)
     = Done (Some (Json.JObject (Auth.issued_claims alice 1700000000123))).
Proof.
  split.
  - apply (getCurrentUser_spec (H := sample_primitives) sample_process anonymous_request).
    reflexivity.
  - destruct (getCurrentUser_spec (H := sample_primitives) sample_process
                (request_with sample_token)) as (_ & Hvalid & _).
    eapply Hvalid.
    + vm_compute. reflexivity.
    + vm_compute. reflexivity.
Defined.

(** C8. The secret of the token codec is the [JWT_SECRET] entry of the
    process environment; when the entry is absent it is the hardcoded
    fallback, and the same secret signs and verifies. *)
Theorem secret_configuration `{Primitives} (p : Process) :
  (env p !! "JWT_SECRET" = None -> Auth.JWT_SECRET p = Auth.fallback_secret)
  /\ (forall s, env p !! "JWT_SECRET" = Some s -> Chars.is_empty s = false ->
        Auth.JWT_SECRET p = s)
  /\ (forall c, Auth.generateToken p c
                = Jsonwebtoken.sign (Auth.payload_members c) (Auth.JWT_SECRET p) "7d" (clock p))
  /\ (forall token, Auth.verifyToken p token
                    = match Jsonwebtoken.verify token (Auth.JWT_SECRET p) (clock p) with
                      | Returns claim => Returns (Some claim)
                      | Throws _ => Returns None
                      end).
Proof.
  unfold Auth.JWT_SECRET. repeat split.
  - now intros ->.
  - intros s -> Hs. cbn [present]. now rewrite Hs.
Qed.

Lemma secret_configuration_witness :
  Auth.JWT_SECRET sample_process = Auth.fallback_secret
  /\ Auth.JWT_SECRET configured_process = "configured-secret".
Proof.
  split.
  - destruct (secret_configuration (H := sample_primitives) sample_process) as (Habsent & _).
    apply Habsent. reflexivity.
  - destruct (secret_configuration (H := sample_primitives) configured_process)
      as (_ & Hpresent & _).
    apply Hpresent; reflexivity.
Defined.

(** ** [Number(string)] and minus signs *)

Module NumberFacts.
Import Js.

Lemma ws1_no_dash (c : ascii) : ws1 c = true -> Ascii.eqb c "-" = false.
Proof. destruct c as [[] [] [] [] [] [] [] []]; cbv; congruence. Qed.

Lemma digit_no_dash (c : ascii) : Chars.is_digit c = true -> Ascii.eqb c "-" = false.
Proof. destruct c as [[] [] [] [] [] [] [] []]; cbv; congruence. Qed.

Lemma hex_digit_no_dash (c : ascii) :
  Chars.is_hex_digit c = true -> Ascii.eqb c "-" = false.
Proof. destruct c as [[] [] [] [] [] [] [] []]; cbv; congruence. Qed.

Lemma ws2_no_dash (c1 c2 : ascii) :
  ws2 c1 c2 = true -> Ascii.eqb c1 "-" = false /\ Ascii.eqb c2 "-" = false.
Proof.
  unfold ws2. intros [H1 H2]%andb_prop.
  apply Ascii.eqb_eq in H1, H2. subst. split; reflexivity.
Qed.

Lemma ws3_no_dash (c1 c2 c3 : ascii) :
  ws3 c1 c2 c3 = true ->
  Ascii.eqb c1 "-" = false /\ Ascii.eqb c2 "-" = false /\ Ascii.eqb c3 "-" = false.
Proof.
  intros Hws.
  assert (H1 : Ascii.eqb c1 "-" = false).
  { destruct (Ascii.eqb_spec c1 "-") as [-> | _]; [discriminate Hws | reflexivity]. }
  assert (H2 : Ascii.eqb c2 "-" = false).
  { destruct (Ascii.eqb_spec c2 "-") as [-> | _]; [|reflexivity].
    unfold ws3 in Hws. cbn in Hws.
    rewrite !andb_false_r in Hws. discriminate Hws. }
  assert (H3 : Ascii.eqb c3 "-" = false).
  { destruct (Ascii.eqb_spec c3 "-") as [-> | _]; [|reflexivity].
    unfold ws3 in Hws. cbn in Hws.
    rewrite !andb_false_r in Hws. discriminate Hws. }
  auto.
Qed.

Lemma strip_leading_dashes (backwards : bool) (s : string) :
  dashes (strip_leading backwards s) = dashes s.
Proof.
  assert (Hlen : forall n s, (String.length s <= n)%nat ->
                             dashes (strip_leading backwards s) = dashes s).
  { clear s. induction n as [|n IH]; intros s Hs.
    - destruct s; [reflexivity | cbn in Hs; lia].
    - destruct s as [|c1 r1]; [reflexivity|]. cbn [strip_leading].
      destruct (ws1 c1) eqn:E1.
      { rewrite IH by (cbn in Hs; lia).
        unfold dashes. cbn [Chars.count]. now rewrite (ws1_no_dash c1 E1). }
      destruct r1 as [|c2 r2]; [reflexivity|].
      destruct (if backwards then ws2 c2 c1 else ws2 c1 c2) eqn:E2.
      { rewrite IH by (cbn in Hs; lia).
        assert (Ascii.eqb c1 "-" = false /\ Ascii.eqb c2 "-" = false) as [H1 H2]
          by (destruct backwards; apply ws2_no_dash in E2; tauto).
        unfold dashes. cbn [Chars.count]. now rewrite H1, H2. }
      destruct r2 as [|c3 r3]; [reflexivity|].
      destruct (if backwards then ws3 c3 c2 c1 else ws3 c1 c2 c3) eqn:E3; [|reflexivity].
      rewrite IH by (cbn in Hs; lia).
      assert (Ascii.eqb c1 "-" = false /\ Ascii.eqb c2 "-" = false
              /\ Ascii.eqb c3 "-" = false) as (H1 & H2 & H3)
        by (destruct backwards; apply ws3_no_dash in E3; tauto).
      unfold dashes. cbn [Chars.count]. now rewrite H1, H2, H3. }
  now apply (Hlen (String.length s)).
Qed.

Lemma rev_onto_dashes (s acc : string) :
  dashes (Chars.rev_onto s acc) = (dashes s + dashes acc)%nat.
Proof.
  revert acc; induction s as [|c s IH]; intros acc; cbn [Chars.rev_onto]; [reflexivity|].
  rewrite IH. unfold dashes. cbn [Chars.count]. lia.
Qed.

Lemma rev_dashes (s : string) : dashes (Chars.rev s) = dashes s.
Proof. unfold Chars.rev. rewrite rev_onto_dashes. unfold dashes at 2. cbn. lia. Qed.

Lemma trim_dashes (s : string) : dashes (trim s) = dashes s.
Proof.
  unfold trim. now rewrite rev_dashes, strip_leading_dashes, rev_dashes,
    strip_leading_dashes.
Qed.

Lemma span_digits_dashes (s : string) :
  dashes (snd (span_digits s)) = dashes s.
Proof.
  induction s as [|c s IH]; [reflexivity|]. cbn [span_digits].
  destruct (Chars.is_digit c) eqn:E; [|reflexivity].
  destruct (span_digits s) as [d rest]. cbn [snd] in *.
  rewrite IH. unfold dashes. cbn [Chars.count]. now rewrite (digit_no_dash c E).
Qed.

Lemma take_sign_dashes (s : string) :
  (dashes s <= 1 + dashes (snd (take_sign s)))%nat.
Proof.
  destruct s as [|c r]; [cbn; lia|]. unfold take_sign, dashes.
  destruct (Ascii.eqb c "-") eqn:E1; cbn [snd Chars.count]; rewrite ?E1; [lia|].
  destruct (Ascii.eqb c "+"); cbn [snd Chars.count]; rewrite ?E1; lia.
Qed.

Lemma radix_digits_dashes (radix acc : N) (s : string) (n : N) :
  radix_digits radix acc s = Some n -> dashes s = 0%nat.
Proof.
  revert acc; induction s as [|c s IH]; intros acc; [reflexivity|]. cbn [radix_digits].
  destruct (Chars.is_hex_digit c) eqn:E; [|discriminate]. cbn [andb].
  destruct (Chars.hex_value c <? radix)%N; [|discriminate].
  intros Hr. unfold dashes. cbn [Chars.count].
  rewrite (hex_digit_no_dash c E). exact (IH _ Hr).
Qed.

Lemma radix_literal_dashes (radix : N) (s : string) (n : number) :
  radix_literal radix s = Some n -> dashes s = 0%nat.
Proof.
  unfold radix_literal. destruct (Chars.is_empty s); [discriminate|].
  destruct (radix_digits radix 0 s) eqn:E; [|discriminate].
  intros _. exact (radix_digits_dashes _ _ _ _ E).
Qed.

Lemma exponent_dashes (s : string) (e : Z) :
  exponent_to_end s = Some e -> (dashes s <= 1)%nat.
Proof.
  destruct s as [|c r]; [cbn; lia|]. unfold exponent_to_end.
  destruct (is_exponent_indicator c) eqn:Ec; [|discriminate].
  pose proof (take_sign_dashes r) as Hsign.
  destruct (take_sign r) as [negative r1]. cbn [snd] in Hsign.
  pose proof (span_digits_dashes r1) as Hspan.
  destruct (span_digits r1) as [ds r2]. cbn [snd] in Hspan.
  destruct (Chars.is_empty ds); [discriminate|].
  destruct r2; [|discriminate]. intros _.
  unfold dashes in *. cbn [Chars.count] in *.
  replace (Ascii.eqb c "-") with false; [lia|].
  unfold is_exponent_indicator in Ec. apply orb_prop in Ec as [Ec | Ec];
    apply Ascii.eqb_eq in Ec; now subst.
Qed.

Lemma unsigned_decimal_dashes (negative : bool) (s : string) (n : number) :
  unsigned_decimal negative s = Some n -> (dashes s <= 1)%nat.
Proof.
  unfold unsigned_decimal.
  destruct (String.eqb_spec s "Infinity") as [-> | _]; [cbn; lia|].
  pose proof (span_digits_dashes s) as H1.
  destruct (span_digits s) as [ip r1]. cbn [snd] in H1.
  assert (Hfrac : forall fp r2,
             match r1 with
             | String c r => if Ascii.eqb c "." then span_digits r else (EmptyString, r1)
             | EmptyString => (EmptyString, r1)
             end = (fp, r2) -> dashes r2 = dashes r1).
  { intros fp r2. destruct r1 as [|c r]; [now intros [= _ <-]|].
    destruct (Ascii.eqb_spec c ".") as [-> | _]; [|now intros [= _ <-]].
    intros E. pose proof (span_digits_dashes r) as H2. rewrite E in H2. exact H2. }
  destruct (match r1 with EmptyString => _ | String _ _ => _ end) as [fp r2].
  specialize (Hfrac fp r2 eq_refl).
  destruct (Chars.is_empty ip && Chars.is_empty fp); [discriminate|].
  destruct (exponent_to_end r2) eqn:E; [|discriminate].
  intros _. apply exponent_dashes in E. lia.
Qed.

Lemma signed_decimal_dashes (s : string) (n : number) :
  (let '(negative, r1) := take_sign s in unsigned_decimal negative r1) = Some n ->
  (dashes s <= 2)%nat.
Proof.
  pose proof (take_sign_dashes s) as Hsign.
  destruct (take_sign s) as [negative r1]. cbn [snd] in Hsign.
  intros E. apply unsigned_decimal_dashes in E. lia.
Qed.

Lemma numeric_literal_dashes (s : string) (n : number) :
  numeric_literal s = Some n -> (dashes s <= 2)%nat.
Proof.
  unfold numeric_literal.
  destruct s as [|z [|x r]]; try apply signed_decimal_dashes.
  assert (Hprefix : forall k, Ascii.eqb z "0" && k = true ->
                              (k = true -> Ascii.eqb x "-" = false) ->
                              forall radix, radix_literal radix r = Some n ->
                                            (dashes (String z (String x r)) <= 2)%nat).
  { intros k [Hz Hk]%andb_prop Hx radix Hr. apply Ascii.eqb_eq in Hz. subst z.
    apply radix_literal_dashes in Hr. unfold dashes in *. cbn [Chars.count].
    rewrite (Hx Hk), Hr. cbn. lia. }
  assert (Hletter : forall a b, Ascii.eqb a "-" = false -> Ascii.eqb b "-" = false ->
                                Ascii.eqb x a || Ascii.eqb x b = true ->
                                Ascii.eqb x "-" = false).
  { intros a b Ha Hb [E | E]%orb_prop; apply Ascii.eqb_eq in E; now subst. }
  destruct (Ascii.eqb z "0" && (Ascii.eqb x "x" || Ascii.eqb x "X")) eqn:E16.
  { apply (Hprefix _ E16). now apply Hletter. }
  destruct (Ascii.eqb z "0" && (Ascii.eqb x "o" || Ascii.eqb x "O")) eqn:E8.
  { apply (Hprefix _ E8). now apply Hletter. }
  destruct (Ascii.eqb z "0" && (Ascii.eqb x "b" || Ascii.eqb x "B")) eqn:E2.
  { apply (Hprefix _ E2). now apply Hletter. }
  apply signed_decimal_dashes.
Qed.

(** A string with more than two minus signs is not a number. *)
Lemma Number_dashes (s : string) : (2 < dashes s)%nat -> Number s = NaN.
Proof.
  intros Hs. unfold Number. rewrite <- trim_dashes in Hs.
  destruct (trim s) as [|c t] eqn:Et; [cbn in Hs; lia|]. cbn [Chars.is_empty].
  destruct (numeric_literal (String c t)) as [n|] eqn:En; [|reflexivity].
  apply numeric_literal_dashes in En. lia.
Qed.

Lemma uuid_dashes (s : string) : is_uuid s = true -> dashes s = 4%nat.
Proof.
  unfold is_uuid. pose proof (CharsFacts.split_length "-" s) as Hlen.
  destruct (Chars.split "-" s) as [|a [|b [|c [|d [|e [|]]]]]]; try discriminate.
  intros _. cbn in Hlen. unfold dashes. lia.
Qed.

(** [Number] of a UUID is [NaN]. *)
Lemma uuid_not_a_number (s : string) : is_uuid s = true -> isNaN (Number s) = true.
Proof.
  intros Hs. rewrite Number_dashes; [reflexivity|].
  rewrite (uuid_dashes s Hs). lia.
Qed.

End NumberFacts.

(** ** The protected handlers *)

Module HandlerFacts.
Section WithPrimitives.
Context `{Primitives}.

(** A handler that did not get past the gate answers 401 at once. *)
Lemma denied (p : Process) (request : NextRequest) (params_id : string) :
  Auth.requireAuth p request = Raise Unauthorized ->
  Forall (fun handler => handler = Done unauthorized)
    (protected_handlers p request params_id).
Proof.
  intros Hgate. unfold protected_handlers.
  repeat match goal with |- Forall _ _ => constructor end;
    try (unfold ProjectsRoute.GET, ProjectsRoute.POST, ProjectByIdRoute.GET,
           ProjectByIdRoute.PUT, ProjectByIdRoute.DELETE;
         rewrite Hgate; reflexivity).
  unfold MeRoute.GET. unfold Auth.requireAuth in Hgate.
  destruct (GateFacts.getCurrentUser_returns p request) as [[u|] Hu];
    rewrite Hu in *; cbn [mbind prog_mbind prog_bind try_catch] in *; [|reflexivity].
  destruct (truthy u); [discriminate | reflexivity].
Qed.

(** Once past the gate, an identifier that is not a number ends the three
    by-id handlers with 400 before anything else happens. *)
Lemma rejected_id (p : Process) (request : NextRequest) (params_id : string)
  (claim : Json.json) :
  Auth.requireAuth p request = Done claim ->
  Js.isNaN (Js.Number params_id) = true ->
  ProjectByIdRoute.GET p request params_id = Done ProjectByIdRoute.invalid_id
  /\ ProjectByIdRoute.PUT p request params_id = Done ProjectByIdRoute.invalid_id
  /\ ProjectByIdRoute.DELETE p request params_id = Done ProjectByIdRoute.invalid_id.
Proof.
  intros Hgate Hnan.
  unfold ProjectByIdRoute.GET, ProjectByIdRoute.PUT, ProjectByIdRoute.DELETE.
  rewrite Hgate. cbn [mbind prog_mbind prog_bind]. rewrite Hnan.
  repeat split; reflexivity.
Qed.

End WithPrimitives.
End HandlerFacts.

(** C3 (corrected). [requireAuth] returns a claim exactly when
    [getCurrentUser] returns that claim and the claim is truthy: the gate
    tests [!user], which refuses [null] and also a payload that is [0],
    [NaN], the empty string or [false].  An object is always truthy, so
    for a claim set, as [generateToken] issues them, [requireAuth] returns
    it exactly when [getCurrentUser] does.  In every other case
    [requireAuth] throws the one error [Unauthorized], and each protected
    handler then answers with the same response: status 401, body
    [{ error: 'Unauthorized' }], whatever made the token invalid. *)
Theorem requireAuth_iff `{Primitives} (p : Process) (request : NextRequest) :
  (forall claim,
     Auth.requireAuth p request = Done claim
     <-> Auth.getCurrentUser p request = Done (Some claim) /\ truthy claim = true)
  /\ (forall members,
        Auth.requireAuth p request = Done (Json.JObject members)
        <-> Auth.getCurrentUser p request = Done (Some (Json.JObject members)))
  /\ ((forall claim, Auth.requireAuth p request <> Done claim) ->
      Auth.requireAuth p request = Raise (JsError "Error" "Unauthorized")
      /\ forall params_id env,
           Forall (fun handler =>
                     result_of env handler
                     = Returns (json_response
                                  (Json.JObject [("error", Json.JString "Unauthorized")]) 401))
             (protected_handlers p request params_id)).
Proof.
  split; [|split].
  - intros claim. apply GateFacts.requireAuth_done.
  - intros members. rewrite GateFacts.requireAuth_done. cbn [truthy]. tauto.
  - intros Hnot.
    destruct (GateFacts.requireAuth_cases p request) as [[u Hu] | Hraise];
      [now apply Hnot in Hu|].
    split; [exact Hraise|]. intros params_id env.
    eapply Forall_impl; [apply (HandlerFacts.denied p request params_id Hraise)|].
    intros handler ->. reflexivity.
Qed.

Lemma requireAuth_iff_witness :
  Auth.requireAuth (H := sample_primitives) sample_process (request_with sample_token)
  = Done (Json.JObject (Auth.issued_claims alice 1700000000123))
  /\ Auth.requireAuth (H := sample_primitives) sample_process (request_with stale_token)
     = Raise (JsError "Error" "Unauthorized")
  /\ Auth.requireAuth (H := sample_primitives) sample_process anonymous_request
     = Raise (JsError "Error" "Unauthorized").
Proof.
  split; [|split].
  - destruct (requireAuth_iff (H := sample_primitives) sample_process
                (request_with sample_token)) as (_ & Hobject & _).
    apply Hobject. vm_compute. reflexivity.
  - destruct (requireAuth_iff (H := sample_primitives) sample_process
                (request_with stale_token)) as (_ & _ & Hdenied).
    apply Hdenied. intros claim. vm_compute. discriminate.
  - destruct (requireAuth_iff (H := sample_primitives) sample_process
                anonymous_request) as (_ & _ & Hdenied).
    apply Hdenied. intros claim. vm_compute. discriminate.
Defined.

(** C3, the statement without the truth test refuted.  The token of this
    request verifies and carries the payload [0]: [getCurrentUser] returns
    the payload, which is not [null], and [requireAuth] throws. *)
Lemma requireAuth_refuses_falsy_claim :
  Auth.getCurrentUser (H := sample_primitives) sample_process (request_with zero_token)
  = Done (Some (Json.JNumber (Js.of_Z 0)))
  /\ Json.JNumber (Js.of_Z 0) <> Json.JNull
  /\ Auth.requireAuth (H := sample_primitives) sample_process (request_with zero_token)
     = Raise (JsError "Error" "Unauthorized").
Proof.
  split; [vm_compute; reflexivity|]. split; [discriminate|]. vm_compute. reflexivity.
Qed.

(** C5. In each protected handler the gate comes before the datastore.
    The check itself performs no effect; when it throws, the handler ends
    with 401 and has performed no effect at all; hence a run whose trace
    holds a datastore access is a run in which [requireAuth] returned a
    claim. *)
Theorem gate_before_datastore `{Primitives} (p : Process) (request : NextRequest)
  (params_id : string) (env : environment) :
  (forall history, snd (run env history (Auth.requireAuth p request)) = history)
  /\ Forall (fun handler =>
               (forall e, Auth.requireAuth p request = Raise e ->
                          run env [] handler = (Returns unauthorized, []))
               /\ (Exists (fun e => is_datastore_access e = true) (trace_of env handler) ->
                   exists claim, Auth.requireAuth p request = Done claim))
       (protected_handlers p request params_id).
Proof.
  destruct (GateFacts.requireAuth_cases p request) as [[u Hu] | Hraise].
  - split; [intros history; now rewrite Hu|].
    apply Forall_forall. intros handler _. split; [congruence | eauto].
  - split; [intros history; now rewrite Hraise|].
    eapply Forall_impl; [apply (HandlerFacts.denied p request params_id Hraise)|].
    intros handler ->. split; [reflexivity|].
    unfold trace_of. cbn. now intros ?%Exists_nil.
Qed.

Lemma gate_before_datastore_witness :
  Forall (fun handler => run empty_store [] handler = (Returns unauthorized, []))
    (protected_handlers (H := sample_primitives) sample_process anonymous_request "7").
Proof.
  destruct (gate_before_datastore (H := sample_primitives) sample_process
              anonymous_request "7" empty_store) as [_ Hgated].
  eapply Forall_impl; [exact Hgated|].
  intros handler [Hdenied _]. apply (Hdenied (JsError "Error" "Unauthorized")).
  reflexivity.
Defined.

(** C10. For an authenticated GET, PUT or DELETE on [/api/projects/[id]]
    whose [id] does not convert to a number (as is the case of every id in
    UUID form), the handler answers 400 [Invalid project id] and performs
    no datastore access. *)
Theorem invalid_project_id `{Primitives} (p : Process) (request : NextRequest)
  (params_id : string) (claim : Json.json) (env : environment) :
  Auth.requireAuth p request = Done claim ->
  Js.isNaN (Js.Number params_id) = true \/ Js.is_uuid params_id = true ->
  Forall (fun handler =>
            run env [] handler
            = (Returns (json_response
                          (Json.JObject [("error", Json.JString "Invalid project id")]) 400),
               []))
    [ProjectByIdRoute.GET p request params_id;
     ProjectByIdRoute.PUT p request params_id;
     ProjectByIdRoute.DELETE p request params_id].
Proof.
  intros Hgate Hid.
  assert (Hnan : Js.isNaN (Js.Number params_id) = true)
    by (destruct Hid; [assumption | now apply NumberFacts.uuid_not_a_number]).
  destruct (HandlerFacts.rejected_id p request params_id claim Hgate Hnan)
    as (-> & -> & ->).
  repeat constructor.
Qed.

Lemma invalid_project_id_witness :
  Forall (fun handler =>
            run empty_store [] handler
            = (Returns (json_response
                          (Json.JObject [("error", Json.JString "Invalid project id")]) 400),
               []))
    [ProjectByIdRoute.GET (H := sample_primitives) sample_process
       (request_with sample_token) uuid_example;
     ProjectByIdRoute.PUT (H := sample_primitives) sample_process
       (request_with sample_token) uuid_example;
     ProjectByIdRoute.DELETE (H := sample_primitives) sample_process
       (request_with sample_token) uuid_example].
Proof.
  apply (invalid_project_id (H := sample_primitives) sample_process
           (request_with sample_token) uuid_example
           (Json.JObject (Auth.issued_claims alice 1700000000123)) empty_store).
  - vm_compute. reflexivity.
  - right. vm_compute. reflexivity.
Defined.

(** ** The credential hasher *)

Module BcryptFacts.
Section WithPrimitives.
Context `{Primitives}.
Import Bcryptjs.

Lemma encode_length (alphabet : string) (s : string) :
  String.length (Base64.encode alphabet s) = ((4 * String.length s + 2) / 3)%nat.
Proof.
  induction s as [|a|a b|a b c r IH] using Base64Facts.string_ind3;
    try reflexivity.
  cbn [Base64.encode String.length]. rewrite IH.
  replace (4 * S (S (S (String.length r))) + 2)%nat
    with (4 * String.length r + 2 + 4 * 3)%nat by lia.
  rewrite Nat.div_add by lia. lia.
Qed.

Lemma random_bytes_length (random : nat -> ascii) (n : nat) :
  String.length (random_bytes random n) = n.
Proof.
  unfold random_bytes. generalize 0%nat.
  induction n as [|n IH]; intros k; cbn; [reflexivity | now rewrite IH].
Qed.

Lemma genSalt_length (random : nat -> ascii) : String.length (genSalt 10 random) = 29%nat.
Proof.
  unfold genSalt. cbn [String.append String.length two_digits].
  rewrite encode_length, random_bytes_length. reflexivity.
Qed.

Lemma substring_all (s : string) : String.substring 0 (String.length s) s = s.
Proof.
  rewrite <- (CharsFacts.append_empty_r s) at 2. apply CharsFacts.substring_prefix.
Qed.

(** The salt string that [genSalt] makes is read back field by field. *)
Lemma parse_genSalt (random : nat -> ascii) :
  parse_salt (genSalt 10 random) = Returns ("b", 10%nat, random_bytes random 16).
Proof.
  unfold genSalt, parse_salt. cbn [String.append two_digits].
  change (Nat.div 10 10) with 1%nat. change (Nat.modulo 10 10) with 0%nat.
  cbn -[Base64.encode Base64.decode random_bytes String.substring].
  set (salt := Base64.encode Base64.bcrypt_alphabet (random_bytes random 16)).
  assert (Hlen : String.length salt = 22%nat)
    by (unfold salt; rewrite encode_length, random_bytes_length; reflexivity).
  rewrite <- Hlen, substring_all. unfold salt.
  rewrite (Base64Facts.decode_encode _ Base64Facts.bcrypt_char_roundtrip).
  rewrite random_bytes_length. reflexivity.
Qed.

Lemma hash_with_genSalt (password : string) (random : nat -> ascii) :
  hash_with_salt password (genSalt 10 random)
  = Returns (genSalt 10 random +:+ digest_text password random).
Proof.
  unfold hash_with_salt. rewrite parse_genSalt. cbn [mbind outcome_bind].
  unfold genSalt, digest_text. now rewrite !CharsFacts.append_assoc.
Qed.

Lemma hash_length (password : string) (random : nat -> ascii) :
  String.length (genSalt 10 random +:+ digest_text password random) = 60%nat.
Proof.
  rewrite CharsFacts.length_append, genSalt_length. unfold digest_text.
  rewrite encode_length, CharsFacts.take_pad_length. reflexivity.
Qed.

Lemma compare_hash (password : string) (random : nat -> ascii) :
  compare password (genSalt 10 random +:+ digest_text password random) = Returns true.
Proof.
  unfold compare. rewrite hash_length. cbn [Nat.eqb negb].
  rewrite <- (genSalt_length random) at 1. rewrite CharsFacts.substring_prefix.
  rewrite hash_with_genSalt. cbn [mbind outcome_bind].
  now rewrite String.eqb_refl.
Qed.

Lemma append_prefix_injective (a a' b b' : string) :
  String.length a = String.length a' -> a +:+ b = a' +:+ b' -> a = a'.
Proof.
  revert a'; induction a as [|c a IH]; intros [|c' a'] Hlen Heq;
    try discriminate; [reflexivity|].
  cbn in *. injection Heq as -> Heq. f_equal. apply IH; [lia | exact Heq].
Qed.

Lemma append_cancel_l (a b b' : string) : a +:+ b = a +:+ b' -> b = b'.
Proof. induction a as [|c a IH]; cbn; [easy | intros [= Heq]; auto]. Qed.

Lemma encode_injective (s s' : string) :
  Base64.encode Base64.bcrypt_alphabet s = Base64.encode Base64.bcrypt_alphabet s' ->
  s = s'.
Proof.
  intros Heq.
  pose proof (Base64Facts.decode_encode _ Base64Facts.bcrypt_char_roundtrip s) as Hs.
  rewrite Heq, (Base64Facts.decode_encode _ Base64Facts.bcrypt_char_roundtrip) in Hs.
  congruence.
Qed.

(** Two hash strings are equal only if they were made with the same salt. *)
Lemma hash_salt_injective (random random' : nat -> ascii) (tail tail' : string) :
  genSalt 10 random +:+ tail = genSalt 10 random' +:+ tail' ->
  random_bytes random 16 = random_bytes random' 16.
Proof.
  intros Heq.
  apply append_prefix_injective in Heq; [|now rewrite !genSalt_length].
  unfold genSalt in Heq.
  do 3 apply append_cancel_l in Heq. now apply encode_injective.
Qed.

End WithPrimitives.
End BcryptFacts.

(** C6. Whatever salt is drawn, [hashPassword] returns a bcrypt hash whose
    embedded cost factor is 10, and [verifyPassword] of the same password
    against that hash returns true. *)
Theorem password_roundtrip `{Primitives} (p : Process) (password : string) :
  exists hash,
    Auth.hashPassword p password = Done hash
    /\ (exists minor salt,
          Bcryptjs.parse_salt (String.substring 0 29 hash) = Returns (minor, 10%nat, salt))
    /\ Auth.verifyPassword password hash = Done true.
Proof.
  exists (Bcryptjs.genSalt 10 (entropy p) +:+ Bcryptjs.digest_text password (entropy p)).
  unfold Auth.hashPassword, Auth.verifyPassword, Bcryptjs.hash.
  rewrite BcryptFacts.hash_with_genSalt, BcryptFacts.compare_hash.
  split; [reflexivity|]. split; [|reflexivity].
  exists "b", (Bcryptjs.random_bytes (entropy p) 16).
  rewrite <- (BcryptFacts.genSalt_length (entropy p)) at 1.
  rewrite CharsFacts.substring_prefix. apply BcryptFacts.parse_genSalt.
Qed.

(** C9, as stated, fails: with the same secret, the same clock and the same
    plaintext, two calls of [hashPassword] that draw different salts give
    different hashes. *)
Lemma hashPassword_not_deterministic :
  ~ (forall (H : Primitives) (p1 p2 : Process) (password : string),
       same_configuration p1 p2 ->
       Auth.hashPassword p1 password = Auth.hashPassword p2 password).
Proof.
  intros Hdet.
  specialize (Hdet sample_primitives sample_process other_process "secret123"
                (conj eq_refl eq_refl)).
  vm_compute in Hdet. discriminate Hdet.
Qed.

(** C9 (amended). With the same secret and the same clock, issuing,
    decoding, identifying and requiring give the same result for the same
    input, and so does password verification, in any state of the outside
    world.  Hashing does not: its result is fixed by the plaintext and the
    sixteen salt bytes drawn for the call, so two calls on one plaintext
    agree exactly when they draw the same salt. *)
Theorem determinism_up_to_salt `{Primitives} (p1 p2 : Process) :
  same_configuration p1 p2 ->
  (forall c, Auth.generateToken p1 c = Auth.generateToken p2 c)
  /\ (forall token, Auth.verifyToken p1 token = Auth.verifyToken p2 token)
  /\ (forall request env1 env2,
        run env1 [] (Auth.getCurrentUser p1 request)
        = run env2 [] (Auth.getCurrentUser p2 request))
  /\ (forall request env1 env2,
        run env1 [] (Auth.requireAuth p1 request)
        = run env2 [] (Auth.requireAuth p2 request))
  /\ (forall password hash env1 env2,
        run env1 [] (Auth.verifyPassword password hash)
        = run env2 [] (Auth.verifyPassword password hash))
  /\ (forall password,
        Auth.hashPassword p1 password = Auth.hashPassword p2 password
        <-> Bcryptjs.random_bytes (entropy p1) 16 = Bcryptjs.random_bytes (entropy p2) 16).
Proof.
  intros [Hsecret Hclock].
  assert (Htoken : forall token, Auth.verifyToken p1 token = Auth.verifyToken p2 token)
    by (intros token; unfold Auth.verifyToken; now rewrite Hsecret, Hclock).
  assert (Huser : forall request, Auth.getCurrentUser p1 request
                                  = Auth.getCurrentUser p2 request)
    by (intros request; unfold Auth.getCurrentUser;
        destruct (present _); [now rewrite Htoken | reflexivity]).
  split; [|split; [|split; [|split; [|split]]]].
  - intros c. unfold Auth.generateToken. now rewrite Hsecret, Hclock.
  - exact Htoken.
  - intros request env1 env2. rewrite Huser.
    destruct (GateFacts.getCurrentUser_returns p2 request) as [r ->]. reflexivity.
  - intros request env1 env2. unfold Auth.requireAuth. rewrite Huser.
    destruct (GateFacts.requireAuth_cases p2 request) as [[u Hu] | Hu];
      unfold Auth.requireAuth in Hu; now rewrite Hu.
  - intros password hash env1 env2. unfold Auth.verifyPassword.
    now destruct (Bcryptjs.compare password hash).
  - intros password. unfold Auth.hashPassword, Bcryptjs.hash.
    rewrite !BcryptFacts.hash_with_genSalt. cbn [lift]. split.
    + intros Heq.
      apply (f_equal (fun r => match r with Done h => h | _ => EmptyString end)) in Heq.
      exact (BcryptFacts.hash_salt_injective _ _ _ _ Heq).
    + intros Hsalt. unfold Bcryptjs.digest_text, Bcryptjs.genSalt. now rewrite Hsalt.
Qed.

Lemma determinism_up_to_salt_witness :
  Auth.generateToken (H := sample_primitives) sample_process alice
  = Auth.generateToken (H := sample_primitives) other_process alice.
Proof.
  apply (determinism_up_to_salt (H := sample_primitives) sample_process other_process).
  split; reflexivity.
Defined.

(** ** The login route *)

(** C7. A login request gets the same response, status 401 with body
    [{ error: 'Invalid credentials' }], in a run where the email is in the
    store but the password does not verify and in a run where the email is
    not in the store. *)
Theorem login_indistinguishable `{Primitives} (p : Process) (request : NextRequest)
  (credentials : Json.json) (email password : string) (user : Supabase.UserRow)
  (known unknown : environment) :
  body request = Some credentials ->
  Zod.loginSchema_parse credentials = Returns (email, password) ->
  known _ [] (SelectUserByEmail email)
  = {| Supabase.data := Some user; Supabase.error := None |} ->
  Bcryptjs.compare password (Supabase.password_hash user) = Returns false ->
  Supabase.data (unknown _ [] (SelectUserByEmail email)) = None ->
  result_of known (LoginRoute.POST p request)
  = Returns (json_response
               (Json.JObject [("error", Json.JString "Invalid credentials")]) 401)
  /\ result_of unknown (LoginRoute.POST p request)
     = result_of known (LoginRoute.POST p request).
Proof.
  intros Hbody Hparse Hknown Hcompare Hunknown.
  unfold result_of, LoginRoute.POST, request_json. rewrite Hbody.
  cbn [mbind prog_mbind prog_bind]. rewrite Hparse.
  cbn [lift mbind prog_mbind prog_bind perform try_catch run app].
  rewrite Hknown. cbn [Supabase.data Supabase.error].
  unfold Auth.verifyPassword. rewrite Hcompare.
  cbn [lift mbind prog_mbind prog_bind try_catch run negb fst].
  split; [reflexivity|].
  destruct (unknown _ [] (SelectUserByEmail email)) as [d [err|]];
    cbn [Supabase.data] in Hunknown; subst d; reflexivity.
Qed.

Lemma login_indistinguishable_witness :
  result_of store_with_alice (LoginRoute.POST (H := sample_primitives) sample_process
                                wrong_password_request)
  = Returns (json_response
               (Json.JObject [("error", Json.JString "Invalid credentials")]) 401)
  /\ result_of store_without_users (LoginRoute.POST (H := sample_primitives) sample_process
                                      wrong_password_request)
     = result_of store_with_alice (LoginRoute.POST (H := sample_primitives) sample_process
                                     wrong_password_request).
Proof.
  apply (login_indistinguishable (H := sample_primitives) sample_process
           wrong_password_request
           (Json.JObject [("email", Json.JString "alice@example.com");
                          ("password", Json.JString "wrongpass")])
           "alice@example.com" "wrongpass" alice_row);
    vm_compute; reflexivity.
Defined.

(** ** Sessions: from login and registration to the gate *)

Module SessionFacts.
Section WithPrimitives.
Context `{Primitives}.

Lemma compact_nonempty (payload : Json.json) (secret : string) :
  Chars.is_empty (Jsonwebtoken.compact payload secret) = false.
Proof.
  unfold Jsonwebtoken.compact.
  pose proof JwtFacts.header_nonempty as Hh.
  destruct (Base64.base64url (Json.stringify Jsonwebtoken.header)); [discriminate Hh|].
  reflexivity.
Qed.

(** A request that carries an unexpired token issued under the same secret
    passes the gate with the claims of the token. *)
Lemma requireAuth_issued (issuer p : Process) (c : Auth.JWTPayload)
  (token : string) (request : NextRequest) :
  Auth.JWT_SECRET issuer = Auth.JWT_SECRET p ->
  clock p / 1000 < clock issuer / 1000 + 604800 ->
  Auth.generateToken issuer c = Returns token ->
  cookies request !! "token" = Some token ->
  Auth.requireAuth p request
  = Done (Json.JObject (Auth.issued_claims c (clock issuer))).
Proof.
  intros Hsecret Hwindow Htoken Hcookie.
  rewrite AuthFacts.generateToken_compact in Htoken.
  apply (f_equal (fun o => match o with Returns t => t | Throws _ => token end))
    in Htoken.
  apply GateFacts.requireAuth_done. split; [|reflexivity].
  unfold Auth.getCurrentUser. rewrite Hcookie, <- Htoken. cbn [present].
  rewrite compact_nonempty, Hsecret, AuthFacts.verifyToken_issued by exact Hwindow.
  reflexivity.
Qed.

(** The run of a login with valid credentials. *)
Lemma login_valid (p : Process) (request : NextRequest) (credentials : Json.json)
  (email password : string) (user : Supabase.UserRow) (env : environment) :
  body request = Some credentials ->
  Zod.loginSchema_parse credentials = Returns (email, password) ->
  env _ [] (SelectUserByEmail email)
  = {| Supabase.data := Some user; Supabase.error := None |} ->
  Bcryptjs.compare password (Supabase.password_hash user) = Returns true ->
  run env [] (LoginRoute.POST p request)
  = (Returns
       (session_response p user
          (Jsonwebtoken.compact
             (Json.JObject
                (Auth.issued_claims {| Auth.userId := Supabase.user_id user;
                                       Auth.email := Supabase.user_email user |}
                   (clock p)))
             (Auth.JWT_SECRET p))),
     [Entry (SelectUserByEmail email)]).
Proof.
  intros Hbody Hparse Hstore Hcompare.
  unfold LoginRoute.POST, request_json. rewrite Hbody.
  cbn [mbind prog_mbind prog_bind]. rewrite Hparse.
  cbn [lift mbind prog_mbind prog_bind perform try_catch run app].
  rewrite Hstore. cbn [Supabase.data Supabase.error].
  unfold Auth.verifyPassword. rewrite Hcompare.
  cbn [lift mbind prog_mbind prog_bind try_catch run negb].
  rewrite AuthFacts.generateToken_compact. reflexivity.
Qed.

End WithPrimitives.
End SessionFacts.

(** ** Running a handler along each of its paths *)

Module PathFacts.

(** The expression on which the next step of a handler depends. *)
Ltac head_scrutinee p :=
  lazymatch p with
  | try_catch ?q _ => head_scrutinee q
  | prog_bind _ ?q => head_scrutinee q
  | @mbind _ _ _ _ _ ?q => head_scrutinee q
  | lift ?o => head_scrutinee o
  | match ?x with _ => _ end => head_scrutinee x
  | _ => p
  end.

Ltac step :=
  cbn [mbind prog_mbind prog_bind lift perform try_catch run app fmap option_fmap
       option_map Supabase.data Supabase.error negb fst snd].

(** Follows every path of the handler in the goal. *)
Ltac paths :=
  step;
  repeat (
    lazymatch goal with
    | |- context [run _ _ ?p] =>
        lazymatch p with
        | Done _ => fail
        | Raise _ => fail
        | _ =>
            let x := head_scrutinee p in
            lazymatch type of x with
            | prog _ => fail
            | _ => destruct x eqn:?
            end
        end
    end; step).

Lemma zod_message (issues : list ZodIssue) :
  String.eqb (message (ZodError issues)) "Unauthorized" = false.
Proof. reflexivity. Qed.

End PathFacts.


(** X1. [generateToken] never throws, whether [JWT_SECRET] is set, empty or
    absent, and whatever the claim: it returns a non-empty token in three
    segments. *)
Theorem generateToken_returns `{Primitives} (p : Process) (c : Auth.JWTPayload) :
  exists token,
    Auth.generateToken p c = Returns token
    /\ Chars.is_empty token = false
    /\ length (Chars.split "." token) = 3%nat.
Proof.
  eexists. split; [apply AuthFacts.generateToken_compact|]. split.
  - apply SessionFacts.compact_nonempty.
  - now rewrite JwtFacts.split_compact.
Qed.

(** X2. A login with the password that verifies against the stored hash
    reads the store once and answers 200 with the user's id, email and name
    (no password hash) and a token, which it also sets as the [token]
    cookie: HttpOnly, SameSite lax, Secure exactly in production, max-age
    604800 seconds.  The token expires when the cookie does, and a request
    that carries the cookie passes [requireAuth], until expiry, with the
    user's id and email as claims. *)
Theorem login_success `{Primitives} (p : Process) (request : NextRequest)
  (credentials : Json.json) (email password : string) (user : Supabase.UserRow)
  (env : environment) :
  body request = Some credentials ->
  Zod.loginSchema_parse credentials = Returns (email, password) ->
  env _ [] (SelectUserByEmail email)
  = {| Supabase.data := Some user; Supabase.error := None |} ->
  Bcryptjs.compare password (Supabase.password_hash user) = Returns true ->
  exists token,
    run env [] (LoginRoute.POST p request)
    = (Returns
         {| status := 200;
            payload :=
              Json.JObject
                [("user", Json.JObject [("id", id_json (Supabase.user_id user));
                                        ("email", Json.JString (Supabase.user_email user));
                                        ("name", Json.JString (Supabase.user_name user))]);
                 ("token", Json.JString token)];
            cookies_set :=
              [{| cookie_name := "token"; cookie_value := token; httpOnly := true;
                  secure := in_production p; sameSite := "lax"; maxAge := 604800 |}];
            cookies_deleted := [] |},
       [Entry (SelectUserByEmail email)])
    /\ forall (later : Process) (next : NextRequest),
         Auth.JWT_SECRET later = Auth.JWT_SECRET p ->
         clock later / 1000 < clock p / 1000 + 604800 ->
         cookies next !! "token" = Some token ->
         exists claim,
           Auth.requireAuth later next = Done claim
           /\ Json.get "userId" claim = Some (id_json (Supabase.user_id user))
           /\ Json.get "email" claim = Some (Json.JString (Supabase.user_email user))
           /\ Json.get "iat" claim = Some (Json.JNumber (Js.of_Z (clock p / 1000)))
           /\ Json.get "exp" claim
              = Some (Json.JNumber (Js.of_Z (clock p / 1000 + 604800))).
Proof.
  intros Hbody Hparse Hstore Hcompare.
  set (c := {| Auth.userId := Supabase.user_id user;
               Auth.email := Supabase.user_email user |}).
  exists (Jsonwebtoken.compact (Json.JObject (Auth.issued_claims c (clock p)))
            (Auth.JWT_SECRET p)).
  split.
  - exact (SessionFacts.login_valid p request credentials email password user env
             Hbody Hparse Hstore Hcompare).
  - intros later next Hsecret Hwindow Hcookie.
    exists (Json.JObject (Auth.issued_claims c (clock p))).
    split; [|repeat split; reflexivity].
    apply (SessionFacts.requireAuth_issued p later c
             (Jsonwebtoken.compact (Json.JObject (Auth.issued_claims c (clock p)))
                (Auth.JWT_SECRET p)) next); auto.
    apply AuthFacts.generateToken_compact.
Qed.

Lemma login_success_witness :
  exists token,
    result_of store_with_alice
      (LoginRoute.POST (H := sample_primitives) sample_process login_request)
    = Returns (session_response sample_process alice_row token).
Proof.
  destruct (login_success (H := sample_primitives) sample_process login_request
              (Json.JObject [("email", Json.JString "alice@example.com");
                             ("password", Json.JString "secret123")])
              "alice@example.com" "secret123" alice_row store_with_alice)
    as (token & Hrun & _).
  - reflexivity.
  - vm_compute. reflexivity.
  - reflexivity.
  - vm_compute. reflexivity.
  - exists token. unfold result_of. rewrite Hrun. reflexivity.
Defined.

(** X3. Every route handler answers: whatever the request, the process and
    the datastore do, no exception leaves a handler, and the status is one
    of 200, 201, 400, 401, 404 and 500. *)
Theorem handlers_always_respond `{Primitives} (p : Process) (request : NextRequest)
  (params_id : string) (env : environment) :
  Forall (fun handler =>
            exists response,
              result_of env handler = Returns response
              /\ In (status response) known_statuses)
    (protected_handlers p request params_id ++ public_handlers p request).
Proof.
  unfold protected_handlers, public_handlers, app.
  repeat match goal with |- Forall _ _ => constructor end;
    unfold result_of, known_statuses;
    try (unfold ProjectsRoute.GET, ProjectsRoute.POST, ProjectByIdRoute.GET,
           ProjectByIdRoute.PUT, ProjectByIdRoute.DELETE;
         destruct (GateFacts.requireAuth_cases p request) as [[claim ->] | ->]).
  all: unfold MeRoute.GET, LoginRoute.POST, RegisterRoute.POST, LogoutRoute.POST,
         request_json, console_error, Auth.hashPassword, Auth.verifyPassword.
  all: try (destruct (GateFacts.getCurrentUser_returns p request) as [user ->]).
  all: PathFacts.paths.
  all: try rewrite PathFacts.zod_message.
  all: PathFacts.paths.
  all: eexists; (split; [reflexivity|]); cbn; tauto.
Qed.

(** X4. A handler touches the datastore at most once per request, except
    registration, which does so at most twice (the lookup, then the
    insert); the current-user and logout routes perform no effect at
    all. *)
Theorem datastore_access_bound `{Primitives} (p : Process) (request : NextRequest)
  (params_id : string) (env : environment) :
  Forall (fun handler =>
            (length (datastore_accesses (trace_of env handler)) <= 1)%nat)
    [ProjectsRoute.GET p request;
     ProjectsRoute.POST p request;
     ProjectByIdRoute.GET p request params_id;
     ProjectByIdRoute.PUT p request params_id;
     ProjectByIdRoute.DELETE p request params_id;
     LoginRoute.POST p request]
  /\ (length (datastore_accesses (trace_of env (RegisterRoute.POST p request))) <= 2)%nat
  /\ trace_of env (MeRoute.GET p request) = []
  /\ trace_of env LogoutRoute.POST = [].
Proof.
  split; [|split; [|split]].
  - repeat match goal with |- Forall _ _ => constructor end;
      unfold trace_of;
      try (unfold ProjectsRoute.GET, ProjectsRoute.POST, ProjectByIdRoute.GET,
             ProjectByIdRoute.PUT, ProjectByIdRoute.DELETE;
           destruct (GateFacts.requireAuth_cases p request) as [[claim ->] | ->]).
    all: unfold LoginRoute.POST, request_json, console_error, Auth.verifyPassword.
    all: PathFacts.paths.
    all: try rewrite PathFacts.zod_message.
    all: PathFacts.paths.
    all: cbn; lia.
  - unfold trace_of, RegisterRoute.POST, request_json, console_error, Auth.hashPassword.
    PathFacts.paths; cbn; lia.
  - unfold trace_of, MeRoute.GET.
    destruct (GateFacts.getCurrentUser_returns p request) as [user ->].
    PathFacts.paths; reflexivity.
  - reflexivity.
Qed.

Module SchemaFacts.
Section WithPrimitives.
Context `{Primitives}.
Import Zod.

(** The schemas throw nothing but a [ZodError] with an issue in it. *)
Lemma projectSchema_throws (b : Json.json) (e : exn) :
  projectSchema_parse b = Throws e -> exists i issues, e = ZodError (i :: issues).
Proof.
  unfold projectSchema_parse. destruct b; try (intros [= <-]; eauto).
  destruct (_ ++ _) as [|i issues]; [discriminate|]. intros [= <-]. eauto.
Qed.

Lemma loginSchema_throws (b : Json.json) (e : exn) :
  loginSchema_parse b = Throws e -> exists i issues, e = ZodError (i :: issues).
Proof.
  unfold loginSchema_parse. destruct b; try (intros [= <-]; eauto).
  destruct (required "email" _) as [?|i], (required "password" _) as [?|j];
    cbn [issues_of app]; [discriminate | | |]; intros [= <-]; eauto.
Qed.

Lemma registerSchema_throws (b : Json.json) (e : exn) :
  registerSchema_parse b = Throws e -> exists i issues, e = ZodError (i :: issues).
Proof.
  unfold registerSchema_parse. destruct b; try (intros [= <-]; eauto).
  destruct (required "email" _) as [?|i], (required "password" _) as [?|j],
    (required "name" _) as [?|k];
    cbn [issues_of app]; [discriminate | | | | | | |]; intros [= <-]; eauto.
Qed.

End WithPrimitives.
End SchemaFacts.

(** X5. A body that a schema rejects is answered with 400 [Invalid input]
    and the issues found, at least one, before the datastore is touched
    and without a console message: by login and registration for every
    caller, by project creation and update for a caller that passed the
    gate (and, for the update, gave a numeric id). *)
Theorem invalid_input_before_datastore `{Primitives} (p : Process)
  (request : NextRequest) (params_id : string) (b : Json.json) (e : exn)
  (env : environment) :
  body request = Some b ->
  (Zod.loginSchema_parse b = Throws e ->
   exists i issues,
     run env [] (LoginRoute.POST p request) = (Returns (invalid_input (i :: issues)), []))
  /\ (Zod.registerSchema_parse b = Throws e ->
      exists i issues,
        run env [] (RegisterRoute.POST p request)
        = (Returns (invalid_input (i :: issues)), []))
  /\ (Zod.projectSchema_parse b = Throws e ->
      forall claim, Auth.requireAuth p request = Done claim ->
      exists i issues,
        run env [] (ProjectsRoute.POST p request)
        = (Returns (invalid_input (i :: issues)), [])
        /\ (Js.isNaN (Js.Number params_id) = false ->
            run env [] (ProjectByIdRoute.PUT p request params_id)
            = (Returns (invalid_input (i :: issues)), []))).
Proof.
  intros Hbody. split; [|split].
  - intros Hparse.
    destruct (SchemaFacts.loginSchema_throws b e Hparse) as (i & issues & ->).
    exists i, issues. unfold LoginRoute.POST, request_json.
    rewrite Hbody. cbn [mbind prog_mbind prog_bind]. rewrite Hparse. reflexivity.
  - intros Hparse.
    destruct (SchemaFacts.registerSchema_throws b e Hparse) as (i & issues & ->).
    exists i, issues. unfold RegisterRoute.POST, request_json.
    rewrite Hbody. cbn [mbind prog_mbind prog_bind]. rewrite Hparse. reflexivity.
  - intros Hparse claim Hgate.
    destruct (SchemaFacts.projectSchema_throws b e Hparse) as (i & issues & ->).
    exists i, issues. split; [|intros Hid];
      unfold ProjectsRoute.POST, ProjectByIdRoute.PUT, request_json;
      rewrite Hgate; cbn [mbind prog_mbind prog_bind]; try rewrite Hid;
      rewrite Hbody; cbn [mbind prog_mbind prog_bind]; rewrite Hparse; reflexivity.
Qed.

Lemma invalid_input_before_datastore_witness :
  exists i issues,
    run empty_store []
      (RegisterRoute.POST (H := sample_primitives) sample_process wrong_password_request)
    = (Returns (invalid_input (i :: issues)), []).
Proof.
  destruct (invalid_input_before_datastore (H := sample_primitives) sample_process
              wrong_password_request "1"
              (Json.JObject [("email", Json.JString "alice@example.com");
                             ("password", Json.JString "wrongpass")])
              (ZodError [Zod.issue "name" "invalid_type"]) empty_store)
    as (_ & Hregister & _).
  - reflexivity.
  - apply Hregister. vm_compute. reflexivity.
Defined.

(** ** What [projectSchema] lets through *)

Module ProjectSchemaFacts.
Section WithPrimitives.
Context `{Primitives}.
Import Zod.

Lemma string_where_inl (ok : string -> bool) (code path : string)
  (v : option Json.json) (r : option string) :
  string_where ok code path v = inl r ->
  match r with
  | Some s => v = Some (Json.JString s) /\ ok s = true
  | None => v = None
  end.
Proof.
  unfold string_where. destruct v as [[]|]; try discriminate.
  - destruct (ok s) eqn:Hok; [|discriminate]. now intros [= <-].
  - now intros [= <-].
Qed.

Lemma positive_number_inl (path : string) (v : option Json.json)
  (r : option Js.number) :
  positive_number path v = inl r ->
  match r with
  | Some n => v = Some (Json.JNumber n) /\ Js.positive n = true /\ Js.isNaN n = false
  | None => v = None
  end.
Proof.
  unfold positive_number. destruct v as [[]|]; try discriminate.
  - destruct (Js.isNaN n) eqn:Hnan; [discriminate|].
    destruct (Js.positive n) eqn:Hpos; [|discriminate]. now intros [= <-].
  - now intros [= <-].
Qed.

Lemma no_issue {A : Type} (c : checked A) (rest : list ZodIssue) :
  issue_of c ++ rest = [] -> c = inl (value_of c) /\ rest = [].
Proof. destruct c; cbn; [auto | discriminate]. Qed.

(** What a parsed body says about the body that was parsed. *)
Lemma projectSchema_returns (b : Json.json) (data : ProjectData) :
  projectSchema_parse b = Returns data ->
  exists ms,
    b = Json.JObject ms
    /\ string_where min1 "too_small" "title" (Json.lookup_last "title" ms)
       = inl (title data)
    /\ string_where is_status "invalid_enum_value" "status" (Json.lookup_last "status" ms)
       = inl (status data)
    /\ string_where is_iso_date "invalid_string" "deadline"
         (Json.lookup_last "deadline" ms)
       = inl (deadline data)
    /\ string_where min1 "too_small" "assigned_to" (Json.lookup_last "assigned_to" ms)
       = inl (assigned_to data)
    /\ positive_number "budget" (Json.lookup_last "budget" ms) = inl (budget data)
    /\ string_where (fun _ => true) "invalid_type" "description"
         (Json.lookup_last "description" ms)
       = inl (description data).
Proof.
  unfold projectSchema_parse. destruct b; try discriminate.
  destruct (_ ++ _) eqn:Hissues; [|discriminate].
  intros [= <-]. exists members. split; [reflexivity|]. cbn [title status deadline
    assigned_to budget description].
  apply no_issue in Hissues as [Ht Hissues].
  apply no_issue in Hissues as [Hs Hissues].
  apply no_issue in Hissues as [Hd Hissues].
  apply no_issue in Hissues as [Ha Hissues].
  apply no_issue in Hissues as [Hb Hissues].
  rewrite <- (app_nil_r (issue_of _)) in Hissues.
  apply no_issue in Hissues as [He _].
  repeat split; assumption.
Qed.

Lemma is_status_cases (s : string) :
  is_status s = true -> In s ["active"; "on hold"; "completed"].
Proof.
  unfold is_status. intros Hs.
  apply orb_prop in Hs as [Hs|Hs]; [apply orb_prop in Hs as [Hs|Hs]|];
    apply String.eqb_eq in Hs; subst; cbn; tauto.
Qed.

(** The columns of an update come from the parsed body, each once. *)
Lemma build_updateData_fields (data : ProjectData) :
  sublist (List.map fst (ProjectByIdRoute.build_updateData data)) project_fields.
Proof.
  unfold ProjectByIdRoute.build_updateData, ProjectByIdRoute.number_json, project_fields.
  destruct data as [t s d a b e].
  cbn [title status deadline assigned_to budget description].
  destruct t, s, d, a, b, e; cbn; repeat constructor.
Qed.

Lemma build_updateData_values (data : ProjectData) (ms : list (string * Json.json))
  (k : string) (v : Json.json) :
  projectSchema_parse (Json.JObject ms) = Returns data ->
  In (k, v) (ProjectByIdRoute.build_updateData data) ->
  Json.lookup_last k ms = Some v.
Proof.
  intros Hparse Hin.
  apply projectSchema_returns in Hparse as (ms' & [= <-] & Ht & Hs & Hd & Ha & Hb & He).
  apply string_where_inl in Ht, Hs, Hd, Ha, He. apply positive_number_inl in Hb.
  unfold ProjectByIdRoute.build_updateData, ProjectByIdRoute.number_json in Hin.
  destruct data as [t s d a b e].
  cbn [title status deadline assigned_to budget description] in *.
  destruct t, s, d, a, b, e; cbn in Hin;
    repeat (destruct Hin as [[= <- <-]|Hin]; [tauto|]); destruct Hin.
Qed.

Lemma build_updateData_sound (b : Json.json) (data : ProjectData) :
  projectSchema_parse b = Returns data ->
  NoDup (List.map fst (ProjectByIdRoute.build_updateData data))
  /\ forall k v, In (k, v) (ProjectByIdRoute.build_updateData data) ->
       In k project_fields /\ Json.get k b = Some v.
Proof.
  intros Hparse. pose proof (build_updateData_fields data) as Hfields. split.
  - eapply sublist_NoDup; [|exact Hfields].
    unfold project_fields. apply (bool_decide_unpack _). vm_compute. reflexivity.
  - intros k v Hin. split.
    + apply list_elem_of_In. eapply elem_of_sublist; [|exact Hfields].
      apply list_elem_of_In. exact (in_map fst _ (k, v) Hin).
    + destruct (projectSchema_returns b data Hparse) as (ms & -> & _).
      exact (build_updateData_values data ms k v Hparse Hin).
Qed.

End WithPrimitives.
End ProjectSchemaFacts.

(** X6. An update writes nothing but what the caller sent.  Every update
    that a run of the PUT handler sends to the datastore is for the row
    [Number(params.id)], which is a number; it names at least one column;
    its columns are among the six of the schema, each at most once; and
    each carries the value that the request body gives for it. *)
Theorem update_only_submitted_fields `{Primitives} (p : Process)
  (request : NextRequest) (params_id : string) (env : environment)
  (id : Js.number) (updateData : list (string * Json.json)) :
  In (id, updateData)
    (updated_projects (trace_of env (ProjectByIdRoute.PUT p request params_id))) ->
  id = Js.Number params_id
  /\ Js.isNaN id = false
  /\ updateData <> []
  /\ NoDup (List.map fst updateData)
  /\ forall k v, In (k, v) updateData ->
       In k project_fields
       /\ exists b, body request = Some b /\ Json.get k b = Some v.
Proof.
  unfold trace_of, ProjectByIdRoute.PUT.
  destruct (GateFacts.requireAuth_cases p request) as [[claim ->] | ->];
    unfold request_json, console_error.
  all: PathFacts.paths.
  all: try rewrite PathFacts.zod_message.
  all: PathFacts.paths.
  all: cbn [updated_projects omap list_omap app]; try (intros []; fail).
  all: intros [[= <- <-]|[]].
  all: match goal with
       | Hp : Zod.projectSchema_parse ?b = Returns ?d,
         Hu : ProjectByIdRoute.build_updateData ?d = _ |- _ =>
           destruct (ProjectSchemaFacts.build_updateData_sound b d Hp) as [Hnodup Hvalues];
           rewrite Hu in Hnodup, Hvalues
       end.
  all: split; [reflexivity|]; split; [assumption|]; split; [discriminate|];
         split; [assumption|].
  all: intros k v Hin; destruct (Hvalues k v Hin) as [Hk Hv]; eauto.
Qed.

Lemma update_only_submitted_fields_witness :
  NoDup (List.map fst [("title", Json.JString "Renamed");
                       ("budget", Json.JNumber (Js.of_Z 1200))])
  /\ forall k v,
       In (k, v) [("title", Json.JString "Renamed");
                  ("budget", Json.JNumber (Js.of_Z 1200))] ->
       In k project_fields
       /\ exists b, body update_request = Some b /\ Json.get k b = Some v.
Proof.
  destruct (update_only_submitted_fields (H := sample_primitives) sample_process
              update_request "12" empty_store (Js.Number "12")
              [("title", Json.JString "Renamed");
               ("budget", Json.JNumber (Js.of_Z 1200))])
    as (_ & _ & _ & Hnodup & Hvalues).
  - vm_compute. left. reflexivity.
  - split; assumption.
Defined.

Module CreateFacts.
Section WithPrimitives.
Context `{Primitives}.
Import Zod.

Lemma string_field (ok : string -> bool) (code path : string) (b : Json.json)
  (ms : list (string * Json.json)) (r : option string) (s : string) :
  b = Json.JObject ms ->
  string_where ok code path (Json.lookup_last path ms) = inl r ->
  r = Some s ->
  Json.get path b = Some (Json.JString s) /\ ok s = true.
Proof.
  intros -> Hfield ->. now apply ProjectSchemaFacts.string_where_inl in Hfield.
Qed.

Lemma min1_nonempty (s : string) : min1 s = true -> s <> EmptyString.
Proof. now intros Hs ->. Qed.

Lemma present_some (o : option string) (s : string) :
  present o = Some s -> o = Some s /\ s <> EmptyString.
Proof.
  destruct o as [t|]; cbn; [|discriminate].
  destruct t; [discriminate|]. now intros [= <-].
Qed.

End WithPrimitives.
End CreateFacts.

(** X7. Every row that a run of the create handler sends to the datastore
    passed the schema: each column it sets carries the value of the
    request body, the title and the assignee are not empty, the status is
    one of the three known, the deadline has the form of a date, the
    budget is a number above zero; and an empty description is stored as
    absent. *)
Theorem created_rows_validated `{Primitives} (p : Process) (request : NextRequest)
  (env : environment) (values : Supabase.ProjectValues) :
  In values (inserted_projects (trace_of env (ProjectsRoute.POST p request))) ->
  exists b,
    body request = Some b
    /\ (forall s, Supabase.new_title values = Some s ->
          Json.get "title" b = Some (Json.JString s) /\ s <> EmptyString)
    /\ (forall s, Supabase.new_status values = Some s ->
          Json.get "status" b = Some (Json.JString s)
          /\ In s ["active"; "on hold"; "completed"])
    /\ (forall s, Supabase.new_deadline values = Some s ->
          Json.get "deadline" b = Some (Json.JString s) /\ Zod.is_iso_date s = true)
    /\ (forall s, Supabase.new_assigned_to values = Some s ->
          Json.get "assigned_to" b = Some (Json.JString s) /\ s <> EmptyString)
    /\ (forall n, Supabase.new_budget values = Some n ->
          Json.get "budget" b = Some (Json.JNumber n) /\ Js.positive n = true)
    /\ (forall s, Supabase.new_description values = Some s ->
          Json.get "description" b = Some (Json.JString s) /\ s <> EmptyString)
    /\ (Json.get "description" b = Some (Json.JString EmptyString) ->
        Supabase.new_description values = None).
Proof.
  unfold trace_of, ProjectsRoute.POST.
  destruct (GateFacts.requireAuth_cases p request) as [[claim ->] | ->];
    unfold request_json, console_error.
  all: PathFacts.paths.
  all: try rewrite PathFacts.zod_message.
  all: PathFacts.paths.
  all: cbn [inserted_projects omap list_omap app]; try (intros []; fail).
  all: intros [<-|[]].
  all: cbn [Supabase.new_title Supabase.new_status Supabase.new_deadline
            Supabase.new_assigned_to Supabase.new_budget Supabase.new_description].
  all: match goal with
       | Hp : Zod.projectSchema_parse ?b = Returns ?d |- _ =>
           destruct (ProjectSchemaFacts.projectSchema_returns b d Hp)
             as (ms & Hb & Ht & Hs & Hd & Ha & Hn & He);
           exists b
       end.
  all: split; [reflexivity|].
  all: split; [intros s Hv;
               destruct (CreateFacts.string_field _ _ _ _ ms _ s Hb Ht Hv) as [Hget Hok];
               split; [exact Hget | now apply CreateFacts.min1_nonempty]|].
  all: split; [intros s Hv;
               destruct (CreateFacts.string_field _ _ _ _ ms _ s Hb Hs Hv) as [Hget Hok];
               split; [exact Hget | now apply ProjectSchemaFacts.is_status_cases]|].
  all: split; [intros s Hv;
               exact (CreateFacts.string_field _ _ _ _ ms _ s Hb Hd Hv)|].
  all: split; [intros s Hv;
               destruct (CreateFacts.string_field _ _ _ _ ms _ s Hb Ha Hv) as [Hget Hok];
               split; [exact Hget | now apply CreateFacts.min1_nonempty]|].
  all: split; [intros n Hv; rewrite Hv in Hn;
               apply ProjectSchemaFacts.positive_number_inl in Hn as (Hget & Hpos & _);
               subst; split; assumption|].
  all: split; [intros s Hv; apply CreateFacts.present_some in Hv as [Hv Hne];
               destruct (CreateFacts.string_field _ _ _ _ ms _ s Hb He Hv) as [Hget _];
               split; assumption|].
  all: intros Hget; subst; cbn [Json.get] in Hget; rewrite Hget in He;
       cbn [Zod.string_where] in He; injection He as <-; reflexivity.
Qed.

Lemma created_rows_validated_witness :
  exists b,
    body create_request = Some b
    /\ Json.get "description" b = Some (Json.JString EmptyString)
    /\ Supabase.new_description create_values = None.
Proof.
  destruct (created_rows_validated (H := sample_primitives) sample_process
              create_request empty_store create_values)
    as (b & Hbody & _ & _ & _ & _ & _ & _ & Hdescription).
  - vm_compute. left. reflexivity.
  - exists b. split; [exact Hbody|]. split; [|reflexivity].
    injection Hbody as <-. reflexivity.
Defined.

(** X8. The schema requires no field.  For a caller past the gate whose
    body is an object that names none of the six columns, the create
    handler sends a row with every column absent to the datastore, and the
    update handler answers 400 [No fields to update] and leaves the
    datastore alone. *)
Theorem request_without_fields `{Primitives} (p : Process) (request : NextRequest)
  (params_id : string) (claim : Json.json) (ms : list (string * Json.json))
  (env : environment) :
  Auth.requireAuth p request = Done claim ->
  body request = Some (Json.JObject ms) ->
  Forall (fun k => Json.lookup_last k ms = None) project_fields ->
  inserted_projects (trace_of env (ProjectsRoute.POST p request)) = [blank_values]
  /\ (Js.isNaN (Js.Number params_id) = false ->
      run env [] (ProjectByIdRoute.PUT p request params_id)
      = (Returns (error_response "No fields to update" 400), [])).
Proof.
  intros Hgate Hbody Hfields.
  unfold project_fields in Hfields.
  repeat match type of Hfields with
         | Forall _ (_ :: _) =>
             let Hk := fresh "Hk" in
             apply Forall_cons in Hfields as [Hk Hfields]
         end.
  assert (Hparse : Zod.projectSchema_parse (Json.JObject ms)
                   = Returns {| Zod.title := None; Zod.status := None;
                                Zod.deadline := None; Zod.assigned_to := None;
                                Zod.budget := None; Zod.description := None |}).
  { unfold Zod.projectSchema_parse. rewrite Hk, Hk0, Hk1, Hk2, Hk3, Hk4. reflexivity. }
  split; [|intros Hid];
    unfold trace_of, ProjectsRoute.POST, ProjectByIdRoute.PUT, request_json, console_error;
    rewrite Hgate; cbn [mbind prog_mbind prog_bind]; try rewrite Hid;
    rewrite Hbody; cbn [mbind prog_mbind prog_bind]; rewrite Hparse;
    [|reflexivity].
  PathFacts.paths; reflexivity.
Qed.

Lemma request_without_fields_witness :
  inserted_projects
    (trace_of empty_store
       (ProjectsRoute.POST (H := sample_primitives) sample_process fieldless_request))
  = [blank_values].
Proof.
  destruct (request_without_fields (H := sample_primitives) sample_process
              fieldless_request "12"
              (Json.JObject (Auth.issued_claims alice 1700000000123))
              [("owner", Json.JString "mallory")] empty_store)
    as [Hcreate _].
  - vm_compute. reflexivity.
  - reflexivity.
  - unfold project_fields. repeat constructor.
  - exact Hcreate.
Defined.

(** X9. A budget that is a number but not above zero is refused with 400
    [Invalid input], with an issue on [budget], by the create handler and
    by the update handler, and nothing reaches the datastore. *)
Theorem nonpositive_budget_refused `{Primitives} (p : Process) (request : NextRequest)
  (params_id : string) (claim b : Json.json) (n : Js.number) (env : environment) :
  Auth.requireAuth p request = Done claim ->
  body request = Some b ->
  Json.get "budget" b = Some (Json.JNumber n) ->
  Js.positive n = false ->
  exists issues,
    Exists (fun i => issue_path i = "budget") issues
    /\ run env [] (ProjectsRoute.POST p request) = (Returns (invalid_input issues), [])
    /\ (Js.isNaN (Js.Number params_id) = false ->
        run env [] (ProjectByIdRoute.PUT p request params_id)
        = (Returns (invalid_input issues), [])).
Proof.
  intros Hgate Hbody Hbudget Hpos.
  destruct b as [| | | | |ms]; try discriminate. cbn [Json.get] in Hbudget.
  assert (Hparse : exists issues,
             Exists (fun i => issue_path i = "budget") issues
             /\ Zod.projectSchema_parse (Json.JObject ms) = Throws (ZodError issues)).
  { unfold Zod.projectSchema_parse. rewrite Hbudget.
    cbn [Zod.positive_number]. rewrite Hpos.
    match goal with
    | |- context [Zod.issue_of ?t ++ Zod.issue_of ?s ++ Zod.issue_of ?d
                  ++ Zod.issue_of ?a ++ ?rest] =>
        generalize (Zod.issue_of t), (Zod.issue_of s), (Zod.issue_of d), (Zod.issue_of a)
    end.
    intros l1 l2 l3 l4.
    assert (Hin : Exists (fun i => issue_path i = "budget")
                    (l1 ++ l2 ++ l3 ++ l4
                     ++ Zod.issue_of (A := Js.number)
                          (if Js.isNaN n then inr (Zod.issue "budget" "invalid_type")
                           else inr (Zod.issue "budget" "too_small"))
                     ++ Zod.issue_of
                          (Zod.string_where (fun _ => true) "invalid_type" "description"
                             (Json.lookup_last "description" ms)))).
    { rewrite !Exists_app. do 4 right. left. destruct (Js.isNaN n); now constructor. }
    destruct (l1 ++ _) as [|i issues] eqn:Hissues; [inversion Hin|].
    exists (i :: issues). split; [exact Hin | reflexivity]. }
  destruct Hparse as (issues & Hin & Hparse).
  exists issues. split; [exact Hin|].
  assert (Hmsg : String.eqb (message (ZodError issues)) "Unauthorized" = false)
    by apply PathFacts.zod_message.
  split; [|intros Hid];
    unfold ProjectsRoute.POST, ProjectByIdRoute.PUT, request_json;
    rewrite Hgate; cbn [mbind prog_mbind prog_bind]; try rewrite Hid;
    rewrite Hbody; cbn [mbind prog_mbind prog_bind]; rewrite Hparse;
    cbn [lift mbind prog_mbind prog_bind try_catch]; rewrite Hmsg; reflexivity.
Qed.

Lemma nonpositive_budget_refused_witness :
  exists issues,
    run empty_store []
      (ProjectsRoute.POST (H := sample_primitives) sample_process zero_budget_request)
    = (Returns (invalid_input issues), []).
Proof.
  destruct (nonpositive_budget_refused (H := sample_primitives) sample_process
              zero_budget_request "12"
              (Json.JObject (Auth.issued_claims alice 1700000000123))
              (Json.JObject [("title", Json.JString "Site");
                             ("budget", Json.JNumber (Js.of_Z 0))])
              (Js.of_Z 0) empty_store)
    as (issues & _ & Hcreate & _).
  - vm_compute. reflexivity.
  - reflexivity.
  - reflexivity.
  - reflexivity.
  - exists issues. exact Hcreate.
Defined.

(** X10. A body that is not JSON is answered with 500, not 400: the parse
    error is caught by the handler's last resort, which writes one console
    message and answers [Internal server error].  The datastore is not
    touched.  This holds for login and registration, and past the gate for
    project creation and update. *)
Theorem non_json_body `{Primitives} (p : Process) (request : NextRequest)
  (params_id : string) (env : environment) :
  body request = None ->
  (exists detail,
     run env [] (LoginRoute.POST p request)
     = (Returns internal_error, [Entry (ConsoleError "Login error:" detail)]))
  /\ (exists detail,
        run env [] (RegisterRoute.POST p request)
        = (Returns internal_error, [Entry (ConsoleError "Registration error:" detail)]))
  /\ (forall claim, Auth.requireAuth p request = Done claim ->
        (exists detail,
           run env [] (ProjectsRoute.POST p request)
           = (Returns internal_error,
              [Entry (ConsoleError "Error creating project:" detail)]))
        /\ (Js.isNaN (Js.Number params_id) = false ->
            exists detail,
              run env [] (ProjectByIdRoute.PUT p request params_id)
              = (Returns internal_error,
                 [Entry (ConsoleError "Error updating project:" detail)]))).
Proof.
  intros Hbody. split; [|split; [|intros claim Hgate; split; [|intros Hid]]];
    unfold LoginRoute.POST, RegisterRoute.POST, ProjectsRoute.POST,
      ProjectByIdRoute.PUT, request_json;
    try rewrite Hgate; cbn [mbind prog_mbind prog_bind]; try rewrite Hid;
    rewrite Hbody; eexists; reflexivity.
Qed.

Lemma non_json_body_witness :
  exists detail,
    run empty_store []
      (LoginRoute.POST (H := sample_primitives) sample_process anonymous_request)
    = (Returns internal_error, [Entry (ConsoleError "Login error:" detail)]).
Proof.
  destruct (non_json_body (H := sample_primitives) sample_process anonymous_request
              "12" empty_store) as [Hlogin _].
  - reflexivity.
  - exact Hlogin.
Defined.

Module StatusFacts.

(** The status of the response that a run ended with. *)
Lemma status_eq (a b : NextResponse) :
  Returns a = Returns b -> status a = status b.
Proof.
  intros Heq.
  exact (f_equal (fun o => match o with Returns r => status r | Throws _ => 0 end) Heq).
Qed.

End StatusFacts.

(** X11. When a by-id handler answers 404.  Past the gate and with a
    numeric id, the read handler answers [Project not found] exactly when
    the datastore reports the no-rows error [PGRST116]; the delete
    handler, exactly when the datastore reports no error and no row.  The
    same no-rows error that the read handler turns into 404 is a 500 for
    the delete handler. *)
Theorem not_found_answers `{Primitives} (p : Process) (request : NextRequest)
  (params_id : string) (claim : Json.json) (env : environment) :
  Auth.requireAuth p request = Done claim ->
  Js.isNaN (Js.Number params_id) = false ->
  let id := Js.Number params_id in
  (result_of env (ProjectByIdRoute.GET p request params_id)
   = Returns ProjectByIdRoute.not_found
   <-> exists err, Supabase.error (env _ [] (SelectProject id)) = Some err
                   /\ ProjectByIdRoute.is_no_rows err = true)
  /\ (result_of env (ProjectByIdRoute.DELETE p request params_id)
      = Returns ProjectByIdRoute.not_found
      <-> Supabase.error (env _ [] (DeleteProject id)) = None
          /\ Supabase.data (env _ [] (DeleteProject id)) = None)
  /\ (forall err, Supabase.error (env _ [] (DeleteProject id)) = Some err ->
        result_of env (ProjectByIdRoute.DELETE p request params_id)
        = Returns internal_error).
Proof.
  intros Hgate Hid id. subst id.
  unfold result_of, ProjectByIdRoute.GET, ProjectByIdRoute.DELETE, console_error.
  rewrite Hgate. cbn [mbind prog_mbind prog_bind]. rewrite Hid.
  cbn [mbind prog_mbind prog_bind perform try_catch run app].
  set (r := env _ [] (SelectProject (Js.Number params_id))).
  set (d := env _ [] (DeleteProject (Js.Number params_id))).
  split; [|split].
  - destruct (Supabase.error r) as [err|] eqn:Herr.
    + destruct (ProjectByIdRoute.is_no_rows err) eqn:Hrows;
        cbn [try_catch run fst]; split; eauto.
      * intros Heq. apply StatusFacts.status_eq in Heq. discriminate Heq.
      * intros (err' & [= <-] & Hrows'). congruence.
    + destruct (Supabase.data r); cbn [try_catch run fst message String.eqb];
        (split; [|intros (? & [=] & _)]); intros Heq;
        apply StatusFacts.status_eq in Heq; discriminate Heq.
  - destruct (Supabase.error d) as [err|].
    + cbn [try_catch run fst]. split; [|intros [[=] _]].
      intros Heq. apply StatusFacts.status_eq in Heq. discriminate Heq.
    + destruct (Supabase.data d); cbn [try_catch run fst]; split; auto.
      * intros Heq. apply StatusFacts.status_eq in Heq. discriminate Heq.
      * intros [_ [=]].
  - intros err ->. reflexivity.
Qed.

Lemma not_found_answers_witness :
  result_of empty_store
    (ProjectByIdRoute.DELETE (H := sample_primitives) sample_process
       (request_with sample_token) "12")
  = Returns ProjectByIdRoute.not_found.
Proof.
  destruct (not_found_answers (H := sample_primitives) sample_process
              (request_with sample_token) "12"
              (Json.JObject (Auth.issued_claims alice 1700000000123)) empty_store)
    as (_ & Hdelete & _).
  - vm_compute. reflexivity.
  - vm_compute. reflexivity.
  - apply Hdelete. split; reflexivity.
Defined.

(** X12. The current-user route answers as the gate decides and does
    nothing else: 200 with the claim that [requireAuth] returns, under the
    key [user], when it returns one, and 401 [Unauthorized] otherwise. *)
Theorem me_follows_gate `{Primitives} (p : Process) (request : NextRequest) :
  MeRoute.GET p request
  = match Auth.requireAuth p request with
    | Done claim => Done (json_response (Json.JObject [("user", claim)]) 200)
    | _ => Done unauthorized
    end.
Proof.
  unfold MeRoute.GET, Auth.requireAuth.
  destruct (GateFacts.getCurrentUser_returns p request) as [[u|] ->];
    cbn [mbind prog_mbind prog_bind try_catch]; [|reflexivity].
  destruct (truthy u); reflexivity.
Qed.

(** X13. What the dashboard asks for is what the datastore is asked.  For
    a signed-in caller whose query string is the one that [fetchProjects]
    builds from the status filter and the search box, the list handler
    performs one datastore access: a select ordered by [created_at],
    newest first, filtered by status unless the filter is [all] or empty,
    and by the search text on the three text columns unless the box is
    empty. *)
Theorem dashboard_list_query `{Primitives} (p : Process) (request : NextRequest)
  (claim : Json.json) (statusFilter searchQuery : string) (env : environment) :
  Auth.requireAuth p request = Done claim ->
  searchParams request = fetchProjects_params statusFilter searchQuery ->
  datastore_accesses (trace_of env (ProjectsRoute.GET p request))
  = [Entry (SelectProjects
              {| Supabase.match_status :=
                   if String.eqb statusFilter "all" then None
                   else present (Some statusFilter);
                 Supabase.or_filter :=
                   ProjectsRoute.search_filter <$> present (Some searchQuery);
                 Supabase.order_column := "created_at";
                 Supabase.ascending := false |})].
Proof.
  intros Hgate Hparams.
  unfold trace_of, ProjectsRoute.GET, console_error. rewrite Hgate, Hparams.
  unfold fetchProjects_params.
  assert (Hstatus : forall rest, searchParams_get "status" (("search", searchQuery) :: rest)
                                 = searchParams_get "status" rest) by reflexivity.
  assert (Hsearch : forall rest, searchParams_get "search" (("status", statusFilter) :: rest)
                                 = searchParams_get "search" rest) by reflexivity.
  assert (Hstatus' : forall rest, searchParams_get "status" (("status", statusFilter) :: rest)
                                  = Some statusFilter) by reflexivity.
  assert (Hsearch' : forall rest, searchParams_get "search" (("search", searchQuery) :: rest)
                                  = Some searchQuery) by reflexivity.
  destruct (String.eqb statusFilter "all"), (Chars.is_empty searchQuery) eqn:Hempty;
    cbn [negb app]; rewrite ?Hsearch, ?Hstatus', ?Hsearch', ?Hstatus;
    cbn [searchParams_get present]; rewrite ?Hempty;
    cbn [mbind prog_mbind prog_bind perform try_catch run app];
    match goal with
    | |- context [env _ [] ?eff] => generalize (env _ [] eff)
    end;
    intros r; PathFacts.paths; reflexivity.
Qed.

Lemma dashboard_list_query_witness :
  datastore_accesses
    (trace_of empty_store
       (ProjectsRoute.GET (H := sample_primitives) sample_process
          {| cookies := {[ "token" := sample_token ]};
             searchParams := [("search", "site, plan")]; body := None |}))
  = [Entry (SelectProjects
              {| Supabase.match_status := None;
                 Supabase.or_filter := Some (ProjectsRoute.search_filter "site, plan");
                 Supabase.order_column := "created_at";
                 Supabase.ascending := false |})].
Proof.
  apply (dashboard_list_query (H := sample_primitives) sample_process
           {| cookies := {[ "token" := sample_token ]};
              searchParams := [("search", "site, plan")]; body := None |}
           (Json.JObject (Auth.issued_claims alice 1700000000123))
           "all" "site, plan" empty_store).
  - vm_compute. reflexivity.
  - reflexivity.
Defined.

Module FilterFacts.

Lemma count_append (x : ascii) (a b : string) :
  Chars.count x (a +:+ b) = (Chars.count x a + Chars.count x b)%nat.
Proof.
  induction a as [|c a IH]; cbn [String.append Chars.count]; [reflexivity|].
  rewrite IH. lia.
Qed.

End FilterFacts.

(** X14. The search text goes into the filter expression as it is, three
    times.  The filter of a search text without a comma has three
    comma-separated conditions; each comma in the search text adds three
    more segments to the expression. *)
Theorem search_filter_segments (search : string) :
  length (Chars.split "," (ProjectsRoute.search_filter search))
  = (3 + 3 * Chars.count "," search)%nat.
Proof.
  rewrite CharsFacts.split_length. unfold ProjectsRoute.search_filter.
  rewrite !FilterFacts.count_append.
  change (Chars.count "," "title.ilike.%") with 0%nat.
  change (Chars.count "," "%,assigned_to.ilike.%") with 1%nat.
  change (Chars.count "," "%,description.ilike.%") with 1%nat.
  change (Chars.count "," "%") with 0%nat.
  lia.
Qed.

(** ** Registration *)

Module RegisterFacts.
Section WithPrimitives.
Context `{Primitives}.
Import Zod.

Lemma required_inl (ok : string -> bool) (code path : string)
  (v : option Json.json) (s : string) :
  required path (string_where ok code path v) = inl s ->
  v = Some (Json.JString s) /\ ok s = true.
Proof.
  unfold required, string_where. destruct v as [[]|]; try discriminate.
  destruct (ok s0) eqn:Hok; [|discriminate]. now intros [= <-].
Qed.

(** What a parsed registration says about the body that was parsed. *)
Lemma registerSchema_returns (b : Json.json) (email password name : string) :
  registerSchema_parse b = Returns (email, password, name) ->
  Json.get "email" b = Some (Json.JString email)
  /\ Json.get "password" b = Some (Json.JString password)
  /\ Json.get "name" b = Some (Json.JString name)
  /\ is_email email = true
  /\ (6 <= Chars.code_units password)%nat
  /\ name <> EmptyString.
Proof.
  unfold registerSchema_parse. destruct b; try discriminate.
  destruct (required "email" _) as [e|] eqn:He; [|discriminate].
  destruct (required "password" _) as [pw|] eqn:Hp; [|discriminate].
  destruct (required "name" _) as [n|] eqn:Hn; [|discriminate].
  intros [= <- <- <-].
  apply required_inl in He as [He He'], Hp as [Hp Hp'], Hn as [Hn Hn'].
  cbn [Json.get]. repeat split; try assumption.
  - now apply Nat.leb_le.
  - now intros ->.
Qed.

(** The hash that [hashPassword] computes. *)
Lemma hash_returns (password : string) (random : nat -> ascii) (hash : string) :
  Bcryptjs.hash password 10 random = Returns hash ->
  hash = Bcryptjs.genSalt 10 random +:+ Bcryptjs.digest_text password random.
Proof.
  unfold Bcryptjs.hash. rewrite BcryptFacts.hash_with_genSalt. intros Heq.
  exact (f_equal (fun o => match o with Returns h => h | Throws _ => hash end)
           (eq_sym Heq)).
Qed.

Lemma hash_checks (password : string) (random : nat -> ascii) (hash : string) :
  Bcryptjs.hash password 10 random = Returns hash ->
  String.length hash = 60%nat /\ Bcryptjs.compare password hash = Returns true.
Proof.
  intros ->%hash_returns. split.
  - apply BcryptFacts.hash_length.
  - apply BcryptFacts.compare_hash.
Qed.

End WithPrimitives.
End RegisterFacts.

(** X15. A registration that the schema accepts, for an email that the
    lookup does not find, stores the email, the name and the cost-10
    bcrypt hash of the password, in that order after the lookup, and
    answers 200 as a login does: with the stored user and a token that is
    also set as the [token] cookie.  The stored hash is 60 characters long.
    A request carrying the cookie passes [requireAuth] until the token
    expires, and a later login with the same email and password against
    the stored row succeeds. *)
Theorem register_success `{Primitives} (p : Process) (request : NextRequest)
  (credentials : Json.json) (email password name hash : string)
  (user : Supabase.UserRow) (env : environment) :
  body request = Some credentials ->
  Zod.registerSchema_parse credentials = Returns (email, password, name) ->
  Supabase.data (env _ [] (FindUserByEmail email)) = None ->
  RegisterRoute.is_real_error (Supabase.error (env _ [] (FindUserByEmail email))) = None ->
  Bcryptjs.hash password 10 (entropy p) = Returns hash ->
  env _ [Entry (FindUserByEmail email)] (InsertUser email hash name)
  = {| Supabase.data := Some user; Supabase.error := None |} ->
  exists token,
    run env [] (RegisterRoute.POST p request)
    = (Returns (session_response p user token),
       [Entry (FindUserByEmail email); Entry (InsertUser email hash name)])
    /\ String.length hash = 60%nat
    /\ (forall (later : Process) (next : NextRequest),
          Auth.JWT_SECRET later = Auth.JWT_SECRET p ->
          clock later / 1000 < clock p / 1000 + 604800 ->
          cookies next !! "token" = Some token ->
          Auth.requireAuth later next
          = Done (Json.JObject
                    (Auth.issued_claims
                       {| Auth.userId := Supabase.user_id user;
                          Auth.email := Supabase.user_email user |} (clock p))))
    /\ (forall (later : Process) (login : NextRequest) (b : Json.json)
               (stored : Supabase.UserRow) (store : environment),
          body login = Some b ->
          Zod.loginSchema_parse b = Returns (email, password) ->
          store _ [] (SelectUserByEmail email)
          = {| Supabase.data := Some stored; Supabase.error := None |} ->
          Supabase.password_hash stored = hash ->
          exists token',
            result_of store (LoginRoute.POST later login)
            = Returns (session_response later stored token')).
Proof.
  intros Hbody Hparse Hdata Herror Hhash Hinsert.
  destruct (RegisterFacts.hash_checks password (entropy p) hash Hhash)
    as [Hlength Hcompare].
  set (c := {| Auth.userId := Supabase.user_id user;
               Auth.email := Supabase.user_email user |}).
  exists (Jsonwebtoken.compact (Json.JObject (Auth.issued_claims c (clock p)))
            (Auth.JWT_SECRET p)).
  split; [|split; [exact Hlength|split]].
  - unfold RegisterRoute.POST, request_json, Auth.hashPassword. rewrite Hbody.
    cbn [mbind prog_mbind prog_bind]. rewrite Hparse.
    cbn [lift mbind prog_mbind prog_bind perform try_catch run app].
    rewrite Herror, Hdata, Hhash.
    cbn [lift mbind prog_mbind prog_bind perform try_catch run app].
    rewrite Hinsert. cbn [Supabase.data Supabase.error].
    fold c. rewrite AuthFacts.generateToken_compact. reflexivity.
  - intros later next Hsecret Hwindow Hcookie.
    apply (SessionFacts.requireAuth_issued p later c
             (Jsonwebtoken.compact (Json.JObject (Auth.issued_claims c (clock p)))
                (Auth.JWT_SECRET p)) next); auto.
    apply AuthFacts.generateToken_compact.
  - intros later login b stored store Hb Hlogin Hstore Hstored.
    eexists. unfold result_of.
    rewrite (SessionFacts.login_valid later login b email password stored store);
      [reflexivity | assumption..|].
    now rewrite Hstored.
Qed.

Lemma register_success_witness :
  exists token,
    result_of store_accepting_users
      (RegisterRoute.POST (H := sample_primitives) sample_process register_request)
    = Returns (session_response sample_process alice_row token).
Proof.
  destruct (register_success (H := sample_primitives) sample_process register_request
              (Json.JObject [("email", Json.JString "alice@example.com");
                             ("password", Json.JString "secret123");
                             ("name", Json.JString "Alice")])
              "alice@example.com" "secret123" "Alice" alice_hash alice_row
              store_accepting_users)
    as (token & Hrun & _).
  - reflexivity.
  - vm_compute. reflexivity.
  - reflexivity.
  - reflexivity.
  - vm_compute. reflexivity.
  - reflexivity.
  - exists token. unfold result_of. rewrite Hrun. reflexivity.
Defined.

(** X16. Whatever the request and the datastore, every user that a run of
    the registration handler inserts comes from a body that the schema
    accepted: the email is well formed, the name is not empty, the
    password has at least six UTF-16 code units, which is how zod's
    [min(6)] counts; the lookup by that email found
    no row; and what is stored in place of the password is its 60-character
    bcrypt hash, which [compare] accepts for that password.  A lookup that
    failed with anything but the no-rows error is followed by no insert. *)
Theorem registered_users_checked `{Primitives} (p : Process) (request : NextRequest)
  (env : environment) (email hash name : string) :
  In (email, hash, name)
    (inserted_users (trace_of env (RegisterRoute.POST p request))) ->
  exists credentials password,
    body request = Some credentials
    /\ Json.get "email" credentials = Some (Json.JString email)
    /\ Json.get "password" credentials = Some (Json.JString password)
    /\ Json.get "name" credentials = Some (Json.JString name)
    /\ is_email email = true
    /\ (6 <= Chars.code_units password)%nat
    /\ name <> EmptyString
    /\ Supabase.data (env _ [] (FindUserByEmail email)) = None
    /\ RegisterRoute.is_real_error (Supabase.error (env _ [] (FindUserByEmail email)))
       = None
    /\ Bcryptjs.hash password 10 (entropy p) = Returns hash
    /\ String.length hash = 60%nat
    /\ Bcryptjs.compare password hash = Returns true.
Proof.
  unfold trace_of, RegisterRoute.POST, request_json, console_error, Auth.hashPassword.
  PathFacts.paths.
  all: cbn [inserted_users omap list_omap app]; try (intros []; fail).
  all: intros [[= <- <- <-]|[]].
  all: match goal with
       | Hp : Zod.registerSchema_parse ?b = Returns (?e, ?pw, ?n),
         Hh : Bcryptjs.hash ?pw 10 _ = Returns ?h |- _ =>
           destruct (RegisterFacts.registerSchema_returns b e pw n Hp)
             as (He & Hpw & Hn & Hemail & Hlong & Hname);
           destruct (RegisterFacts.hash_checks pw _ h Hh) as [Hlength Hcompare];
           exists b, pw
       end.
  all: repeat split; assumption.
Qed.

Lemma registered_users_checked_witness :
  exists credentials password,
    body register_request = Some credentials
    /\ Json.get "password" credentials = Some (Json.JString password)
    /\ Bcryptjs.compare (H := sample_primitives) password alice_hash = Returns true.
Proof.
  destruct (registered_users_checked (H := sample_primitives) sample_process
              register_request store_accepting_users
              "alice@example.com" alice_hash "Alice")
    as (credentials & password & Hbody & _ & Hpassword & _ & _ & _ & _ & _ & _ & _
        & _ & Hcompare).
  - vm_compute. left. reflexivity.
  - exists credentials, password. repeat split; assumption.
Defined.

(** ** The session cookie *)

Module CookieFacts.
Section WithPrimitives.
Context `{Primitives}.
Import Zod.

(** What a parsed login says about the body that was parsed. *)
Lemma loginSchema_returns (b : Json.json) (email password : string) :
  loginSchema_parse b = Returns (email, password) ->
  Json.get "email" b = Some (Json.JString email)
  /\ Json.get "password" b = Some (Json.JString password)
  /\ is_email email = true
  /\ password <> EmptyString.
Proof.
  unfold loginSchema_parse. destruct b; try discriminate.
  destruct (required "email" _) as [e|] eqn:He; [|discriminate].
  destruct (required "password" _) as [pw|] eqn:Hp; [|discriminate].
  intros [= <- <-].
  apply RegisterFacts.required_inl in He as [He He'], Hp as [Hp Hp'].
  cbn [Json.get]. repeat split; try assumption. now intros ->.
Qed.

Lemma no_cookie (r : NextResponse) (response : NextResponse) :
  cookies_set r = [] -> Returns r = Returns response -> cookies_set response <> [] -> False.
Proof.
  intros Hr Heq Hset. apply Hset. rewrite <- Hr.
  exact (f_equal (fun o => match o with
                           | Returns x => cookies_set x
                           | Throws _ => []
                           end) (eq_sym Heq)).
Qed.

End WithPrimitives.
End CookieFacts.

(** X17. The login handler sets a cookie only for a verified password.
    Whatever the request and the datastore, a response of the login
    handler that sets a cookie is the 200 response of a run in which the
    body passed the schema, the one datastore access was the lookup of the
    submitted email, the lookup returned a row without error, and
    [compare] accepted the submitted password for the hash of that row;
    the cookie is the token issued for the id and email of that row. *)
Theorem login_cookie_only_verified `{Primitives} (p : Process) (request : NextRequest)
  (env : environment) (response : NextResponse) :
  result_of env (LoginRoute.POST p request) = Returns response ->
  cookies_set response <> [] ->
  exists credentials email password user token,
    body request = Some credentials
    /\ Json.get "email" credentials = Some (Json.JString email)
    /\ Json.get "password" credentials = Some (Json.JString password)
    /\ trace_of env (LoginRoute.POST p request) = [Entry (SelectUserByEmail email)]
    /\ Supabase.data (env _ [] (SelectUserByEmail email)) = Some user
    /\ Supabase.error (env _ [] (SelectUserByEmail email)) = None
    /\ Bcryptjs.compare password (Supabase.password_hash user) = Returns true
    /\ Auth.generateToken p {| Auth.userId := Supabase.user_id user;
                               Auth.email := Supabase.user_email user |}
       = Returns token
    /\ response = session_response p user token.
Proof.
  unfold result_of, trace_of, LoginRoute.POST, request_json, console_error,
    Auth.verifyPassword.
  PathFacts.paths.
  all: try (intros Heq Hset; exfalso;
            refine (CookieFacts.no_cookie _ response _ Heq Hset); reflexivity).
  intros Heq _.
  match goal with
  | Hp : Zod.loginSchema_parse ?b = Returns (?e, ?pw),
    Hu : Supabase.data _ = Some ?u,
    Ht : Auth.generateToken _ _ = Returns ?t |- _ =>
      destruct (CookieFacts.loginSchema_returns b e pw Hp) as (He & Hpw & _);
      exists b, e, pw, u, t
  end.
  match goal with
  | Hn : negb ?valid = false |- _ => destruct valid; [|discriminate Hn]
  end.
  repeat split; try assumption.
  exact (f_equal (fun o => match o with Returns r => r | Throws _ => response end)
           (eq_sym Heq)).
Qed.

Lemma login_cookie_only_verified_witness :
  exists user,
    Supabase.data (store_with_alice _ [] (SelectUserByEmail "alice@example.com"))
    = Some user
    /\ Bcryptjs.compare (H := sample_primitives) "secret123" (Supabase.password_hash user)
       = Returns true.
Proof.
  destruct (login_cookie_only_verified (H := sample_primitives) sample_process
              login_request store_with_alice
              (session_response sample_process alice_row
                 (Jsonwebtoken.compact (H := sample_primitives)
                    (Json.JObject (Auth.issued_claims alice 1700000000123))
                    Auth.fallback_secret)))
    as (credentials & email & password & user & token & Hbody & Hemail & Hpassword
        & _ & Hdata & _ & Hcompare & _).
  - vm_compute. reflexivity.
  - discriminate.
  - exists user.
    injection Hbody as <-. injection Hemail as <-. injection Hpassword as <-.
    split; assumption.
Defined.

(** X18. The registration handler sets a cookie only for a user it has
    just stored.  A response of the registration handler that sets a
    cookie is the 200 response of a run that inserted exactly one user,
    after its lookup, and to which the datastore returned the new row
    without error; the cookie is the token issued for the id and email of
    that row. *)
Theorem register_cookie_only_stored `{Primitives} (p : Process) (request : NextRequest)
  (env : environment) (response : NextResponse) :
  result_of env (RegisterRoute.POST p request) = Returns response ->
  cookies_set response <> [] ->
  exists email hash name user token,
    trace_of env (RegisterRoute.POST p request)
    = [Entry (FindUserByEmail email); Entry (InsertUser email hash name)]
    /\ env _ [Entry (FindUserByEmail email)] (InsertUser email hash name)
       = {| Supabase.data := Some user; Supabase.error := None |}
    /\ Auth.generateToken p {| Auth.userId := Supabase.user_id user;
                               Auth.email := Supabase.user_email user |}
       = Returns token
    /\ response = session_response p user token.
Proof.
  unfold result_of, trace_of, RegisterRoute.POST, request_json, console_error,
    Auth.hashPassword.
  PathFacts.paths.
  all: try (intros Heq Hset; exfalso;
            refine (CookieFacts.no_cookie _ response _ Heq Hset); reflexivity).
  intros Heq _.
  match goal with
  | Hp : Zod.registerSchema_parse _ = Returns (?e, _, ?n),
    Hh : Bcryptjs.hash _ 10 _ = Returns ?h,
    Hu : Supabase.data _ = Some ?u,
    Ht : Auth.generateToken _ _ = Returns ?t |- _ =>
      exists e, h, n, u, t
  end.
  repeat split; try assumption.
  - match goal with
    | Hd : Supabase.data ?r = Some _, He : Supabase.error ?r = None |- ?r = _ =>
        destruct r as [data error]; cbn [Supabase.data Supabase.error] in Hd, He;
        now subst
    end.
  - exact (f_equal (fun o => match o with Returns r => r | Throws _ => response end)
             (eq_sym Heq)).
Qed.

Lemma register_cookie_only_stored_witness :
  exists email hash name,
    trace_of store_accepting_users
      (RegisterRoute.POST (H := sample_primitives) sample_process register_request)
    = [Entry (FindUserByEmail email); Entry (InsertUser email hash name)].
Proof.
  destruct (register_cookie_only_stored (H := sample_primitives) sample_process
              register_request store_accepting_users
              (session_response sample_process alice_row
                 (Jsonwebtoken.compact (H := sample_primitives)
                    (Json.JObject (Auth.issued_claims alice 1700000000123))
                    Auth.fallback_secret)))
    as (email & hash & name & user & token & Htrace & _).
  - vm_compute. reflexivity.
  - discriminate.
  - exists email, hash, name. exact Htrace.
Defined.

(** ** Rounding to a double *)

Module RoundFacts.
Import Js.

Lemma strip_zeros_pow (j : nat) (n : N) :
  strip_zeros j (n * 10 ^ N.of_nat j) (- Z.of_nat j) = (n, 0).
Proof.
  induction j as [|j IH]; [cbn; now rewrite N.mul_1_r|].
  cbn [strip_zeros].
  replace (- Z.of_nat (S j) <? 0) with true by (symmetry; apply Z.ltb_lt; lia).
  rewrite Nat2N.inj_succ, N.pow_succ_r', (N.mul_comm 10), N.mul_assoc.
  rewrite N.Div0.mod_mul, N.div_mul by discriminate. cbn [andb N.eqb].
  replace (- Z.of_nat (S j) + 1) with (- Z.of_nat j) by lia. exact IH.
Qed.

Lemma double_shifted (negative : bool) (n : N) (j : nat) :
  n <> 0%N ->
  double negative (N.shiftl n (N.of_nat j)) (- Z.of_nat j) = Finite negative n 0.
Proof.
  intros Hn. unfold double.
  replace (N.shiftl n (N.of_nat j) =? 0)%N with false
    by (symmetry; apply N.eqb_neq; now rewrite N.shiftl_eq_0_iff).
  destruct j as [|j].
  { change (- Z.of_nat 0) with 0. cbn [Z.leb Z.compare Z.to_N N.of_nat].
    now rewrite !N.shiftl_0_r. }
  replace (0 <=? - Z.of_nat (S j)) with false by (symmetry; apply Z.leb_gt; lia).
  rewrite Z.opp_involutive, Nat2Z.id, <- nat_N_Z, N2Z.id.
  rewrite N.shiftl_mul_pow2, <- N.mul_assoc, <- N.pow_mul_l.
  change (2 * 5)%N with 10%N. rewrite nat_N_Z.
  now rewrite strip_zeros_pow.
Qed.

Lemma to_N_opp (l : N) : Z.to_N (- Z.of_N l) = 0%N.
Proof. now destruct l. Qed.

Lemma half_even_1 (a : N) : half_even a 1 = a.
Proof. unfold half_even. now rewrite N.div_1_r, N.mod_1_r. Qed.

(** A natural number up to [2^53] is a double. *)
Lemma nearest_integer (negative : bool) (n : N) :
  n <> 0%N -> (n <= exact_bound)%N -> nearest negative n 1 = Finite negative n 0.
Proof.
  intros Hn Hbound.
  destruct (N.eq_dec n exact_bound) as [->|Hless]; [vm_compute; reflexivity|].
  assert (Hlog : (N.log2 n < 53)%N).
  { apply N.log2_lt_pow2; [lia|]. change (2 ^ 53)%N with exact_bound. lia. }
  destruct (N.log2_spec n) as [Hlow _]; [lia|].
  unfold nearest, floor_log2. change (N.log2 1) with 0%N. change (Z.of_N 0) with 0.
  rewrite Z.sub_0_r, to_N_opp, N2Z.id, N.shiftl_0_r, N.shiftl_1_l.
  replace (n <? 2 ^ N.log2 n)%N with false by (symmetry; apply N.ltb_ge; exact Hlow).
  replace (Z.max (Z.of_N (N.log2 n) - 52) (-1074))
    with (- Z.of_nat (52 - N.to_nat (N.log2 n))) by lia.
  set (j := (52 - N.to_nat (N.log2 n))%nat).
  rewrite Z.opp_involutive, <- nat_N_Z, N2Z.id, to_N_opp, N.shiftl_0_r, half_even_1.
  rewrite N.log2_shiftl by exact Hn.
  replace (1024 <=? Z.of_N (N.log2 n + N.of_nat j) + - Z.of_N (N.of_nat j)) with false
    by (symmetry; apply Z.leb_gt; lia).
  rewrite nat_N_Z. now apply double_shifted.
Qed.

Lemma gcd_1 (n : N) : N.gcd n 1 = 1%N.
Proof. rewrite N.gcd_comm, <- (N.mul_1_l n). apply N.gcd_mul_diag_l. Qed.

Lemma round_ratio_integer (negative : bool) (n : N) :
  (n <= exact_bound)%N -> round_ratio negative n 1 = Finite negative n 0.
Proof.
  intros Hbound. unfold round_ratio.
  destruct (N.eqb_spec n 0) as [->|Hn]; [reflexivity|].
  rewrite gcd_1, !N.div_1_r. now apply nearest_integer.
Qed.

(** A common factor of numerator and denominator plays no role. *)
Lemma round_ratio_scaled (negative : bool) (n c : N) :
  c <> 0%N -> round_ratio negative (n * c) c = round_ratio negative n 1.
Proof.
  intros Hc. unfold round_ratio.
  destruct (N.eqb_spec n 0) as [->|Hn]; [reflexivity|].
  replace (n * c =? 0)%N with false by (symmetry; apply N.eqb_neq; lia).
  rewrite (N.mul_comm n c), N.gcd_comm, N.gcd_mul_diag_l.
  rewrite (N.mul_comm c n), N.div_mul, N.div_same by exact Hc.
  now rewrite gcd_1, !N.div_1_r.
Qed.

Lemma round64_integer (negative : bool) (n : N) :
  (n <= exact_bound)%N -> round64 (Finite negative n 0) = Finite negative n 0.
Proof.
  intros Hbound. unfold round64. cbn [Z.leb Z.compare Z.to_N].
  rewrite N.pow_0_r, N.mul_1_r. now apply round_ratio_integer.
Qed.

(** A natural number up to [2^53] written with [k] fraction zeros. *)
Lemma round64_scaled (negative : bool) (n : N) (k : nat) :
  (n <= exact_bound)%N ->
  round64 (Finite negative (n * 10 ^ N.of_nat k) (0 - Z.of_nat k)) = Finite negative n 0.
Proof.
  intros Hbound. destruct k as [|k].
  { cbn [N.of_nat Z.of_nat Z.sub Z.opp Z.add]. rewrite N.pow_0_r, N.mul_1_r.
    now apply round64_integer. }
  unfold round64.
  replace (0 <=? 0 - Z.of_nat (S k)) with false by (symmetry; apply Z.leb_gt; lia).
  replace (- (0 - Z.of_nat (S k))) with (Z.of_nat (S k)) by lia.
  rewrite <- nat_N_Z, N2Z.id.
  rewrite round_ratio_scaled by (apply N.pow_nonzero; discriminate).
  now apply round_ratio_integer.
Qed.

End RoundFacts.

(** ** Numerals *)

Module IdFacts.
Import Js.

Lemma digit_not_space (c : ascii) :
  Chars.is_digit c = true ->
  ws1 c = false
  /\ (forall c2, ws2 c c2 = false /\ ws2 c2 c = false)
  /\ (forall c2 c3, ws3 c c2 c3 = false /\ ws3 c3 c2 c = false).
Proof.
  destruct c as [[] [] [] [] [] [] [] []]; try discriminate; intros _;
    (split; [reflexivity|]); split; intros; unfold ws2, ws3, Chars.in_range;
    cbn [Ascii.eqb Bool.eqb andb orb Chars.code N_of_ascii N_of_digits N.leb N.compare
         Pos.compare Pos.compare_cont N.add N.mul Pos.add Pos.mul Pos.succ];
    rewrite ?andb_false_r, ?orb_false_r; cbn [andb orb];
    rewrite ?andb_false_r, ?orb_false_r; split; reflexivity.
Qed.

Lemma strip_leading_digit (backwards : bool) (c : ascii) (r : string) :
  Chars.is_digit c = true -> strip_leading backwards (String c r) = String c r.
Proof.
  intros Hc. destruct (digit_not_space c Hc) as (H1 & H2 & H3).
  cbn [strip_leading]. rewrite H1.
  destruct r as [|c2 r]; [reflexivity|].
  destruct (H2 c2) as [-> ->].
  destruct r as [|c3 r]; [now destruct backwards|].
  destruct (H3 c2 c3) as [-> ->]. now destruct backwards.
Qed.

Lemma rev_onto_onto (s a b : string) :
  Chars.rev_onto (Chars.rev_onto s a) b = Chars.rev_onto a (s +:+ b).
Proof.
  revert a b. induction s as [|c s IH]; intros a b; cbn [Chars.rev_onto String.append].
  - reflexivity.
  - rewrite IH. reflexivity.
Qed.

Lemma rev_involutive (s : string) : Chars.rev (Chars.rev s) = s.
Proof.
  unfold Chars.rev. rewrite rev_onto_onto. cbn [Chars.rev_onto].
  apply CharsFacts.append_empty_r.
Qed.

Lemma rev_onto_app (x y acc : string) :
  Chars.rev_onto (x +:+ y) acc = Chars.rev_onto y (Chars.rev_onto x acc).
Proof.
  revert acc. induction x as [|c x IH]; intros acc; cbn [Chars.rev_onto String.append].
  - reflexivity.
  - apply IH.
Qed.

Lemma rev_snoc (x : string) (d : ascii) :
  Chars.rev (x +:+ String d EmptyString) = String d (Chars.rev x).
Proof. unfold Chars.rev. now rewrite rev_onto_app. Qed.

(** A string that starts and ends with a digit has no white space to
    trim. *)
Lemma trim_digit_ends (c d : ascii) (x : string) :
  Chars.is_digit c = true -> Chars.is_digit d = true ->
  trim (String c x +:+ String d EmptyString) = String c x +:+ String d EmptyString.
Proof.
  intros Hc Hd. unfold trim.
  change (String c x +:+ String d EmptyString)
    with (String c (x +:+ String d EmptyString)) at 1.
  rewrite (strip_leading_digit false c _ Hc).
  change (String c (x +:+ String d EmptyString))
    with (String c x +:+ String d EmptyString).
  rewrite rev_snoc, (strip_leading_digit true d _ Hd), <- rev_snoc.
  apply rev_involutive.
Qed.

Lemma rev_onto_all (f : ascii -> bool) (s acc : string) :
  Chars.all f (Chars.rev_onto s acc) = Chars.all f s && Chars.all f acc.
Proof.
  revert acc. induction s as [|c s IH]; intros acc; cbn [Chars.rev_onto Chars.all].
  - reflexivity.
  - rewrite IH. cbn [Chars.all]. destruct (f c), (Chars.all f s); reflexivity.
Qed.

Lemma strip_leading_digits (backwards : bool) (s : string) :
  Chars.all Chars.is_digit s = true -> strip_leading backwards s = s.
Proof.
  destruct s as [|c r]; [reflexivity|]. cbn [Chars.all].
  intros [Hc _]%andb_prop. now apply strip_leading_digit.
Qed.

Lemma trim_digits (s : string) : Chars.all Chars.is_digit s = true -> trim s = s.
Proof.
  intros Hs. unfold trim. rewrite (strip_leading_digits false s Hs).
  rewrite strip_leading_digits.
  - apply rev_involutive.
  - unfold Chars.rev. rewrite rev_onto_all, Hs. reflexivity.
Qed.

Lemma digit_not_Infinity (c : ascii) (r : string) :
  Chars.is_digit c = true -> String.eqb (String c r) "Infinity" = false.
Proof.
  destruct c as [[] [] [] [] [] [] [] []]; try discriminate; reflexivity.
Qed.

Lemma digit_no_sign (c : ascii) (r : string) :
  Chars.is_digit c = true -> take_sign (String c r) = (false, String c r).
Proof.
  destruct c as [[] [] [] [] [] [] [] []]; try discriminate; reflexivity.
Qed.

(** A numeral, followed by nothing or by a point and more, is read as a
    decimal literal without sign. *)
Lemma numeric_literal_numeral (n : N) (rest : string) :
  rest = EmptyString \/ (exists more, rest = String "." more) ->
  numeric_literal (digits_text n +:+ rest) = unsigned_decimal false (digits_text n +:+ rest).
Proof.
  intros Hrest.
  destruct (JsFacts.digits_text_head n) as (c & r & Htext & Hc & Hzero).
  rewrite Htext. cbn [String.append]. unfold numeric_literal.
  rewrite (digit_no_sign c _ Hc).
  destruct (r +:+ rest) as [|x t] eqn:Htail; [reflexivity|].
  destruct (Ascii.eqb c "0") eqn:Hc0; [|reflexivity].
  rewrite (Hzero eq_refl) in Htail. cbn [String.append] in Htail.
  destruct Hrest as [->|[more ->]]; [discriminate Htail|].
  injection Htail as <- _. reflexivity.
Qed.

(** The decimal numeral of a natural number up to [2^53] converts back to
    it. *)
Lemma Number_digits_text (n : N) :
  (n <= exact_bound)%N -> Number (digits_text n) = Finite false n 0.
Proof.
  intros Hbound. unfold Number. rewrite (trim_digits _ (JsFacts.digits_text_digits n)).
  rewrite <- (CharsFacts.append_empty_r (digits_text n)) at 2.
  rewrite numeric_literal_numeral by now left.
  unfold unsigned_decimal.
  destruct (JsFacts.digits_text_head n) as (c & r & Htext & Hc & _).
  rewrite (JsFacts.span_digits_app _ EmptyString (JsFacts.digits_text_digits n) I).
  rewrite CharsFacts.append_empty_r, JsFacts.digits_value_text, Htext.
  rewrite (digit_not_Infinity c r Hc). cbn [Chars.is_empty andb exponent_to_end mbind
    option_bind String.length Z.of_nat Z.sub Z.opp Z.add].
  now apply RoundFacts.round64_integer.
Qed.

(** *** Numerals with fraction zeros *)

Lemma zeros_snoc (k : nat) : zeros (S k) = zeros k +:+ "0".
Proof. induction k as [|k IH]; [reflexivity|]. cbn [zeros String.append] in *. now rewrite <- IH. Qed.

Lemma zeros_digits (k : nat) : Chars.all Chars.is_digit (zeros k) = true.
Proof. induction k as [|k IH]; [reflexivity|]. cbn [zeros Chars.all]. now rewrite IH. Qed.

Lemma zeros_length (k : nat) : String.length (zeros k) = k.
Proof. induction k as [|k IH]; [reflexivity|]. cbn [zeros String.length]. now rewrite IH. Qed.

Lemma all_app (f : ascii -> bool) (a b : string) :
  Chars.all f (a +:+ b) = Chars.all f a && Chars.all f b.
Proof.
  induction a as [|c a IH]; cbn [String.append Chars.all]; [reflexivity|].
  rewrite IH. now rewrite andb_assoc.
Qed.

(** Appending a zero to a string of digits multiplies its value by ten. *)
Lemma snoc_zero (s : string) :
  Chars.all Chars.is_digit s = true ->
  exists d d2,
    NilEmpty.uint_of_string s = Some d
    /\ NilEmpty.uint_of_string (s +:+ "0") = Some d2
    /\ (forall acc, Pos.of_uint_acc d2 acc = (10 * Pos.of_uint_acc d acc)%positive)
    /\ Pos.of_uint d2 = (10 * Pos.of_uint d)%N.
Proof.
  induction s as [|c s IH].
  - intros _. exists Decimal.Nil, (Decimal.D0 Decimal.Nil). repeat split.
  - cbn [Chars.all]. intros [Hc Hs]%andb_prop.
    destruct (IH Hs) as (d & d2 & Hd & Hd2 & Hacc & Hof).
    cbn [String.append NilEmpty.uint_of_string]. rewrite Hd, Hd2.
    destruct c as [[] [] [] [] [] [] [] []]; try discriminate Hc;
      cbn [uint_of_char];
      eexists _, _; (split; [reflexivity|]); (split; [reflexivity|]);
      (split; [intros acc; cbn [Pos.of_uint_acc]; apply Hacc|]);
      cbn [Pos.of_uint]; rewrite ?Hacc; try exact Hof; reflexivity.
Qed.

Lemma digits_value_snoc (s : string) :
  Chars.all Chars.is_digit s = true ->
  digits_value (s +:+ "0") = (10 * digits_value s)%N.
Proof.
  intros Hs. destruct (snoc_zero s Hs) as (d & d2 & Hd & Hd2 & _ & Hof).
  unfold digits_value, N.of_uint. now rewrite Hd, Hd2.
Qed.

Lemma digits_value_zeros (s : string) (k : nat) :
  Chars.all Chars.is_digit s = true ->
  digits_value (s +:+ zeros k) = (digits_value s * 10 ^ N.of_nat k)%N.
Proof.
  revert s. induction k as [|k IH]; intros s Hs.
  - cbn [zeros]. now rewrite CharsFacts.append_empty_r, N.mul_1_r.
  - change (zeros (S k)) with ("0" +:+ zeros k).
    rewrite <- CharsFacts.append_assoc, IH, digits_value_snoc by
      (try rewrite all_app, Hs; trivial).
    rewrite Nat2N.inj_succ, N.pow_succ_r'. lia.
Qed.

(** A natural number up to [2^53], as a [DECIMAL] column of any scale
    sends it, converts back to the number. *)
Lemma Number_decimal_text (n : N) (scale : nat) :
  (n <= exact_bound)%N -> Number (decimal_text n scale) = Finite false n 0.
Proof.
  intros Hbound. destruct scale as [|k]; [now apply Number_digits_text|].
  cbn [decimal_text]. unfold Number.
  destruct (JsFacts.digits_text_head n) as (c & r & Htext & Hc & _).
  assert (Htrim : trim (digits_text n +:+ "." +:+ zeros (S k))
                  = digits_text n +:+ "." +:+ zeros (S k)).
  { rewrite zeros_snoc, Htext.
    change (String c r +:+ "." +:+ zeros k +:+ "0")
      with (String c (r +:+ "." +:+ zeros k +:+ "0")).
    replace (r +:+ "." +:+ zeros k +:+ "0") with ((r +:+ "." +:+ zeros k) +:+ "0")
      by now rewrite !CharsFacts.append_assoc.
    now apply (trim_digit_ends c "0"). }
  rewrite Htrim, numeric_literal_numeral by (right; eauto).
  replace (Chars.is_empty (digits_text n +:+ "." +:+ zeros (S k))) with false
    by now rewrite Htext.
  unfold unsigned_decimal.
  replace (String.eqb (digits_text n +:+ "." +:+ zeros (S k)) "Infinity") with false
    by (rewrite Htext; symmetry; apply (digit_not_Infinity c _ Hc)).
  rewrite (JsFacts.span_digits_app _ _ (JsFacts.digits_text_digits n))
    by reflexivity.
  change ("." +:+ zeros (S k)) with (String "." (zeros (S k))).
  cbn [Ascii.eqb Bool.eqb].
  rewrite <- (CharsFacts.append_empty_r (zeros (S k))) at 1.
  rewrite (JsFacts.span_digits_app _ EmptyString (zeros_digits (S k)) I).
  replace (Chars.is_empty (digits_text n)) with false by now rewrite Htext.
  cbn [andb exponent_to_end mbind option_bind].
  rewrite digits_value_zeros by apply JsFacts.digits_text_digits.
  rewrite JsFacts.digits_value_text, zeros_length.
  now apply RoundFacts.round64_scaled.
Qed.

End IdFacts.

(** X19. A numeric id in the path reaches the datastore as that number
    as long as the number is a double.  For a caller past the gate and an
    id that is the decimal numeral of a natural number [n] up to [2^53],
    the read handler selects row [n] and the delete handler deletes row
    [n], each as its only datastore access, and every update that the
    update handler sends is for row [n].  The bound is sharp: for the
    numeral of [2^53 + 1] the read handler selects row [2^53]. *)
Theorem numeric_id_reaches_datastore `{Primitives} (p : Process)
  (request : NextRequest) (claim : Json.json) (n : N) (env : environment) :
  Auth.requireAuth p request = Done claim ->
  (n <= Js.exact_bound)%N ->
  let params_id := Js.digits_text n in
  datastore_accesses (trace_of env (ProjectByIdRoute.GET p request params_id))
  = [Entry (SelectProject (Js.Finite false n 0))]
  /\ datastore_accesses (trace_of env (ProjectByIdRoute.DELETE p request params_id))
     = [Entry (DeleteProject (Js.Finite false n 0))]
  /\ (forall id updateData,
        In (id, updateData)
          (updated_projects (trace_of env (ProjectByIdRoute.PUT p request params_id))) ->
        id = Js.Finite false n 0)
  /\ datastore_accesses
       (trace_of env (ProjectByIdRoute.GET p request "9007199254740993"))
     = [Entry (SelectProject (Js.Finite false Js.exact_bound 0))].
Proof.
  intros Hgate Hbound params_id. subst params_id.
  assert (Hnext : Js.Number "9007199254740993" = Js.Finite false Js.exact_bound 0)
    by (vm_compute; reflexivity).
  unfold trace_of, ProjectByIdRoute.GET, ProjectByIdRoute.DELETE, ProjectByIdRoute.PUT,
    request_json, console_error.
  rewrite Hgate. cbn [mbind prog_mbind prog_bind].
  rewrite Hnext, (IdFacts.Number_digits_text n Hbound). cbn [Js.isNaN].
  split; [|split; [|split]].
  - PathFacts.paths; reflexivity.
  - PathFacts.paths; reflexivity.
  - intros id updateData. PathFacts.paths.
    all: try rewrite PathFacts.zod_message.
    all: PathFacts.paths.
    all: cbn [updated_projects omap list_omap app]; try (intros []; fail).
    all: now intros [[= <- _]|[]].
  - PathFacts.paths; reflexivity.
Qed.

Lemma numeric_id_reaches_datastore_witness :
  datastore_accesses
    (trace_of empty_store
       (ProjectByIdRoute.GET (H := sample_primitives) sample_process
          (request_with sample_token) "12"))
  = [Entry (SelectProject (Js.Finite false 12 0))].
Proof.
  destruct (numeric_id_reaches_datastore (H := sample_primitives) sample_process
              (request_with sample_token)
              (Json.JObject (Auth.issued_claims alice 1700000000123)) 12 empty_store)
    as [Hget _].
  - vm_compute. reflexivity.
  - vm_compute. discriminate.
  - exact Hget.
Defined.

(** ** The edit form *)

Module EditFacts.
Section WithPrimitives.
Context `{Primitives}.

(** The form that the modal shows for a stored project. *)
Lemma formData_of_row (row : Supabase.ProjectRow) :
  formData_of (formatProject row)
  = Json.JObject
      [("title", Json.JString (Supabase.title row));
       ("status", Json.JString (Supabase.status row));
       ("deadline", opt_json (Supabase.deadline row));
       ("assigned_to", opt_json (Supabase.assigned_to row));
       ("budget", Json.JNumber (budget_number (Supabase.budget row)));
       ("description",
        Json.JString (match Supabase.description row with
                      | Some d => d
                      | None => EmptyString
                      end))].
Proof.
  unfold formData_of, formatProject.
  change (Json.get "title" (Json.JObject ?ms)) with (Json.lookup_last "title" ms).
  cbv [Json.get Json.lookup_last fold_left String.eqb Ascii.eqb Bool.eqb
       omap list_omap fmap option_fmap option_map or_empty].
  destruct (Supabase.description row) as [[|c d]|]; reflexivity.
Qed.

Lemma issues_nonempty (l1 l2 l3 l4 l5 l6 : list ZodIssue) :
  l3 <> [] \/ l4 <> [] \/ l5 <> [] ->
  exists i issues, l1 ++ l2 ++ l3 ++ l4 ++ l5 ++ l6 = i :: issues.
Proof.
  intros Hne. destruct (l1 ++ _) as [|i issues] eqn:Hl; [|eauto].
  apply app_eq_nil in Hl as [_ Hl]. apply app_eq_nil in Hl as [_ Hl].
  apply app_eq_nil in Hl as [H3 Hl]. apply app_eq_nil in Hl as [H4 Hl].
  apply app_eq_nil in Hl as [H5 _]. tauto.
Qed.

(** The form of a project without deadline, assignee or budget does not
    pass the schema. *)
Lemma incomplete_form_refused (row : Supabase.ProjectRow) :
  Supabase.deadline row = None \/ Supabase.assigned_to row = None
  \/ Supabase.budget row = None ->
  exists i issues,
    Zod.projectSchema_parse (formData_of (formatProject row))
    = Throws (ZodError (i :: issues)).
Proof.
  intros Hrow. rewrite formData_of_row. unfold Zod.projectSchema_parse.
  change (Json.lookup_last "title" _) with (Some (Json.JString (Supabase.title row))).
  change (Json.lookup_last "status" _) with (Some (Json.JString (Supabase.status row))).
  change (Json.lookup_last "deadline" _) with (Some (opt_json (Supabase.deadline row))).
  change (Json.lookup_last "assigned_to" _)
    with (Some (opt_json (Supabase.assigned_to row))).
  change (Json.lookup_last "budget" _)
    with (Some (Json.JNumber (budget_number (Supabase.budget row)))).
  cbv zeta.
  match goal with
  | |- context [?l1 ++ ?l2 ++ ?l3 ++ ?l4 ++ ?l5 ++ ?l6] =>
      destruct (issues_nonempty l1 l2 l3 l4 l5 l6) as (i & issues & ->);
        [|exists i, issues; reflexivity]
  end.
  destruct Hrow as [-> | [-> | ->]]; [left | right; left | right; right];
    cbn; discriminate.
Qed.

End WithPrimitives.
End EditFacts.

(** X20. Saving the edit form.  The modal fills its form from the project
    as the list handler returned it, and the dashboard sends the form as
    the body of a PUT on the path of the project's id.  For a project whose
    id is a UUID the update handler answers 400 [Invalid project id],
    whatever the form holds, and leaves the datastore alone.  For a
    project whose id is a natural number up to [2^53]: when the stored
    project has no deadline, no assignee or no budget, the handler refuses
    the unchanged form with 400 [Invalid input] and leaves the datastore
    alone; when the update does reach the datastore, it is for the
    project's own row, and it sets the description to the stored text, or
    to the empty string when the project had none. *)
Theorem edit_form_saved `{Primitives} (p : Process) (request : NextRequest)
  (claim : Json.json) (row : Supabase.ProjectRow) (env : environment) :
  Auth.requireAuth p request = Done claim ->
  body request = Some (formData_of (formatProject row)) ->
  (forall s,
     Supabase.project_id row = TextId s -> Js.is_uuid s = true ->
     run env [] (ProjectByIdRoute.PUT p request s)
     = (Returns ProjectByIdRoute.invalid_id, []))
  /\ (forall n : N,
        Supabase.project_id row = NumericId (Z.of_N n) -> (n <= Js.exact_bound)%N ->
        let handler := ProjectByIdRoute.PUT p request (Js.digits_text n) in
        (Supabase.deadline row = None \/ Supabase.assigned_to row = None
         \/ Supabase.budget row = None ->
         exists i issues,
           run env [] handler = (Returns (invalid_input (i :: issues)), []))
        /\ forall id updateData,
             In (id, updateData) (updated_projects (trace_of env handler)) ->
             Json.JNumber id = id_json (Supabase.project_id row)
             /\ In ("description",
                    Json.JString (match Supabase.description row with
                                  | Some d => d
                                  | None => EmptyString
                                  end)) updateData).
Proof.
  intros Hgate Hbody. split.
  { intros s _ Huuid.
    destruct (HandlerFacts.rejected_id p request s claim Hgate
                (NumberFacts.uuid_not_a_number s Huuid)) as (_ & -> & _).
    reflexivity. }
  intros n Hrow Hbound handler. subst handler.
  unfold trace_of, ProjectByIdRoute.PUT, request_json, console_error.
  rewrite Hgate. cbn [mbind prog_mbind prog_bind].
  rewrite (IdFacts.Number_digits_text n Hbound). cbn [Js.isNaN].
  rewrite Hbody. cbn [mbind prog_mbind prog_bind]. split.
  - intros Hincomplete.
    destruct (EditFacts.incomplete_form_refused row Hincomplete) as (i & issues & ->).
    exists i, issues. reflexivity.
  - intros id updateData.
    destruct (Zod.projectSchema_parse _) as [data|e] eqn:Hparse.
    + pose proof Hparse as Hfields.
      apply ProjectSchemaFacts.projectSchema_returns in Hfields
        as (ms & Hms & _ & _ & _ & _ & _ & Hdescription).
      rewrite EditFacts.formData_of_row in Hms. injection Hms as <-.
      change (Json.lookup_last "description" _)
        with (Some (Json.JString (match Supabase.description row with
                                  | Some d => d
                                  | None => EmptyString
                                  end))) in Hdescription.
      cbn [Zod.string_where] in Hdescription. injection Hdescription as Hdescription.
      assert (Hin : In ("description",
                        Json.JString (match Supabase.description row with
                                      | Some d => d
                                      | None => EmptyString
                                      end))
                      (ProjectByIdRoute.build_updateData data)).
      { unfold ProjectByIdRoute.build_updateData, ProjectByIdRoute.number_json.
        rewrite <- Hdescription.
        destruct (Zod.title data), (Zod.status data), (Zod.deadline data),
          (Zod.assigned_to data), (Zod.budget data); cbn; tauto. }
      PathFacts.paths.
      all: cbn [updated_projects omap list_omap app]; try (intros []; fail).
      all: intros [[= <- <-]|[]].
      all: split; [rewrite Hrow; unfold id_json, Js.of_Z;
                   rewrite Zabs2N.id;
                   replace (Z.of_N n <? 0) with false
                     by (symmetry; apply Z.ltb_ge; lia);
                   reflexivity|].
      all: exact Hin.
    + destruct (SchemaFacts.projectSchema_throws _ e Hparse) as (i & issues & ->).
      cbn. intros [].
Qed.

Lemma edit_form_saved_witness :
  (exists i issues,
     run empty_store []
       (ProjectByIdRoute.PUT (H := sample_primitives) sample_process
          (edit_request undated_row) "12")
     = (Returns (invalid_input (i :: issues)), []))
  /\ run empty_store []
       (ProjectByIdRoute.PUT (H := sample_primitives) sample_process
          (edit_request uuid_row) uuid_example)
     = (Returns ProjectByIdRoute.invalid_id, []).
Proof.
  split.
  - destruct (edit_form_saved (H := sample_primitives) sample_process
                (edit_request undated_row)
                (Json.JObject (Auth.issued_claims alice 1700000000123))
                undated_row empty_store) as [_ Hnumeric].
    + vm_compute. reflexivity.
    + reflexivity.
    + destruct (Hnumeric 12%N) as [Hrefused _].
      * reflexivity.
      * vm_compute. discriminate.
      * apply Hrefused. left. reflexivity.
  - destruct (edit_form_saved (H := sample_primitives) sample_process
                (edit_request uuid_row)
                (Json.JObject (Auth.issued_claims alice 1700000000123))
                uuid_row empty_store) as [Huuid _].
    + vm_compute. reflexivity.
    + reflexivity.
    + apply Huuid; reflexivity.
Defined.

(** ** The deadline pattern *)

Module DateFacts.
Import Chars.

Lemma split_concat (sep : ascii) (s : string) :
  String.concat (String sep EmptyString) (split sep s) = s.
Proof.
  induction s as [|c s IH]; cbn [split]; [reflexivity|].
  pose proof (CharsFacts.split_length sep s) as Hlength.
  destruct (split sep s) as [|a l]; [discriminate Hlength|].
  rewrite <- IH. destruct (Ascii.eqb c sep) eqn:Hc.
  - apply Ascii.eqb_eq in Hc as ->. reflexivity.
  - destruct l; reflexivity.
Qed.

Lemma digits4 (s : string) :
  all is_digit s = true -> String.length s = 4%nat ->
  exists a b c d, s = String a (String b (String c (String d EmptyString)))
                  /\ forallb is_digit [a; b; c; d] = true.
Proof.
  destruct s as [|a [|b [|c [|d [|e s]]]]]; try discriminate.
  cbn [all forallb]. intros Hs _. exists a, b, c, d. split; [reflexivity|].
  exact Hs.
Qed.

Lemma digits2 (s : string) :
  all is_digit s = true -> String.length s = 2%nat ->
  exists a b, s = String a (String b EmptyString) /\ forallb is_digit [a; b] = true.
Proof.
  destruct s as [|a [|b [|c s]]]; try discriminate.
  cbn [all forallb]. intros Hs _. exists a, b. split; [reflexivity|].
  exact Hs.
Qed.

End DateFacts.

(** X21. The deadline pattern of [projectSchema] accepts exactly the
    ten-character strings of four digits, a minus sign, two digits, a
    minus sign and two digits; whether the digits name a day of the
    calendar plays no role. *)
Theorem deadline_pattern (s : string) :
  Zod.is_iso_date s = true
  <-> exists y1 y2 y3 y4 m1 m2 d1 d2,
        s = String y1 (String y2 (String y3 (String y4 (String "-"
              (String m1 (String m2 (String "-"
                 (String d1 (String d2 EmptyString)))))))))
        /\ forallb Chars.is_digit [y1; y2; y3; y4; m1; m2; d1; d2] = true.
Proof.
  unfold Zod.is_iso_date. split.
  - pose proof (DateFacts.split_concat "-" s) as Hs.
    destruct (Chars.split "-" s) as [|y [|m [|d [|]]]]; try discriminate.
    intros Hshape.
    repeat match type of Hshape with
           | _ && _ = true => apply andb_prop in Hshape as [Hshape ?]
           end.
    repeat match goal with
           | Hlen : Nat.eqb _ _ = true |- _ => apply Nat.eqb_eq in Hlen
           end.
    destruct (DateFacts.digits4 y) as (y1 & y2 & y3 & y4 & -> & Hy); [assumption..|].
    destruct (DateFacts.digits2 m) as (m1 & m2 & -> & Hm); [assumption..|].
    destruct (DateFacts.digits2 d) as (d1 & d2 & -> & Hd); [assumption..|].
    exists y1, y2, y3, y4, m1, m2, d1, d2. split; [now rewrite <- Hs|].
    cbn [forallb] in *.
    repeat match goal with
           | Hc : _ && _ = true |- _ => apply andb_prop in Hc as [? Hc]
           end.
    repeat match goal with
           | Hc : Chars.is_digit ?c = true |- context [Chars.is_digit ?c] => rewrite Hc
           end.
    reflexivity.
  - intros (y1 & y2 & y3 & y4 & m1 & m2 & d1 & d2 & -> & Hdigits).
    cbn [forallb] in Hdigits.
    repeat match type of Hdigits with
           | _ && _ = true =>
               let Hc := fresh "Hc" in apply andb_prop in Hdigits as [Hc Hdigits]
           end.
    cbn [Chars.split].
    repeat match goal with
           | Hd : Chars.is_digit ?c = true |- context [Ascii.eqb ?c "-"] =>
               rewrite (NumberFacts.digit_no_dash c Hd)
           end.
    cbn [Ascii.eqb Bool.eqb Chars.all String.length Nat.eqb].
    repeat match goal with
           | Hd : Chars.is_digit ?c = true |- context [Chars.is_digit ?c] => rewrite Hd
           end.
    reflexivity.
Qed.

(** ** The end of a session *)

Module ExpiryFacts.
Section WithPrimitives.
Context `{Primitives}.

Lemma verifyToken_expired (p : Process) (c : Auth.JWTPayload) (issued : Z) :
  issued / 1000 + 604800 <= clock p / 1000 ->
  Auth.verifyToken p
    (Jsonwebtoken.compact (Json.JObject (Auth.issued_claims c issued)) (Auth.JWT_SECRET p))
  = Returns None.
Proof.
  intros Hlate. unfold Auth.verifyToken, Auth.issued_claims.
  rewrite JwtFacts.verify_compact
    by (apply (AuthFacts.issued_claims_flat c issued) || apply AuthFacts.JWT_SECRET_nonempty).
  fold (Auth.issued_claims c issued).
  unfold Jsonwebtoken.check_not_before, Jsonwebtoken.check_expiry.
  change (Jsonwebtoken.time_claim_of "nbf" (Json.JObject (Auth.issued_claims c issued)))
    with Jsonwebtoken.Absent.
  change (Jsonwebtoken.time_claim_of "exp" (Json.JObject (Auth.issued_claims c issued)))
    with (Jsonwebtoken.At (Js.of_Z (issued / 1000 + 604800))).
  cbn [mbind outcome_bind]. rewrite JsFacts.ge_of_Z.
  replace (issued / 1000 + 604800 <=? clock p / 1000) with true
    by (symmetry; apply Z.leb_le; lia).
  reflexivity.
Qed.

Lemma no_cookie_denied (p : Process) (request : NextRequest) :
  cookies request !! "token" = None ->
  Auth.requireAuth p request = Raise Unauthorized.
Proof.
  intros Hcookie. unfold Auth.requireAuth, Auth.getCurrentUser.
  rewrite Hcookie. reflexivity.
Qed.

End WithPrimitives.
End ExpiryFacts.

(** X22. A session lasts exactly as long as the token says.  A request
    that carries a token issued under the same secret passes [requireAuth]
    exactly when the clock, in whole seconds, is before the issuing second
    plus 604800; from that second on, every protected handler answers 401
    and performs no effect. *)
Theorem session_expiry `{Primitives} (issuer p : Process) (c : Auth.JWTPayload)
  (token : string) (request : NextRequest) (params_id : string) (env : environment) :
  Auth.JWT_SECRET issuer = Auth.JWT_SECRET p ->
  Auth.generateToken issuer c = Returns token ->
  cookies request !! "token" = Some token ->
  ((exists claim, Auth.requireAuth p request = Done claim)
   <-> clock p / 1000 < clock issuer / 1000 + 604800)
  /\ (clock issuer / 1000 + 604800 <= clock p / 1000 ->
      Forall (fun handler => run env [] handler = (Returns unauthorized, []))
        (protected_handlers p request params_id)).
Proof.
  intros Hsecret Htoken Hcookie.
  assert (Hlate : clock issuer / 1000 + 604800 <= clock p / 1000 ->
                  Auth.requireAuth p request = Raise Unauthorized).
  { intros Hlate. rewrite AuthFacts.generateToken_compact in Htoken.
    apply (f_equal (fun o => match o with Returns t => t | Throws _ => token end))
      in Htoken.
    unfold Auth.requireAuth, Auth.getCurrentUser. rewrite Hcookie, <- Htoken.
    cbn [present]. rewrite SessionFacts.compact_nonempty, Hsecret.
    rewrite ExpiryFacts.verifyToken_expired by exact Hlate. reflexivity. }
  split; [split|].
  - intros [claim Hclaim].
    destruct (Z.lt_ge_cases (clock p / 1000) (clock issuer / 1000 + 604800))
      as [Hlt|Hge]; [exact Hlt|].
    rewrite (Hlate Hge) in Hclaim. discriminate Hclaim.
  - intros Hwindow. eexists.
    exact (SessionFacts.requireAuth_issued issuer p c token request
             Hsecret Hwindow Htoken Hcookie).
  - intros Hge.
    eapply Forall_impl; [apply (HandlerFacts.denied p request params_id (Hlate Hge))|].
    intros handler ->. reflexivity.
Qed.

Lemma session_expiry_witness :
  Forall (fun handler => run empty_store [] handler = (Returns unauthorized, []))
    (protected_handlers (H := sample_primitives) sample_process
       (request_with stale_token) "12").
Proof.
  destruct (session_expiry (H := sample_primitives)
              {| env := ∅; clock := 0; entropy := fun _ => Ascii.zero |}
              sample_process alice stale_token (request_with stale_token) "12"
              empty_store) as [_ Hlate].
  - reflexivity.
  - vm_compute. reflexivity.
  - reflexivity.
  - apply Hlate. vm_compute. discriminate.
Defined.

(** X23. Logging out ends the session on the client and nowhere else.
    The logout handler needs no session, performs no effect and sets no
    cookie; it deletes one cookie, and that is the cookie the gate reads:
    a request whose cookies are those of any earlier request without the
    deleted one is answered 401 by every protected handler, before any
    effect. *)
Theorem logout_ends_session `{Primitives} (p : Process) (request next : NextRequest)
  (params_id : string) (env : environment) :
  exists response,
    run env [] LogoutRoute.POST = (Returns response, [])
    /\ status response = 200
    /\ cookies_set response = []
    /\ cookies_deleted response <> []
    /\ forall name,
         In name (cookies_deleted response) ->
         cookies next = delete name (cookies request) ->
         Forall (fun handler => run env [] handler = (Returns unauthorized, []))
           (protected_handlers p next params_id).
Proof.
  eexists. split; [reflexivity|]. cbn [status cookies_set cookies_deleted].
  repeat split; try discriminate.
  intros name [<-|[]] Hnext.
  assert (Hgate : Auth.requireAuth p next = Raise Unauthorized).
  { apply ExpiryFacts.no_cookie_denied. rewrite Hnext. apply lookup_delete_eq. }
  eapply Forall_impl; [apply (HandlerFacts.denied p next params_id Hgate)|].
  intros handler ->. reflexivity.
Qed.

(** X24. A [JWT_SECRET] that is absent or empty leaves the published
    fallback as the secret.  Then a token built with the constant of the
    source, for any identity and any issuing time within the last 604800
    seconds, passes [requireAuth] with that identity. *)
Theorem fallback_secret_accepts `{Primitives} (p : Process) (c : Auth.JWTPayload)
  (issued : Z) (request : NextRequest) :
  env p !! "JWT_SECRET" = None \/ env p !! "JWT_SECRET" = Some EmptyString ->
  clock p / 1000 < issued / 1000 + 604800 ->
  cookies request !! "token"
  = Some (Jsonwebtoken.compact (Json.JObject (Auth.issued_claims c issued))
            "your-super-secret-jwt-key-change-in-production") ->
  Auth.JWT_SECRET p = "your-super-secret-jwt-key-change-in-production"
  /\ Auth.requireAuth p request = Done (Json.JObject (Auth.issued_claims c issued)).
Proof.
  intros Hunset Hwindow Hcookie.
  assert (Hsecret : Auth.JWT_SECRET p = Auth.fallback_secret)
    by (unfold Auth.JWT_SECRET; destruct Hunset as [-> | ->]; reflexivity).
  split; [exact Hsecret|].
  apply GateFacts.requireAuth_done. split; [|reflexivity].
  unfold Auth.getCurrentUser. rewrite Hcookie. cbn [present].
  rewrite SessionFacts.compact_nonempty.
  change "your-super-secret-jwt-key-change-in-production" with Auth.fallback_secret.
  rewrite <- Hsecret, AuthFacts.verifyToken_issued by exact Hwindow.
  reflexivity.
Qed.

Lemma fallback_secret_accepts_witness :
  Auth.requireAuth (H := sample_primitives) blank_secret_process
    (request_with sample_token)
  = Done (Json.JObject (Auth.issued_claims alice 1700000000123)).
Proof.
  destruct (fallback_secret_accepts (H := sample_primitives) blank_secret_process
              alice 1700000000123 (request_with sample_token)) as [_ Hgate].
  - right. reflexivity.
  - vm_compute. reflexivity.
  - reflexivity.
  - exact Hgate.
Defined.

(** X25. When the datastore fails.  A login whose lookup fails is answered
    as a wrong password is, 401 [Invalid credentials], even when a row came
    with the error; only the console tells.  A registration whose lookup
    fails with anything but the no-rows error, or whose insert fails or
    returns no row, is answered 500; it sets no cookie and does not touch
    the datastore again. *)
Theorem auth_store_failures `{Primitives} (p : Process) (request : NextRequest)
  (b : Json.json) (env : environment) :
  body request = Some b ->
  (forall email password err,
     Zod.loginSchema_parse b = Returns (email, password) ->
     Supabase.error (env _ [] (SelectUserByEmail email)) = Some err ->
     run env [] (LoginRoute.POST p request)
     = (Returns invalid_credentials,
        [Entry (SelectUserByEmail email);
         Entry (ConsoleError "Supabase error:" (Supabase.code err))]))
  /\ (forall email password name,
        Zod.registerSchema_parse b = Returns (email, password, name) ->
        (forall err,
           RegisterRoute.is_real_error (Supabase.error (env _ [] (FindUserByEmail email)))
           = Some err ->
           run env [] (RegisterRoute.POST p request)
           = (Returns internal_error,
              [Entry (FindUserByEmail email);
               Entry (ConsoleError "Supabase existingUser error:" (Supabase.code err))]))
        /\ (forall hash,
              RegisterRoute.is_real_error (Supabase.error (env _ [] (FindUserByEmail email)))
              = None ->
              Supabase.data (env _ [] (FindUserByEmail email)) = None ->
              Bcryptjs.hash password 10 (entropy p) = Returns hash ->
              let r := env _ [Entry (FindUserByEmail email)] (InsertUser email hash name) in
              Supabase.error r <> None \/ Supabase.data r = None ->
              exists detail,
                run env [] (RegisterRoute.POST p request)
                = (Returns internal_error,
                   [Entry (FindUserByEmail email);
                    Entry (InsertUser email hash name);
                    Entry (ConsoleError "Supabase insert user error:" detail)]))).
Proof.
  intros Hbody. split.
  - intros email password err Hparse Herr.
    unfold LoginRoute.POST, request_json, console_error. rewrite Hbody.
    cbn [mbind prog_mbind prog_bind]. rewrite Hparse.
    cbn [lift mbind prog_mbind prog_bind perform try_catch run app].
    rewrite Herr. reflexivity.
  - intros email password name Hparse. split.
    + intros err Herr.
      unfold RegisterRoute.POST, request_json, console_error. rewrite Hbody.
      cbn [mbind prog_mbind prog_bind]. rewrite Hparse.
      cbn [lift mbind prog_mbind prog_bind perform try_catch run app].
      rewrite Herr. reflexivity.
    + intros hash Hlookup Hdata Hhash r Hinsert.
      unfold RegisterRoute.POST, request_json, console_error, Auth.hashPassword.
      rewrite Hbody. cbn [mbind prog_mbind prog_bind]. rewrite Hparse.
      cbn [lift mbind prog_mbind prog_bind perform try_catch run app].
      rewrite Hlookup, Hdata, Hhash.
      cbn [lift mbind prog_mbind prog_bind perform try_catch run app].
      fold r. destruct (Supabase.error r) as [err|] eqn:Herr.
      * eexists. reflexivity.
      * destruct (Supabase.data r) as [user|] eqn:Huser.
        -- destruct Hinsert as [Hinsert|Hinsert]; [now elim Hinsert | discriminate].
        -- eexists. reflexivity.
Qed.

Lemma auth_store_failures_witness :
  run (failing_store connection_error) []
    (LoginRoute.POST (H := sample_primitives) sample_process login_request)
  = (Returns invalid_credentials,
     [Entry (SelectUserByEmail "alice@example.com");
      Entry (ConsoleError "Supabase error:" "08006")]).
Proof.
  destruct (auth_store_failures (H := sample_primitives) sample_process login_request
              (Json.JObject [("email", Json.JString "alice@example.com");
                             ("password", Json.JString "secret123")])
              (failing_store connection_error)) as [Hlogin _].
  - reflexivity.
  - apply (Hlogin "alice@example.com" "secret123" connection_error).
    + vm_compute. reflexivity.
    + reflexivity.
Defined.

(** X26. The budget of a response is [Number] of the budget column.  A
    row without budget is formatted with budget 0.  A row whose [DECIMAL]
    column holds a natural number [n] up to [2^53], sent as a numeral with
    any number of fraction zeros ([1200] or [1200.00]), is formatted with
    budget [n]. *)
Theorem formatted_budget (row : Supabase.ProjectRow) :
  (Supabase.budget row = None ->
   Json.get "budget" (formatProject row) = Some (Json.JNumber (Js.of_Z 0)))
  /\ (forall (n : N) (scale : nat),
        (n <= Js.exact_bound)%N ->
        Supabase.budget row = Some (decimal_text n scale) ->
        Json.get "budget" (formatProject row) = Some (Json.JNumber (Js.Finite false n 0))).
Proof.
  assert (Hget : Json.get "budget" (formatProject row)
                 = Some (Json.JNumber (budget_number (Supabase.budget row))))
    by reflexivity.
  rewrite Hget. split.
  - intros ->. reflexivity.
  - intros n scale Hbound ->. cbn [budget_number].
    now rewrite IdFacts.Number_decimal_text.
Qed.
